(** * crypto-network: the multi-chain service abstraction

    A shallow embedding of the TypeScript sources
    - [types/blockchain.types.ts]: the data model;
    - [config/networks.config.ts]: the network registry;
    - [abstracts/BaseBlockchainService.ts]: the adapter contract;
    - [factory/BlockchainServiceFactory.ts]: the adapter factory;
    - [controllers/blockchain.controller.ts]: the class
      [BlockchainController], with the aggregation;
    - [services/*Service.ts]: the chain adapters (Arbitrum, Avalanche,
      TRC20, Ripple, Cardano, Solana, TON; [PolygonService], which the
      factory imports, is not among the sources at hand),
    followed by the properties proved about them.

    JavaScript numbers are IEEE-754 binary64 values: balances and fees
    are Rocq's primitive floats; counts, block numbers and timestamps,
    which are integers, are in [Z].  The static [Map] cache of the
    factory is a [gmap] keyed by the run-time string of the network
    type. *)

From Stdlib Require Import Floats Ascii String.
From stdpp Require Import gmap strings list pretty.

Local Open Scope string_scope.
Local Open Scope list_scope.

(** ** JavaScript completions

    A call either returns normally or throws.  A thrown value is an
    [Error] instance carrying a message, or some other value (for which
    [instanceof Error] is false and [.message] is [undefined]; not
    [null] or [undefined], of which no property can be read). *)

Inductive JsThrown : Type :=
| JsError (message : string)
| JsNonError.

Inductive Completion (A : Type) : Type :=
| Normal (a : A)
| Throw (e : JsThrown).
Arguments Normal {A} a.
Arguments Throw {A} e.

(** [error.message] as string interpolation renders it. *)
Definition message_of (e : JsThrown) : string :=
  match e with
  | JsError m => m
  | JsNonError => "undefined"
  end.

(** [error instanceof Error ? error.message : 'Unknown error'] *)
Definition message_or_unknown (e : JsThrown) : string :=
  match e with
  | JsError m => m
  | JsNonError => "Unknown error"
  end.

(** [error.message] as a property read: absent on what is no [Error]. *)
Definition message_field (e : JsThrown) : option string :=
  match e with
  | JsError m => Some m
  | JsNonError => None
  end.

(** Pure [try { ... } catch { ... }]. *)
Definition try_catch {A} (body : Completion A) (handler : JsThrown → Completion A)
  : Completion A :=
  match body with
  | Normal a => Normal a
  | Throw e => handler e
  end.

Definition is_normal {A} (c : Completion A) : bool :=
  match c with Normal _ => true | Throw _ => false end.

(** Effectful code: a state [S] threaded through, the state reached at a
    [throw] being kept (JavaScript does not roll back). *)
Definition Eff (S A : Type) : Type := S → Completion A * S.

Definition eff_ret {S A} (a : A) : Eff S A := λ s, (Normal a, s).
Definition eff_throw {S A} (e : JsThrown) : Eff S A := λ s, (Throw e, s).
Definition eff_bind {S A B} (m : Eff S A) (k : A → Eff S B) : Eff S B :=
  λ s, match m s with
       | (Normal a, s') => k a s'
       | (Throw e, s') => (Throw e, s')
       end.
Definition eff_try {S A} (body : Eff S A) (handler : JsThrown → Eff S A) : Eff S A :=
  λ s, match body s with
       | (Normal a, s') => (Normal a, s')
       | (Throw e, s') => handler e s'
       end.
Definition eff_get {S} : Eff S S := λ s, (Normal s, s).
Definition eff_modify {S} (f : S → S) : Eff S unit := λ s, (Normal tt, f s).
Definition eff_lift {S A} (c : Completion A) : Eff S A := λ s, (c, s).

Notation "'let*' x ':=' m 'in' k" := (eff_bind m (λ x, k))
  (at level 10, x name, m at level 100, k at level 200, only parsing).
Notation "m ';;' k" := (eff_bind m (λ _, k))
  (at level 100, k at level 200, right associativity, only parsing).

(** ** [src/types/blockchain.types.ts] *)

Module NetworkConfig.
Record t : Type := mk {
  name : string;
  rpcUrl : string;
  chainId : option Z;
  apiKey : option string;
  testnet : option bool;
  enable : bool
}.
End NetworkConfig.

Module WalletInfo.
Record t : Type := mk {
  address : string;
  balance : float;
  nativeToken : string;
  transactionCount : option Z;
  energy : option float;
  frozenAmount : option float;
  bandwidth : option float
}.
End WalletInfo.

Inductive TxStatus : Type := pending | confirmed | failed.

Module TransactionResponse.
Record t : Type := mk {
  hash : string;
  status : TxStatus;
  blockNumber : option Z;
  gasUsed : option Z;
  fee : option float;
  timestamp : option Z
}.
End TransactionResponse.

Module CreateWalletOptions.
Record t : Type := mk {
  mnemonic : option string;
  password : option string;
  derivationPath : option string;
  keySize : option Z;
  index : option Z
}.
End CreateWalletOptions.

Module WalletCreationResponse.
Record t : Type := mk {
  address : string;
  privateKey : option string;
  publicKey : option string;
  mnemonic : option string;
  seed : option string;
  keyPair : option (string * string);
  derivationPath : option string;
  network : string;
  index : option Z
}.
End WalletCreationResponse.

(** The string enum [NetworkType]; at run time its members are their
    string values. *)
Inductive NetworkType : Type :=
| ARBITRUM | TON | SOLANA | RIPPLE | POLYGON | AVALANCHE | CARDANO | TRC20.

Definition NetworkType_value (n : NetworkType) : string :=
  match n with
  | ARBITRUM => "arbitrum"
  | TON => "ton"
  | SOLANA => "solana"
  | RIPPLE => "ripple"
  | POLYGON => "polygon"
  | AVALANCHE => "avalanche"
  | CARDANO => "cardano"
  | TRC20 => "trc20"
  end.

(** [Object.values(NetworkType)], in declaration order. *)
Definition Object_values_NetworkType : list string :=
  NetworkType_value <$> [ARBITRUM; TON; SOLANA; RIPPLE; POLYGON; AVALANCHE; CARDANO; TRC20].

(** Which member, if any, a run-time string is: the [case] labels of a
    [switch] over the enum compare with [===]. *)
Definition NetworkType_of_string (s : string) : option NetworkType :=
  if String.eqb s "arbitrum" then Some ARBITRUM
  else if String.eqb s "solana" then Some SOLANA
  else if String.eqb s "ton" then Some TON
  else if String.eqb s "ripple" then Some RIPPLE
  else if String.eqb s "polygon" then Some POLYGON
  else if String.eqb s "avalanche" then Some AVALANCHE
  else if String.eqb s "cardano" then Some CARDANO
  else if String.eqb s "trc20" then Some TRC20
  else None.

(** ** [src/config/networks.config.ts]

    [env] is [process.env]: a variable is absent or holds a string; an
    empty string is falsy, so [process.env.X || d] is [d] for it. *)

Definition or_default (v : option string) (d : string) : string :=
  match v with
  | Some s => if String.eqb s EmptyString then d else s
  | None => d
  end.

Definition NETWORK_CONFIGS (env : string → option string) (n : NetworkType)
  : NetworkConfig.t :=
  match n with
  | ARBITRUM =>
      NetworkConfig.mk "Arbitrum One"
        (or_default (env "ARBITRUM_RPC_URL") "https://arb1.arbitrum.io/rpc")
        (Some 42161%Z) None (Some false) false
  | TON =>
      NetworkConfig.mk "TON Mainnet"
        (or_default (env "TON_RPC_URL") "https://toncenter.com/api/v2/jsonRPC")
        None (env "TON_API_KEY") (Some false) false
  | SOLANA =>
      NetworkConfig.mk "Solana Mainnet"
        (or_default (env "SOLANA_RPC_URL") "https://api.mainnet-beta.solana.com")
        None None (Some false) false
  | RIPPLE =>
      NetworkConfig.mk "XRPL Mainnet"
        (or_default (env "RIPPLE_RPC_URL") "wss://xrplcluster.com")
        None None (Some false) false
  | POLYGON =>
      NetworkConfig.mk "Polygon Mainnet"
        (or_default (env "POLYGON_RPC_URL") "https://polygon-rpc.com")
        (Some 137%Z) None (Some false) false
  | AVALANCHE =>
      NetworkConfig.mk "Avalanche C-Chain"
        (or_default (env "AVALANCHE_RPC_URL") "https://api.avax.network/ext/bc/C/rpc")
        (Some 43114%Z) None (Some false) false
  | CARDANO =>
      NetworkConfig.mk "Cardano Mainnet"
        (or_default (env "CARDANO_RPC_URL") "https://cardano-mainnet.blockfrost.io/api/v0")
        None (env "CARDANO_API_KEY") (Some false) false
  | TRC20 =>
      NetworkConfig.mk "Tron Mainnet"
        (or_default (env "TRON_RPC_URL") "https://api.trongrid.io")
        None (env "TRON_API_KEY") (Some false) true
  end.

(** ** [src/abstracts/BaseBlockchainService.ts]

    An adapter object: its identity on the heap ([ref], what [===]
    compares), the concrete class it was built from, and the two fields
    the base constructor stores. *)

Inductive ServiceClass : Type :=
| ArbitrumService | SolanaService | TONService | RippleService
| PolygonService | AvalancheService | CardanoService | TRC20Service.

Record BaseBlockchainService : Type := mkService {
  ref : nat;
  class : ServiceClass;
  config : NetworkConfig.t;
  networkType : NetworkType
}.

Definition getNetworkType (service : BaseBlockchainService) : string :=
  NetworkType_value (networkType service).

(** [{ ...this.config }]: a copy, field for field. *)
Definition getNetworkConfig (service : BaseBlockchainService) : NetworkConfig.t :=
  let c := config service in
  NetworkConfig.mk (NetworkConfig.name c) (NetworkConfig.rpcUrl c)
    (NetworkConfig.chainId c) (NetworkConfig.apiKey c)
    (NetworkConfig.testnet c) (NetworkConfig.enable c).

(** [handleError]: logs, then throws a wrapped [Error]. *)
Definition handleError {A} (networkType : string) (error : JsThrown) (context : string)
  : Completion A :=
  Throw (JsError (networkType +:+ " " +:+ context +:+ " failed: " +:+ message_of error)).

(** ** [src/factory/BlockchainServiceFactory.ts]

    The state the factory works on: its static cache, and what is needed
    to observe the side effects of [createService]: how many adapter
    objects were constructed so far (the next fresh identity), on which
    objects [initialize] was invoked, and what went to [console.error]. *)

Record World : Type := mkWorld {
  services : gmap string BaseBlockchainService;
  constructed : nat;
  initialize_calls : list nat;
  console_error : list string
}.

Definition World_empty : World := mkWorld ∅ 0 [] [].

(** The adapter class each [case] of the [switch] constructs. *)
Definition class_of (n : NetworkType) : ServiceClass :=
  match n with
  | ARBITRUM => ArbitrumService
  | SOLANA => SolanaService
  | TON => TONService
  | RIPPLE => RippleService
  | POLYGON => PolygonService
  | AVALANCHE => AvalancheService
  | CARDANO => CardanoService
  | TRC20 => TRC20Service
  end.

(** The ways the factory's code changes the world. *)
Definition World_construct (w : World) : World :=
  mkWorld (services w) (S (constructed w)) (initialize_calls w) (console_error w).

Definition World_initialize (r : nat) (w : World) : World :=
  mkWorld (services w) (constructed w) (initialize_calls w ++ [r]) (console_error w).

Definition World_set (key : string) (service : BaseBlockchainService) (w : World) : World :=
  mkWorld (<[key := service]> (services w)) (constructed w)
    (initialize_calls w) (console_error w).

Definition World_console_error (line : string) (w : World) : World :=
  mkWorld (services w) (constructed w) (initialize_calls w) (console_error w ++ [line]).

(** [new XService(config, networkType)]: a fresh object.  No adapter
    class declares a constructor, so this is the base constructor: it
    stores its two arguments (and builds a logger, left out here like
    all logging but [console.error]) and cannot fail. *)
Definition new_service (c : ServiceClass) (cfg : NetworkConfig.t) (n : NetworkType)
  : Eff World BaseBlockchainService :=
  λ w, (Normal (mkService (constructed w) c cfg n), World_construct w).

(** [this.services.set(networkType, service)] *)
Definition services_set (key : string) (service : BaseBlockchainService) : Eff World unit :=
  eff_modify (World_set key service).

Definition console_error_push (line : string) : Eff World unit :=
  eff_modify (World_console_error line).

Section Factory.

(** The registry as the process loaded it, the members of the enum, and
    what [initialize] does on a given adapter object: it settles or
    rejects, depending on the network (an object is initialised at most
    once, so successive attempts for one network are distinct objects
    and may fare differently). *)
Variable configs : NetworkType → NetworkConfig.t.
Variable networkTypes : list string.
Variable initialize : BaseBlockchainService → Completion unit.

Definition call_initialize (service : BaseBlockchainService) : Eff World unit :=
  λ w, (initialize service, World_initialize (ref service) w).

(** [createService].  [NETWORK_CONFIGS[networkType]] is read before the
    [switch] in the source; the value is used in the [case] branches
    only, where the key is a member of the enum. *)
Definition createService (networkType : string) : Eff World BaseBlockchainService :=
  let* w := eff_get in
  match services w !! networkType with
  | Some service => eff_ret service
  | None =>
      match NetworkType_of_string networkType with
      | Some n =>
          let config := configs n in
          let* service := new_service (class_of n) config n in
          if NetworkConfig.enable config then
            call_initialize service ;;
            services_set networkType service ;;
            eff_ret service
          else eff_ret service
      | None =>
          eff_throw (JsError ("Unsupported network type: " +:+ networkType))
      end
  end.

(** The [for ... of] loop of [getAllServices], [acc] being the local
    array [services]. *)
Fixpoint getAllServices_from (rest : list string) (acc : list BaseBlockchainService)
  : Eff World (list BaseBlockchainService) :=
  match rest with
  | [] => eff_ret acc
  | networkType :: rest' =>
      let* acc' :=
        eff_try
          (let* service := createService networkType in eff_ret (acc ++ [service]))
          (λ error,
             console_error_push ("Failed to initialize " +:+ networkType +:+ " service:") ;;
             eff_ret acc) in
      getAllServices_from rest' acc'
  end.

Definition getAllServices : Eff World (list BaseBlockchainService) :=
  getAllServices_from networkTypes [].

Definition getAvailableNetworks : list string := networkTypes.

End Factory.

(** ** [src/controllers/blockchain.controller.ts] *)

(** [Promise.allSettled] turns every completion into a settled result. *)
Inductive PromiseSettledResult (A : Type) : Type :=
| fulfilled (value : A)
| rejected (reason : JsThrown).
Arguments fulfilled {A} value.
Arguments rejected {A} reason.

Definition settle {A} (c : Completion A) : PromiseSettledResult A :=
  match c with
  | Normal a => fulfilled a
  | Throw e => rejected e
  end.

Definition Promise_allSettled {A} (promises : list (Completion A))
  : list (PromiseSettledResult A) := settle <$> promises.

Inductive QueryStatus : Type :=
| success | invalid_address | error | status_rejected.

(** One element of [networks] / [failedNetworks]: the object literals of
    [getMultiNetworkBalance]; a field a literal does not set is absent. *)
Module BalanceEntry.
Record t : Type := mk {
  network : option string;
  networkName : option string;
  address : option string;
  balance : option float;
  nativeToken : option string;
  status : QueryStatus;
  error : option string
}.
End BalanceEntry.

Module MultiBalance.
Record t : Type := mk {
  address : string;
  networks : list BalanceEntry.t;
  totalNetworks : nat;
  totalBalance : float;
  failedNetworks : list BalanceEntry.t;
  successfulQueries : nat;
  failedQueries : nat;
  totalNetworksChecked : nat
}.
End MultiBalance.

Inductive HttpResponse (A : Type) : Type :=
| res_json (body : A)
| res_status_json (code : nat) (error : string).
Arguments res_json {A} body.
Arguments res_status_json {A} code error.

Definition is_success (e : BalanceEntry.t) : bool :=
  match BalanceEntry.status e with success => true | _ => false end.

(** [sum + item.balance]: an absent [balance] is [undefined], and a
    number plus [undefined] is [NaN]. *)
Definition add_balance (sum : float) (item : BalanceEntry.t) : float :=
  (sum + match BalanceEntry.balance item with Some b => b | None => nan end)%float.

(** The body of [getBalance]'s success response. *)
Module BalanceBody.
Record t : Type := mk {
  network : string;
  address : string;
  balance : float;
  nativeToken : string
}.
End BalanceBody.

(** The three object literals of [getMultiNetworkBalance]'s callback. *)
Definition success_entry (service : BaseBlockchainService) (walletInfo : WalletInfo.t)
  : BalanceEntry.t :=
  BalanceEntry.mk
    (Some (getNetworkType service))
    (Some (NetworkConfig.name (getNetworkConfig service)))
    (Some (WalletInfo.address walletInfo))
    (Some (WalletInfo.balance walletInfo))
    (Some (WalletInfo.nativeToken walletInfo))
    success None.

Definition invalid_address_entry (service : BaseBlockchainService) : BalanceEntry.t :=
  BalanceEntry.mk
    (Some (getNetworkType service))
    (Some (NetworkConfig.name (getNetworkConfig service)))
    None None None
    invalid_address
    (Some "Address format not supported on this network").

Definition error_entry (service : BaseBlockchainService) (error_ : JsThrown)
  : BalanceEntry.t :=
  BalanceEntry.mk
    (Some (getNetworkType service))
    (Some (NetworkConfig.name (getNetworkConfig service)))
    None None None
    error
    (Some (message_or_unknown error_)).

Section Controller.

Variable configs : NetworkType → NetworkConfig.t.
Variable networkTypes : list string.
Variable initialize : BaseBlockchainService → Completion unit.

(** What the adapters answer; they are the external collaborators. *)
Variable validateAddress : BaseBlockchainService → string → Completion bool.
Variable getBalance_of : BaseBlockchainService → string → Completion float.
Variable getWalletInfo : BaseBlockchainService → string → Completion WalletInfo.t.

(** The [async (service) => { try { ... } catch (error) { ... } }]
    mapped over the adapters. *)
Definition query_balance (address : string) (service : BaseBlockchainService)
  : Completion BalanceEntry.t :=
  try_catch
    (match validateAddress service address with
     | Throw e => Throw e
     | Normal true =>
         match getWalletInfo service address with
         | Throw e => Throw e
         | Normal walletInfo => Normal (success_entry service walletInfo)
         end
     | Normal false => Normal (invalid_address_entry service)
     end)
    (λ error_, Normal (error_entry service error_)).

Definition balances_of (address : string) (services : list BaseBlockchainService)
  : list (PromiseSettledResult BalanceEntry.t) :=
  Promise_allSettled (query_balance address <$> services).

Definition is_successful (result : PromiseSettledResult BalanceEntry.t) : bool :=
  match result with
  | fulfilled value => is_success value
  | rejected _ => false
  end.

Definition is_failed (result : PromiseSettledResult BalanceEntry.t) : bool :=
  match result with
  | rejected _ => true
  | fulfilled value => negb (is_success value)
  end.

(** [(result as PromiseFulfilledResult<any>).value]; the filter before
    it lets fulfilled results through only, a rejected one has no
    [value] (rendered here by an entry with every field absent). *)
Definition value_of (result : PromiseSettledResult BalanceEntry.t) : BalanceEntry.t :=
  match result with
  | fulfilled value => value
  | rejected _ => BalanceEntry.mk None None None None None status_rejected None
  end.

(** [result.status === 'rejected'
      ? { error: result.reason.message, status: 'rejected' } : value] *)
Definition failed_entry (result : PromiseSettledResult BalanceEntry.t) : BalanceEntry.t :=
  match result with
  | rejected reason =>
      BalanceEntry.mk None None None None None status_rejected (message_field reason)
  | fulfilled value => value
  end.

Definition successful_of (balances : list (PromiseSettledResult BalanceEntry.t))
  : list BalanceEntry.t :=
  value_of <$> filter (λ r, is_successful r = true) balances.

Definition failed_of (balances : list (PromiseSettledResult BalanceEntry.t))
  : list BalanceEntry.t :=
  failed_entry <$> filter (λ r, is_failed r = true) balances.

Definition totalBalance_of (successful : list BalanceEntry.t) : float :=
  fold_left add_balance successful 0%float.

Definition multi_balance_body (address : string)
    (balances : list (PromiseSettledResult BalanceEntry.t)) : MultiBalance.t :=
  let successful := successful_of balances in
  let failed := failed_of balances in
  let totalBalance := totalBalance_of successful in
  MultiBalance.mk address successful (length successful) totalBalance failed
    (length successful) (length failed) (length balances).

Definition getMultiNetworkBalance (address : string)
  : Eff World (HttpResponse MultiBalance.t) :=
  eff_try
    (let* services := getAllServices configs networkTypes initialize in
     let balances := balances_of address services in
     eff_ret (res_json (multi_balance_body address balances)))
    (λ _, eff_ret (res_status_json 500 "Failed to get multi-network balance")).

Definition getBalance (network address : string)
  : Eff World (HttpResponse BalanceBody.t) :=
  eff_try
    (let* service := createService configs initialize network in
     let* valid := eff_lift (validateAddress service address) in
     if negb valid then eff_ret (res_status_json 400 "Invalid address format")
     else
       let* balance := eff_lift (getBalance_of service address) in
       let* walletInfo := eff_lift (getWalletInfo service address) in
       eff_ret (res_json (BalanceBody.mk network address balance
                            (WalletInfo.nativeToken walletInfo))))
    (λ _, eff_ret (res_status_json 500 "Failed to get balance")).

End Controller.


(** ** [src/services/*Service.ts]: the adapters

    Every adapter keeps its connection and, optionally, a signing wallet
    in fields that [initialize] sets; a freshly constructed adapter has
    them [undefined].  A method is a computation over these fields.  The
    functions of the chain SDKs ([ethers], [tronweb], [xrpl], ...), the
    clock and [parseFloat] are the variables of each section: what they
    return, or throw, is not this repository's code.  Byte buffers are
    written as their hexadecimal strings. *)

(** Reading a property of [undefined]. *)
Definition TypeError_undefined (property : string) : JsThrown :=
  JsError ("Cannot read properties of undefined (reading '" +:+ property +:+ "')").

(** [this.field.method(...)] where the field may still be [undefined]. *)
Definition with_field {S F A} (field : S → option F) (property : string)
    (call : F → Completion A) : Eff S A :=
  λ this, (match field this with
           | Some f => call f
           | None => Throw (TypeError_undefined property)
           end, this).

(** [try { ... } catch (error) { this.handleError(error, context) }] *)
Definition or_handleError {S A} (self : BaseBlockchainService) (context : string)
    (body : Eff S A) : Eff S A :=
  eff_try body (λ error_, eff_lift (handleError (getNetworkType self) error_ context)).

(** Truthiness: of an optional string ([undefined] and the empty string are falsy),
    of an optional integer ([undefined] and [0] are falsy). *)
Definition truthy (v : option string) : option string :=
  match v with
  | Some s => if String.eqb s EmptyString then None else Some s
  | None => None
  end.

Definition truthy_Z (v : option Z) : option Z :=
  match v with
  | Some z => if Z.eqb z 0 then None else Some z
  | None => None
  end.

(** [a || b] on optional strings. *)
Definition or_else (a b : option string) : option string :=
  match truthy a with
  | Some s => Some s
  | None => b
  end.

(** The bytes a call draws from the system's random generator. *)
Definition Entropy : Type := string.

(** [options?.mnemonic], [options?.index], [options?.derivationPath] *)
Definition opt_mnemonic (options : option CreateWalletOptions.t) : option string :=
  options ≫= CreateWalletOptions.mnemonic.
Definition opt_index (options : option CreateWalletOptions.t) : option Z :=
  options ≫= CreateWalletOptions.index.
Definition opt_derivationPath (options : option CreateWalletOptions.t) : option string :=
  options ≫= CreateWalletOptions.derivationPath.

(** [options.derivationPath || `m/44'/<coin>'/${index}'<tail>`] *)
Definition derivation_path (options : option CreateWalletOptions.t)
    (coin : string) (index : Z) (tail : string) : string :=
  or_default (opt_derivationPath options)
    ("m/44'/" +:+ coin +:+ "'/" +:+ pretty index +:+ "'" +:+ tail).

(** *** [ArbitrumService] *)
Module ArbitrumService.

(** What [ethers] hands back: a transaction ([gasPrice] may be [null]),
    a receipt, a wallet.  Gas amounts are below 2^53, where [Number(..)]
    and [BigInt(..)] are exact. *)
Record Tx : Type := mkTx {
  tx_gasPrice : option Z
}.

Record Receipt : Type := mkReceipt {
  status : option Z;
  gasUsed : Z;
  gasPrice : option Z;
  blockNumber : Z
}.

Record Wallet : Type := mkWallet {
  address : string;
  privateKey : string;
  publicKey : string;
  mnemonic_phrase : option string
}.

Record State : Type := mkState {
  provider : option string;
  wallet : option Wallet
}.

(** What the adapter's code calls and does not define. *)
Class Sdk : Type := mkSdk {
  ethers_isAddress : string → Completion bool;
  provider_getTransaction : string → string → Completion (option Tx);
  provider_getTransactionReceipt : string → string → Completion (option Receipt);
  ethers_formatEther : Z → string;
  parseFloat : string → float;
  now : Z;
  env : string → option string;
  Mnemonic_fromPhrase : string → Completion string;
  HDNodeWallet_fromMnemonic : string → option string → Completion Wallet;
  Wallet_createRandom : Entropy → Completion Wallet
}.

Section Methods.

Context {sdk : Sdk}.

Definition validateAddress (address : string) : Eff State bool :=
  eff_try (eff_lift (ethers_isAddress address)) (λ _, eff_ret false).

(** [receipt.gasPrice || tx.gasPrice || 0n] *)
Definition effectiveGasPrice (receipt : Receipt) (tx : Tx) : Z :=
  match truthy_Z (gasPrice receipt) with
  | Some p => p
  | None => match truthy_Z (tx_gasPrice tx) with
            | Some p => p
            | None => 0
            end
  end.

Definition getTransactionStatus (self : BaseBlockchainService) (hash : string)
  : Eff State TransactionResponse.t :=
  or_handleError self "getTransactionStatus"
    (let* tx := with_field provider "getTransaction"
                  (λ p, provider_getTransaction p hash) in
     match tx with
     | None =>
         eff_ret (TransactionResponse.mk hash failed None None None (Some now))
     | Some tx =>
         let* receipt := with_field provider "getTransactionReceipt"
                           (λ p, provider_getTransactionReceipt p hash) in
         match receipt with
         | Some receipt =>
             let status_ := if decide (status receipt = Some 1%Z)
                            then confirmed else failed in
             let fee := parseFloat (ethers_formatEther
                                      (gasUsed receipt * effectiveGasPrice receipt tx)) in
             eff_ret (TransactionResponse.mk hash status_
                        (Some (blockNumber receipt)) (Some (gasUsed receipt))
                        (Some fee) (Some now))
         | None =>
             eff_ret (TransactionResponse.mk hash pending None None None (Some now))
         end
     end).

Definition createWallet (self : BaseBlockchainService)
    (options : option CreateWalletOptions.t) (entropy : Entropy)
  : Eff State WalletCreationResponse.t :=
  or_handleError self "createWallet"
    (match truthy (or_else (opt_mnemonic options) (env "ARBITRUM_SEED")) with
     | Some targetMnemonic =>
         let* mnemonicObj := eff_lift (Mnemonic_fromPhrase targetMnemonic) in
         match opt_index options with
         | Some index =>
             let usedDerivationPath := derivation_path options "60" index "/0/0" in
             let* wallet :=
               eff_lift (HDNodeWallet_fromMnemonic mnemonicObj (Some usedDerivationPath)) in
             eff_ret (WalletCreationResponse.mk (address wallet)
                        (Some (privateKey wallet)) (Some (publicKey wallet))
                        (Some targetMnemonic) None None
                        (Some usedDerivationPath) "Arbitrum" (Some index))
         | None =>
             let* wallet := eff_lift (HDNodeWallet_fromMnemonic mnemonicObj None) in
             eff_ret (WalletCreationResponse.mk (address wallet)
                        (Some (privateKey wallet)) (Some (publicKey wallet))
                        (Some targetMnemonic) None None None "Arbitrum" None)
         end
     | None =>
         match opt_index options with
         | Some index =>
             let* randomWallet := eff_lift (Wallet_createRandom entropy) in
             match truthy (mnemonic_phrase randomWallet) with
             | Some mnemonic =>
                 let usedDerivationPath := derivation_path options "60" index "/0/0" in
                 let* mnemonicObj := eff_lift (Mnemonic_fromPhrase mnemonic) in
                 let* wallet :=
                   eff_lift (HDNodeWallet_fromMnemonic mnemonicObj
                               (Some usedDerivationPath)) in
                 eff_ret (WalletCreationResponse.mk (address wallet)
                            (Some (privateKey wallet)) (Some (publicKey wallet))
                            (Some mnemonic) None None
                            (Some usedDerivationPath) "Arbitrum" (Some index))
             | None =>
                 eff_throw (JsError "Failed to generate mnemonic for new wallet")
             end
         | None =>
             let* wallet := eff_lift (Wallet_createRandom entropy) in
             eff_ret (WalletCreationResponse.mk (address wallet)
                        (Some (privateKey wallet)) (Some (publicKey wallet))
                        (mnemonic_phrase wallet) None None None "Arbitrum" None)
         end
     end).

End Methods.

End ArbitrumService.

(** *** [AvalancheService] *)
Module AvalancheService.

Record Tx : Type := mkTx {
  tx_gasPrice : option Z
}.

Record Receipt : Type := mkReceipt {
  status : option Z;
  gasUsed : Z;
  gasPrice : option Z;
  blockNumber : Z
}.

Record Wallet : Type := mkWallet {
  address : string;
  privateKey : string;
  publicKey : string;
  mnemonic_phrase : option string
}.

Record State : Type := mkState {
  provider : option string;
  wallet : option Wallet
}.

(** What the adapter's code calls and does not define. *)
Class Sdk : Type := mkSdk {
  ethers_isAddress : string → Completion bool;
  provider_getTransaction : string → string → Completion (option Tx);
  provider_getTransactionReceipt : string → string → Completion (option Receipt);
  ethers_formatEther : Z → string;
  parseFloat : string → float;
  now : Z;
  env : string → option string;
  Mnemonic_fromPhrase : string → Completion string;
  HDNodeWallet_fromMnemonic : string → option string → Completion Wallet;
  Wallet_createRandom : Entropy → Completion Wallet
}.

Section Methods.

Context {sdk : Sdk}.

Definition validateAddress (address : string) : Eff State bool :=
  eff_try (eff_lift (ethers_isAddress address)) (λ _, eff_ret false).

Definition effectiveGasPrice (receipt : Receipt) (tx : Tx) : Z :=
  match truthy_Z (gasPrice receipt) with
  | Some p => p
  | None => match truthy_Z (tx_gasPrice tx) with
            | Some p => p
            | None => 0
            end
  end.

Definition getTransactionStatus (self : BaseBlockchainService) (hash : string)
  : Eff State TransactionResponse.t :=
  or_handleError self "getTransactionStatus"
    (let* tx := with_field provider "getTransaction"
                  (λ p, provider_getTransaction p hash) in
     match tx with
     | None =>
         eff_ret (TransactionResponse.mk hash failed None None None (Some now))
     | Some tx =>
         let* receipt := with_field provider "getTransactionReceipt"
                           (λ p, provider_getTransactionReceipt p hash) in
         match receipt with
         | Some receipt =>
             let status_ := if decide (status receipt = Some 1%Z)
                            then confirmed else failed in
             let fee := parseFloat (ethers_formatEther
                                      (gasUsed receipt * effectiveGasPrice receipt tx)) in
             eff_ret (TransactionResponse.mk hash status_
                        (Some (blockNumber receipt)) (Some (gasUsed receipt))
                        (Some fee) (Some now))
         | None =>
             eff_ret (TransactionResponse.mk hash pending None None None (Some now))
         end
     end).

(** As in [ArbitrumService], with [mnemonic] assigned before the test on
    the index, coin type 9000 and the seed variable [AVALANCHE_SEED]. *)
Definition createWallet (self : BaseBlockchainService)
    (options : option CreateWalletOptions.t) (entropy : Entropy)
  : Eff State WalletCreationResponse.t :=
  or_handleError self "createWallet"
    (match truthy (or_else (opt_mnemonic options) (env "AVALANCHE_SEED")) with
     | Some targetMnemonic =>
         let* mnemonicObj := eff_lift (Mnemonic_fromPhrase targetMnemonic) in
         match opt_index options with
         | Some index =>
             let usedDerivationPath := derivation_path options "9000" index "/0/0" in
             let* wallet :=
               eff_lift (HDNodeWallet_fromMnemonic mnemonicObj (Some usedDerivationPath)) in
             eff_ret (WalletCreationResponse.mk (address wallet)
                        (Some (privateKey wallet)) (Some (publicKey wallet))
                        (Some targetMnemonic) None None
                        (Some usedDerivationPath) "avalanche" (Some index))
         | None =>
             let* wallet := eff_lift (HDNodeWallet_fromMnemonic mnemonicObj None) in
             eff_ret (WalletCreationResponse.mk (address wallet)
                        (Some (privateKey wallet)) (Some (publicKey wallet))
                        (Some targetMnemonic) None None None "avalanche" None)
         end
     | None =>
         match opt_index options with
         | Some index =>
             let* randomWallet := eff_lift (Wallet_createRandom entropy) in
             match truthy (mnemonic_phrase randomWallet) with
             | Some mnemonic =>
                 let usedDerivationPath := derivation_path options "9000" index "/0/0" in
                 let* mnemonicObj := eff_lift (Mnemonic_fromPhrase mnemonic) in
                 let* wallet :=
                   eff_lift (HDNodeWallet_fromMnemonic mnemonicObj
                               (Some usedDerivationPath)) in
                 eff_ret (WalletCreationResponse.mk (address wallet)
                            (Some (privateKey wallet)) (Some (publicKey wallet))
                            (Some mnemonic) None None
                            (Some usedDerivationPath) "avalanche" (Some index))
             | None =>
                 eff_throw (JsError "Failed to generate mnemonic for new wallet")
             end
         | None =>
             let* wallet := eff_lift (Wallet_createRandom entropy) in
             eff_ret (WalletCreationResponse.mk (address wallet)
                        (Some (privateKey wallet)) (Some (publicKey wallet))
                        (mnemonic_phrase wallet) None None None "avalanche" None)
         end
     end).

End Methods.

End AvalancheService.

(** *** [TRC20Service] *)
Module TRC20Service.

Record Transaction : Type := mkTransaction {
  txID : option string
}.

Record TransactionInfo : Type := mkTransactionInfo {
  id : option string;
  result : option string;
  blockNumber : option Z;
  fee : option Z;
  receipt_energy_usage : option Z
}.

(** What [tronWeb] (typed [any]) hands back as an account: an object
    with an [address] object inside, or a bare address string. *)
Inductive Account : Type :=
| AccountObject (base58 : string) (privateKey publicKey : option string)
| AccountString (address : string).

(** [tronWeb] is the [TronWeb] instance (here: the host it was built
    for), [wallet] the address derived from the configured key. *)
Record State : Type := mkState {
  tronWeb : option string;
  wallet : option string
}.

(** What the adapter's code calls and does not define. *)
Class Sdk : Type := mkSdk {
  tronWeb_isAddress : string → string → Completion bool;
  trx_getTransaction : string → string → Completion (option Transaction);
  trx_getTransactionInfo : string → string → Completion TransactionInfo;
  tronWeb_fromSun : string → Z → string;
  Number_of_string : string → float;
  now : Z;
  bip39_validateMnemonic : string → bool;
  bip39_mnemonicToSeedSync : string → Completion string;
  bip39_generateMnemonic : Entropy → string;
  bip32_fromSeed : string → Completion string;
  bip32_derivePath : string → string → Completion string;
  bip32_privateKey_hex : string → Completion string;
  address_fromPrivateKey : string → string → Completion Account;
  tronWeb_createAccount : string → Entropy → Completion Account
}.

Section Methods.

Context {sdk : Sdk}.

Definition validateAddress (address : string) : Eff State bool :=
  eff_try
    (with_field tronWeb "isAddress" (λ tw, tronWeb_isAddress tw address))
    (λ _, eff_ret false).

Definition getTransactionStatus (self : BaseBlockchainService) (hash : string)
  : Eff State TransactionResponse.t :=
  or_handleError self "getTransactionStatus"
    (let* transaction :=
       with_field tronWeb "trx" (λ tw, trx_getTransaction tw hash) in
     match transaction ≫= (λ t, truthy (txID t)) with
     | None =>
         eff_ret (TransactionResponse.mk hash failed None None None (Some now))
     | Some _ =>
         let* transactionInfo :=
           with_field tronWeb "trx" (λ tw, trx_getTransactionInfo tw hash) in
         let status :=
           match truthy (id transactionInfo) with
           | Some _ =>
               if decide (result transactionInfo = Some "SUCCESS")
               then confirmed else failed
           | None => pending
           end in
         let* fee :=
           match truthy_Z (fee transactionInfo) with
           | Some sun =>
               with_field tronWeb "fromSun"
                 (λ tw, Normal (Some (Number_of_string (tronWeb_fromSun tw sun))))
           | None => eff_ret None
           end in
         eff_ret (TransactionResponse.mk hash status
                    (blockNumber transactionInfo)
                    (receipt_energy_usage transactionInfo)
                    fee (Some now))
     end).

(** [account.address.base58]: an account that is a bare string has no
    [address]. *)
Definition account_base58 (account : Account) : Completion string :=
  match account with
  | AccountObject base58 _ _ => Normal base58
  | AccountString _ => Throw (TypeError_undefined "base58")
  end.

Definition account_privateKey (account : Account) : option string :=
  match account with
  | AccountObject _ privateKey _ => privateKey
  | AccountString _ => None
  end.

Definition account_publicKey (account : Account) : option string :=
  match account with
  | AccountObject _ _ publicKey => publicKey
  | AccountString _ => None
  end.

(** Two draws of randomness on the path without a mnemonic: one for
    the account, one for the mnemonic reported next to it. *)
Definition createWallet (self : BaseBlockchainService)
    (options : option CreateWalletOptions.t) (entropy entropy' : Entropy)
  : Eff State WalletCreationResponse.t :=
  or_handleError self "createWallet"
    (let* created :=
       match truthy (opt_mnemonic options) with
       | Some mnemonic =>
           if negb (bip39_validateMnemonic mnemonic)
           then eff_throw (JsError "Invalid mnemonic phrase")
           else
             let* seed := eff_lift (bip39_mnemonicToSeedSync mnemonic) in
             let* root := eff_lift (bip32_fromSeed seed) in
             let derivationPath :=
               derivation_path options "195"
                 (default 0%Z (truthy_Z (opt_index options))) "/0/0" in
             let* child := eff_lift (bip32_derivePath root derivationPath) in
             let* privateKey := eff_lift (bip32_privateKey_hex child) in
             let* account :=
               with_field tronWeb "address"
                 (λ tw, address_fromPrivateKey tw privateKey) in
             eff_ret (account, Some mnemonic, Some derivationPath)
       | None =>
           let* account :=
             with_field tronWeb "createAccount"
               (λ tw, tronWeb_createAccount tw entropy) in
           match opt_index options with
           | Some index =>
               eff_ret (account, Some (bip39_generateMnemonic entropy'),
                        Some (derivation_path options "195" index "/0/0"))
           | None => eff_ret (account, None, None)
           end
       end in
     let account := created.1.1 in
     let* base58 := eff_lift (account_base58 account) in
     eff_ret (WalletCreationResponse.mk base58
                (account_privateKey account) (account_publicKey account)
                created.1.2 None None created.2 "tron" (opt_index options))).

End Methods.

End TRC20Service.

(** *** [RippleService] *)
Module RippleService.

Record Wallet : Type := mkWallet {
  address : string;
  seed : option string;
  publicKey : string;
  privateKey : string
}.

(** The [result] of a [tx] request, as far as it is read. *)
Record TxResult : Type := mkTxResult {
  validated : option bool;
  Fee : option string;
  ledger_index : option Z;
  date : option Z
}.

Record State : Type := mkState {
  client : option string;
  wallet : option Wallet
}.

(** The class [[1-9A-HJ-NP-Za-km-z]]. *)
Definition base58_char (c : ascii) : bool :=
  let n := nat_of_ascii c in
  ((49 <=? n)%nat && (n <=? 57)%nat)
  || ((65 <=? n)%nat && (n <=? 72)%nat)
  || ((74 <=? n)%nat && (n <=? 78)%nat)
  || ((80 <=? n)%nat && (n <=? 90)%nat)
  || ((97 <=? n)%nat && (n <=? 107)%nat)
  || ((109 <=? n)%nat && (n <=? 122)%nat).

(** [/^r[1-9A-HJ-NP-Za-km-z]{25,34}$/.test(address)] *)
Definition address_pattern (address : string) : bool :=
  match address with
  | String "r"%char rest =>
      (25 <=? String.length rest)%nat && (String.length rest <=? 34)%nat
      && forallb base58_char (list_ascii_of_string rest)
  | _ => false
  end.

(** What the adapter's code calls and does not define. *)
Class Sdk : Type := mkSdk {
  isValidAddress : string → Completion bool;
  client_request_tx : string → string → Completion TxResult;
  dropsToXrp : string → Completion string;
  parseFloat : string → float;
  now : Z;
  generateMnemonic : Entropy → string;
  mnemonicToSeedSync : string → Completion string;
  derivePath_key : string → string → Completion string;
  Wallet_fromSeed : string → Completion Wallet;
  Wallet_generate : Entropy → Completion Wallet
}.

Section Methods.

Context {sdk : Sdk}.

Definition validateAddress (address : string) : Eff State bool :=
  eff_try (eff_lift (isValidAddress address))
    (λ _, eff_ret (address_pattern address)).

Definition getTransactionStatus (self : BaseBlockchainService) (hash : string)
  : Eff State TransactionResponse.t :=
  or_handleError self "getTransactionStatus"
    (let* response :=
       with_field client "request" (λ c, client_request_tx c hash) in
     let status := if default false (validated response)
                   then confirmed else pending in
     let* fee :=
       match truthy (Fee response) with
       | Some drops =>
           let* xrp := eff_lift (dropsToXrp drops) in
           eff_ret (Some (parseFloat xrp))
       | None => eff_ret None
       end in
     eff_ret (TransactionResponse.mk hash status
                (ledger_index response) None fee
                (Some match truthy_Z (date response) with
                      | Some d => (d + 946684800)%Z
                      | None => now
                      end))).

(** The wallet derived from a mnemonic along a path. *)
Definition derived_wallet (mnemonic usedDerivationPath : string) : Completion Wallet :=
  match mnemonicToSeedSync mnemonic with
  | Throw e => Throw e
  | Normal seed_ =>
      match derivePath_key usedDerivationPath seed_ with
      | Throw e => Throw e
      | Normal derivedSeed => Wallet_fromSeed derivedSeed
      end
  end.

Definition createWallet (self : BaseBlockchainService)
    (options : option CreateWalletOptions.t) (entropy : Entropy)
  : Eff State WalletCreationResponse.t :=
  or_handleError self "createWallet"
    (let* created :=
       match truthy (opt_mnemonic options) with
       | Some mnemonic =>
           match opt_index options with
           | Some index =>
               let usedDerivationPath := derivation_path options "144" index "/0/0" in
               let* wallet := eff_lift (derived_wallet mnemonic usedDerivationPath) in
               eff_ret (wallet, Some mnemonic, Some index, Some usedDerivationPath)
           | None =>
               let* wallet := eff_lift (Wallet_fromSeed mnemonic) in
               eff_ret (wallet, Some mnemonic, None, None)
           end
       | None =>
           match opt_index options with
           | Some index =>
               let mnemonic := generateMnemonic entropy in
               let usedDerivationPath := derivation_path options "144" index "/0/0" in
               let* wallet := eff_lift (derived_wallet mnemonic usedDerivationPath) in
               eff_ret (wallet, Some mnemonic, Some index, Some usedDerivationPath)
           | None =>
               let* wallet := eff_lift (Wallet_generate entropy) in
               eff_ret (wallet, None, None, None)
           end
       end in
     let '(wallet, mnemonic, usedIndex, usedDerivationPath) := created in
     eff_ret (WalletCreationResponse.mk (address wallet)
                (Some (privateKey wallet)) (Some (publicKey wallet))
                mnemonic (seed wallet) None usedDerivationPath "ripple" usedIndex)).

End Methods.

End RippleService.

(** *** [CardanoService] *)
Module CardanoService.

(** [privateKey] and [publicKey] are the SDK's key objects, written
    as the hexadecimal of their [as_bytes()]. *)
Record WalletData : Type := mkWalletData {
  privateKey : string;
  publicKey : string;
  address : string
}.

Record State : Type := mkState {
  apiUrl : option string;
  wallet : option (WalletData * option string)
}.

Definition harden (num : Z) : Z := (2147483648 + num)%Z.

(** What the adapter's code calls and does not define. *)
Class Sdk : Type := mkSdk {
  Address_from_bech32 : string → Completion string;
  generateMnemonic : Z → Entropy → string;
  mnemonicToEntropy : string → Completion string;
  Bip32PrivateKey_from_bip39_entropy : string → string → Completion string;
  Bip32PrivateKey_derive : string → Z → Completion string;
  Bip32PrivateKey_to_raw_key : string → Completion string;
  PrivateKey_to_public : string → Completion string;
  PublicKey_hash : string → Completion string;
  NetworkInfo_mainnet_network_id : Z;
  Credential_from_keyhash : string → Completion string;
  BaseAddress_new : Z → string → string → Completion string;
  BaseAddress_to_bech32 : string → Completion string
}.

Section Methods.

Context {sdk : Sdk}.

(** The address object [from_bech32] returns is dropped. *)
Definition validateAddress (address : string) : Eff State bool :=
  eff_try
    (let* _ := eff_lift (Address_from_bech32 address) in eff_ret true)
    (λ _, eff_ret false).

Definition createWalletFromMnemonic (mnemonic : string) : Eff State WalletData :=
  eff_try
    (let* entropy := eff_lift (mnemonicToEntropy mnemonic) in
     let* rootKey := eff_lift (Bip32PrivateKey_from_bip39_entropy entropy EmptyString) in
     let* k1 := eff_lift (Bip32PrivateKey_derive rootKey (harden 1852)) in
     let* k2 := eff_lift (Bip32PrivateKey_derive k1 (harden 1815)) in
     let* accountKey := eff_lift (Bip32PrivateKey_derive k2 (harden 0)) in
     let* k3 := eff_lift (Bip32PrivateKey_derive accountKey 0) in
     let* spendingKey := eff_lift (Bip32PrivateKey_derive k3 0) in
     let* privateKey := eff_lift (Bip32PrivateKey_to_raw_key spendingKey) in
     let* publicKey := eff_lift (PrivateKey_to_public privateKey) in
     let* keyhash := eff_lift (PublicKey_hash publicKey) in
     let* payment := eff_lift (Credential_from_keyhash keyhash) in
     let* keyhash' := eff_lift (PublicKey_hash publicKey) in
     let* stake := eff_lift (Credential_from_keyhash keyhash') in
     let* baseAddress :=
       eff_lift (BaseAddress_new NetworkInfo_mainnet_network_id payment stake) in
     let* bech32 := eff_lift (BaseAddress_to_bech32 baseAddress) in
     eff_ret (mkWalletData privateKey publicKey bech32))
    (λ error_,
       eff_throw (JsError ("Failed to create wallet from mnemonic: "
                           +:+ message_or_unknown error_))).

Definition createWallet (self : BaseBlockchainService)
    (options : option CreateWalletOptions.t) (entropy : Entropy)
  : Eff State WalletCreationResponse.t :=
  or_handleError self "createWallet"
    (let mnemonic :=
       match truthy (opt_mnemonic options) with
       | Some mnemonic => mnemonic
       | None => generateMnemonic 256 entropy
       end in
     let* walletData := createWalletFromMnemonic mnemonic in
     eff_ret (WalletCreationResponse.mk (address walletData)
                (Some (privateKey walletData)) (Some (publicKey walletData))
                (Some mnemonic) None None None "cardano" None)).

End Methods.

End CardanoService.

(** *** [SolanaService] *)
Module SolanaService.

Record Keypair : Type := mkKeypair {
  publicKey : string;
  secretKey : string
}.

Record State : Type := mkState {
  connection : option string;
  keypair : option Keypair
}.

(** What the adapter's code calls and does not define. *)
Class Sdk : Type := mkSdk {
  new_PublicKey : string → Completion string;
  PublicKey_isOnCurve : string → Completion bool;
  env : string → option string;
  generateMnemonic : Entropy → string;
  mnemonicToSeedSync : string → Completion string;
  derivePath_key : string → string → Completion string;
  Keypair_fromSeed : string → Completion Keypair;
  JSON_stringify_bytes : string → string
}.

Section Methods.

Context {sdk : Sdk}.

Definition validateAddress (address : string) : Eff State bool :=
  eff_try
    (let* publicKey := eff_lift (new_PublicKey address) in
     eff_lift (PublicKey_isOnCurve publicKey))
    (λ _, eff_ret false).

(** [seed.slice(0, 32)] on the hexadecimal of the buffer. *)
Definition slice_0_32 (seed : string) : string := String.substring 0 64 seed.

Definition createWallet (self : BaseBlockchainService)
    (options : option CreateWalletOptions.t) (entropy : Entropy)
  : Eff State WalletCreationResponse.t :=
  or_handleError self "createWallet"
    (let mnemonic :=
       match truthy (opt_mnemonic options) with
       | Some mnemonic => mnemonic
       | None =>
           match truthy (env "SOLANA_SEED") with
           | Some mnemonic => mnemonic
           | None => generateMnemonic entropy
           end
       end in
     let* seed := eff_lift (mnemonicToSeedSync mnemonic) in
     let* created :=
       match opt_index options with
       | Some index =>
           let usedDerivationPath := derivation_path options "501" index "/0'" in
           let* derivedSeed := eff_lift (derivePath_key usedDerivationPath seed) in
           let* keypair := eff_lift (Keypair_fromSeed derivedSeed) in
           eff_ret (keypair, Some index, Some usedDerivationPath)
       | None =>
           let* keypair := eff_lift (Keypair_fromSeed (slice_0_32 seed)) in
           eff_ret (keypair, None, None)
       end in
     let '(keypair, usedIndex, usedDerivationPath) := created in
     eff_ret (WalletCreationResponse.mk (publicKey keypair)
                (Some (JSON_stringify_bytes (secretKey keypair)))
                (Some (publicKey keypair))
                (Some mnemonic) None
                (Some (publicKey keypair, secretKey keypair))
                usedDerivationPath "solana" usedIndex)).

End Methods.

End SolanaService.

(** *** [TONService] *)
Module TONService.

Record KeyPair : Type := mkKeyPair {
  publicKey : string;
  secretKey : string
}.

Record State : Type := mkState {
  client : option string;
  wallet : option string;
  keyPair : option KeyPair
}.

(** [s.split(' ')] and [words.join(' ')] *)
Fixpoint split_space_from (current : string) (s : string) : list string :=
  match s with
  | EmptyString => [current]
  | String c rest =>
      if Ascii.eqb c " "%char
      then current :: split_space_from EmptyString rest
      else split_space_from (current +:+ String c EmptyString) rest
  end.

Definition split_space (s : string) : list string := split_space_from EmptyString s.

Fixpoint join_space (words : list string) : string :=
  match words with
  | [] => EmptyString
  | [word] => word
  | word :: rest => word +:+ " " +:+ join_space rest
  end.

(** What the adapter's code calls and does not define. *)
Class Sdk : Type := mkSdk {
  Address_parse : string → Completion string;
  env : string → option string;
  mnemonicNew : Entropy → Completion (list string);
  mnemonicToWalletKey : list string → Completion KeyPair;
  WalletContractV4_create_address : string → Z → Completion string
}.

Section Methods.

Context {sdk : Sdk}.

(** [addr instanceof Address] holds of whatever [Address.parse] returns. *)
Definition validateAddress (address : string) : Eff State bool :=
  eff_try
    (let* addr := eff_lift (Address_parse address) in eff_ret true)
    (λ _, eff_ret false).

Definition createWallet (self : BaseBlockchainService)
    (options : option CreateWalletOptions.t) (entropy : Entropy)
  : Eff State WalletCreationResponse.t :=
  or_handleError self "createWallet"
    (let* mnemonic :=
       match truthy (opt_mnemonic options) with
       | Some phrase => eff_ret (split_space phrase)
       | None =>
           match truthy (env "TON_SEED") with
           | Some phrase => eff_ret (split_space phrase)
           | None => eff_lift (mnemonicNew entropy)
           end
       end in
     let* keyPair := eff_lift (mnemonicToWalletKey mnemonic) in
     let workchain := default 0%Z (opt_index options) in
     let* address :=
       eff_lift (WalletContractV4_create_address (publicKey keyPair) workchain) in
     eff_ret (WalletCreationResponse.mk address
                (Some (secretKey keyPair)) (Some (publicKey keyPair))
                (Some (join_space mnemonic)) None
                (Some (publicKey keyPair, secretKey keyPair))
                None "ton" (opt_index options))).

End Methods.

End TONService.

(** ** [src/controllers/blockchain.controller.ts]: the other handlers *)

Module TransactionRequest.
Record t : Type := mk {
  from : option string;
  to : string;
  amount : float;
  memo : option string;
  gasLimit : option float;
  gasPrice : option float
}.
End TransactionRequest.

Module BlockInfo.
Record t : Type := mk {
  number : Z;
  hash : string;
  timestamp : Z;
  transactionCount : Z;
  gasUsed : option Z;
  gasLimit : option Z;
  baseFeePerGas : option Z;
  parentHash : option string;
  witnessAddress : option string
}.
End BlockInfo.

(** [req.body || {}] for the wallet options. *)
Definition empty_options : CreateWalletOptions.t :=
  CreateWalletOptions.mk None None None None None.

(** The bodies of the success responses (the [timestamp] each of them
    carries is left out). *)
Module SendTransactionBody.
Record t : Type := mk {
  network : string;
  transaction : TransactionResponse.t;
  request_to : string;
  request_amount : float;
  request_memo : option string
}.
End SendTransactionBody.

Module TransactionStatusBody.
Record t : Type := mk {
  network : string;
  transactionHash : string;
  status : TxStatus;
  details : TransactionResponse.t
}.
End TransactionStatusBody.

Module WalletInfoBody.
Record t : Type := mk {
  network : string;
  wallet : WalletInfo.t;
  networkConfig_name : string;
  networkConfig_chainId : option Z
}.
End WalletInfoBody.

Module LatestBlockBody.
Record t : Type := mk {
  network : string;
  block : BlockInfo.t;
  networkInfo_name : string;
  networkInfo_rpcUrl : string
}.
End LatestBlockBody.

Module EstimateGasBody.
Record t : Type := mk {
  network : string;
  gasEstimate : float;
  estimatedFee : float;
  feeToken : string;
  transactionDetails_to : string;
  transactionDetails_amount : float
}.
End EstimateGasBody.

Module ValidateAddressBody.
Record t : Type := mk {
  network : string;
  address : string;
  isValid : bool;
  networkName : string
}.
End ValidateAddressBody.

Module CreateWalletBody.
Record t : Type := mk {
  network : string;
  wallet : WalletCreationResponse.t
}.
End CreateWalletBody.

Module NetworkHealthBody.
Record t : Type := mk {
  network : string;
  networkName : string;
  latestBlock : Z;
  responseTime : string;
  rpcUrl : string
}.
End NetworkHealthBody.

Inductive Availability : Type := available | unavailable.

(** One element of [supportedNetworks]. *)
Module NetworkDetail.
Record t : Type := mk {
  type : string;
  name : string;
  chainId : option Z;
  testnet : option bool;
  status : Availability;
  error : option string
}.
End NetworkDetail.

Module SupportedNetworksBody.
Record t : Type := mk {
  supportedNetworks : list NetworkDetail.t;
  count : nat;
  availableCount : nat
}.
End SupportedNetworksBody.

Definition is_available (detail : NetworkDetail.t) : bool :=
  match NetworkDetail.status detail with available => true | unavailable => false end.

Section Handlers.

Variable configs : NetworkType → NetworkConfig.t.
Variable networkTypes : list string.
Variable initialize : BaseBlockchainService → Completion unit.

(** What the adapters answer. *)
Variable validateAddress : BaseBlockchainService → string → Completion bool.
Variable getWalletInfo : BaseBlockchainService → string → Completion WalletInfo.t.
Variable sendTransaction_of :
  BaseBlockchainService → TransactionRequest.t → Completion TransactionResponse.t.
Variable getTransactionStatus_of :
  BaseBlockchainService → string → Completion TransactionResponse.t.
Variable getLatestBlock_of : BaseBlockchainService → Completion BlockInfo.t.
Variable estimateGas_of :
  BaseBlockchainService → TransactionRequest.t → Completion float.
Variable createWallet_of :
  BaseBlockchainService → CreateWalletOptions.t → Completion WalletCreationResponse.t.

Definition sendTransaction (network : string) (transactionRequest : TransactionRequest.t)
  : Eff World (HttpResponse SendTransactionBody.t) :=
  eff_try
    (let* service := createService configs initialize network in
     let* valid := eff_lift (validateAddress service
                               (TransactionRequest.to transactionRequest)) in
     if negb valid then eff_ret (res_status_json 400 "Invalid recipient address")
     else
       let* sender_invalid :=
         match truthy (TransactionRequest.from transactionRequest) with
         | Some from =>
             let* valid_from := eff_lift (validateAddress service from) in
             eff_ret (negb valid_from)
         | None => eff_ret false
         end in
       if sender_invalid then eff_ret (res_status_json 400 "Invalid sender address")
       else
         let* result := eff_lift (sendTransaction_of service transactionRequest) in
         eff_ret (res_json (SendTransactionBody.mk network result
                              (TransactionRequest.to transactionRequest)
                              (TransactionRequest.amount transactionRequest)
                              (TransactionRequest.memo transactionRequest))))
    (λ _, eff_ret (res_status_json 500 "Failed to send transaction")).

Definition getTransactionStatus (network hash : string)
  : Eff World (HttpResponse TransactionStatusBody.t) :=
  eff_try
    (let* service := createService configs initialize network in
     let* status := eff_lift (getTransactionStatus_of service hash) in
     eff_ret (res_json (TransactionStatusBody.mk network hash
                          (TransactionResponse.status status) status)))
    (λ _, eff_ret (res_status_json 500 "Failed to get transaction status")).

Definition getWalletInfo_handler (network address : string)
  : Eff World (HttpResponse WalletInfoBody.t) :=
  eff_try
    (let* service := createService configs initialize network in
     let* valid := eff_lift (validateAddress service address) in
     if negb valid then eff_ret (res_status_json 400 "Invalid address format")
     else
       let* walletInfo := eff_lift (getWalletInfo service address) in
       eff_ret (res_json (WalletInfoBody.mk network walletInfo
                            (NetworkConfig.name (getNetworkConfig service))
                            (NetworkConfig.chainId (getNetworkConfig service)))))
    (λ _, eff_ret (res_status_json 500 "Failed to get wallet info")).

Definition getLatestBlock (network : string)
  : Eff World (HttpResponse LatestBlockBody.t) :=
  eff_try
    (let* service := createService configs initialize network in
     let* blockInfo := eff_lift (getLatestBlock_of service) in
     eff_ret (res_json (LatestBlockBody.mk network blockInfo
                          (NetworkConfig.name (getNetworkConfig service))
                          (NetworkConfig.rpcUrl (getNetworkConfig service)))))
    (λ _, eff_ret (res_status_json 500 "Failed to get latest block")).

Definition estimateGas (network : string) (transactionRequest : TransactionRequest.t)
  : Eff World (HttpResponse EstimateGasBody.t) :=
  eff_try
    (let* service := createService configs initialize network in
     let* valid := eff_lift (validateAddress service
                               (TransactionRequest.to transactionRequest)) in
     if negb valid then eff_ret (res_status_json 400 "Invalid recipient address")
     else
       let* gasEstimate := eff_lift (estimateGas_of service transactionRequest) in
       let* walletInfo :=
         eff_lift (getWalletInfo service (TransactionRequest.to transactionRequest)) in
       eff_ret (res_json (EstimateGasBody.mk network gasEstimate gasEstimate
                            (WalletInfo.nativeToken walletInfo)
                            (TransactionRequest.to transactionRequest)
                            (TransactionRequest.amount transactionRequest))))
    (λ _, eff_ret (res_status_json 500 "Failed to estimate gas")).

Definition validateAddress_handler (network address : string)
  : Eff World (HttpResponse ValidateAddressBody.t) :=
  eff_try
    (let* service := createService configs initialize network in
     let* isValid := eff_lift (validateAddress service address) in
     eff_ret (res_json (ValidateAddressBody.mk network address isValid
                          (NetworkConfig.name (getNetworkConfig service)))))
    (λ _, eff_ret (res_status_json 500 "Failed to validate address")).

Definition createWallet (network : string) (body : option CreateWalletOptions.t)
  : Eff World (HttpResponse CreateWalletBody.t) :=
  eff_try
    (let options := default empty_options body in
     let* service := createService configs initialize network in
     let* walletData := eff_lift (createWallet_of service options) in
     eff_ret (res_json (CreateWalletBody.mk network walletData)))
    (λ _, eff_ret (res_status_json 500 "Failed to create wallet")).

(** [startTime] and [endTime] are the two readings of [Date.now()]. *)
Definition getNetworkHealth (network : string) (startTime endTime : Z)
  : Eff World (HttpResponse NetworkHealthBody.t) :=
  eff_try
    (let* service := createService configs initialize network in
     let* blockInfo := eff_lift (getLatestBlock_of service) in
     let responseTime := (endTime - startTime)%Z in
     eff_ret (res_json (NetworkHealthBody.mk network
                          (NetworkConfig.name (getNetworkConfig service))
                          (BlockInfo.number blockInfo)
                          (pretty responseTime +:+ "ms")
                          (NetworkConfig.rpcUrl (getNetworkConfig service)))))
    (λ error_, eff_ret (res_status_json 503 (message_or_unknown error_))).

(** The callback of [getSupportedNetworks], with its own [try]. *)
Definition network_detail (networkType : string) : Eff World NetworkDetail.t :=
  eff_try
    (let* service := createService configs initialize networkType in
     let config := getNetworkConfig service in
     eff_ret (NetworkDetail.mk networkType (NetworkConfig.name config)
                (NetworkConfig.chainId config)
                (Some (default false (NetworkConfig.testnet config)))
                available None))
    (λ error_,
       eff_ret (NetworkDetail.mk networkType networkType None None
                  unavailable (Some (message_or_unknown error_)))).

(** The callbacks run in the order of [networks]: each constructs its
    adapter and starts [initialize] before the next one begins, and they
    write different keys of the cache. *)
Fixpoint network_details (networks : list string) : Eff World (list NetworkDetail.t) :=
  match networks with
  | [] => eff_ret []
  | networkType :: rest =>
      let* detail := network_detail networkType in
      let* details := network_details rest in
      eff_ret (detail :: details)
  end.

Definition getSupportedNetworks : Eff World (HttpResponse SupportedNetworksBody.t) :=
  eff_try
    (let networks := getAvailableNetworks networkTypes in
     let* results := network_details networks in
     eff_ret (res_json (SupportedNetworksBody.mk results (length networks)
                          (length (filter (λ n, is_available n = true) results)))))
    (λ _, eff_ret (res_status_json 500 "Failed to get supported networks")).

End Handlers.

(** ** [src/middleware/*.ts] and [src/routes/blockchain.routes.ts] *)

(** What a middleware answers when it does not call [next()]. *)
Module Rejection.
Record t : Type := mk {
  code : nat;
  error : string;
  supportedNetworks : option (list string);
  details : option (list string);
  retryAfter : option float;
  headers : list (string * string)
}.
End Rejection.

Inductive Guard : Type :=
| next
| respond (rejection : Rejection.t).

(** [validation.middleware.ts] *)

Definition validateNetwork (networkTypes : list string) (network : option string)
  : Guard :=
  match network with
  | Some network =>
      if bool_decide (network ∈ networkTypes) then next
      else respond (Rejection.mk 400 "Invalid network type" (Some networkTypes)
                      None None [])
  | None =>
      respond (Rejection.mk 400 "Invalid network type" (Some networkTypes)
                 None None [])
  end.

(** [!address || typeof address !== 'string'], the parameter being a
    string when the route has it. *)
Definition validateAddress_param (address : option string) : Guard :=
  match truthy address with
  | Some _ => next
  | None => respond (Rejection.mk 400 "Invalid address parameter" None None None [])
  end.

(** [schema.validate(req.body)]: [Joi]'s verdict, the messages of its
    error details if there is an error. *)
Definition validateTransactionRequest {Body} (Joi_validate : Body → option (list string))
    (body : Body) : Guard :=
  match Joi_validate body with
  | Some messages =>
      respond (Rejection.mk 400 "Validation failed" None (Some messages) None [])
  | None => next
  end.

(** [rateLimiter.middleware.ts] *)

(** [x || d] on an optional number: [undefined], [0] and [NaN] are
    falsy. *)
Definition truthy_float (v : option float) : option float :=
  match v with
  | Some x => if (PrimFloat.eqb x 0 || PrimFloat.is_nan x)%bool then None else Some x
  | None => None
  end.

(** The number of a whole [z] with [0 ≤ z < 2^53]. *)
Definition whole (z : Z) : float := PrimFloat.of_uint63 (Uint63.of_Z z).

(** [Math.round] on a binary64 number: the whole number nearest to [x],
    the greater of the two when [x] lies half way; [NaN], the infinities
    and the zeros are returned as they are, and so is a number whose
    exponent leaves no fraction; what rounds to zero from below is
    [-0].  A finite [x] is [±m·2^e]: with [e < 0], the floor of
    [x + 1/2] is [±m + 2^(-e-1)] shifted right by [-e]. *)
Definition Math_round (x : float) : float :=
  match Prim2SF x with
  | S754_finite s m e =>
      if (0 <=? e)%Z then x
      else
        let half := (2 ^ (- e - 1))%Z in
        if s
        then PrimFloat.opp (whole (- ((half - Z.pos m) ≫ (- e))))
        else whole ((half + Z.pos m) ≫ (- e))
  | _ => x
  end.

(** [Math.round(rejRes.msBeforeNext / 1000) || 1]: a missing
    [msBeforeNext] divides to [NaN]. *)
Definition retry_after_seconds (msBeforeNext : option float) : float :=
  default 1%float
    (truthy_float
       (Some (Math_round (default PrimFloat.nan msBeforeNext / 1000)%float))).

Section RateLimiter.

(** The limiter of [rate-limiter-flexible]: consuming a point for a key
    succeeds, or is rejected with the time left ([msBeforeNext], a
    number of milliseconds, absent when what is thrown is no limiter
    result).  [String(secs)] is [Number_toString]. *)
Variable Limiter : Type.
Variable consume : string → Limiter → option (option float) * Limiter.
Variable Number_toString : float → string.

Definition rateLimiterMiddleware (ip : option string) (limiter : Limiter)
  : Guard * Limiter :=
  match consume (default "unknown" (truthy ip)) limiter with
  | (None, limiter') => (next, limiter')
  | (Some rejRes, limiter') =>
      let secs := retry_after_seconds rejRes in
      (respond (Rejection.mk 429 "Too many requests" None None (Some secs)
                  [("Retry-After", Number_toString secs)]),
       limiter')
  end.

End RateLimiter.

(** [blockchain.routes.ts]: the table, in the order of registration.  A
    path is its segments, a segment a literal or a [:parameter]. *)
Inductive Segment : Type :=
| Lit (s : string)
| Param (name : string).

Inductive Middleware : Type :=
| mw_validateNetwork
| mw_validateTransactionRequest
| mw_validateAddress
| mw_rateLimiter.

Inductive Handler : Type :=
| h_createWallet | h_getSupportedNetworks | h_getBalance | h_getMultiNetworkBalance
| h_sendTransaction | h_getTransactionStatus | h_estimateGas | h_getWalletInfo
| h_getLatestBlock.

Inductive Method : Type := GET | POST.

Record Route : Type := mkRoute {
  method : Method;
  path : list Segment;
  middlewares : list Middleware;
  handler : Handler
}.

Definition router : list Route := [
  mkRoute GET [Param "network"; Lit "wallet"; Lit "create"]
    [mw_validateNetwork; mw_rateLimiter] h_createWallet;
  mkRoute GET [Lit "networks"] [] h_getSupportedNetworks;
  mkRoute GET [Param "network"; Lit "balance"; Param "address"]
    [mw_validateNetwork; mw_validateAddress; mw_rateLimiter] h_getBalance;
  mkRoute GET [Lit "balance"; Param "address"]
    [mw_validateAddress; mw_rateLimiter] h_getMultiNetworkBalance;
  mkRoute POST [Param "network"; Lit "transaction"]
    [mw_validateNetwork; mw_validateTransactionRequest; mw_rateLimiter]
    h_sendTransaction;
  mkRoute GET [Param "network"; Lit "transaction"; Param "hash"]
    [mw_validateNetwork; mw_rateLimiter] h_getTransactionStatus;
  mkRoute POST [Param "network"; Lit "estimate-gas"]
    [mw_validateNetwork; mw_validateTransactionRequest; mw_rateLimiter]
    h_estimateGas;
  mkRoute GET [Param "network"; Lit "wallet"; Param "address"]
    [mw_validateNetwork; mw_validateAddress; mw_rateLimiter] h_getWalletInfo;
  mkRoute GET [Param "network"; Lit "block"; Lit "latest"]
    [mw_validateNetwork; mw_rateLimiter] h_getLatestBlock
].

(** Letters compare without regard to case in a literal segment (the
    router is not case sensitive). *)
Definition lower (c : ascii) : ascii :=
  let n := nat_of_ascii c in
  if ((65 <=? n)%nat && (n <=? 90)%nat)%bool then ascii_of_nat (n + 32) else c.

Fixpoint lowercase (s : string) : string :=
  match s with
  | EmptyString => EmptyString
  | String c rest => String (lower c) (lowercase rest)
  end.

(** Matching a request path (its segments, a trailing slash dropped,
    on paths without percent escapes), segment by segment; a parameter
    takes any non-empty segment.  The result is [req.params]. *)
Fixpoint match_path (pattern : list Segment) (segments : list string)
  : option (list (string * string)) :=
  match pattern, segments with
  | [], [] => Some []
  | Lit s :: pattern', segment :: segments' =>
      if String.eqb (lowercase s) (lowercase segment)
      then match_path pattern' segments' else None
  | Param name :: pattern', segment :: segments' =>
      if String.eqb segment EmptyString then None
      else option_map (cons (name, segment)) (match_path pattern' segments')
  | _, _ => None
  end.

Definition Method_eqb (a b : Method) : bool :=
  match a, b with GET, GET | POST, POST => true | _, _ => false end.

(** The first route registered that matches takes the request. *)
Fixpoint dispatch (routes : list Route) (m : Method) (segments : list string)
  : option (Route * list (string * string)) :=
  match routes with
  | [] => None
  | route :: routes' =>
      if Method_eqb (method route) m then
        match match_path (path route) segments with
        | Some params => Some (route, params)
        | None => dispatch routes' m segments
        end
      else dispatch routes' m segments
  end.

(** [req.params.name] *)
Fixpoint param (name : string) (params : list (string * string)) : option string :=
  match params with
  | [] => None
  | (key, value) :: params' =>
      if String.eqb key name then Some value else param name params'
  end.

Section Guards.

Variable networkTypes : list string.
Variable Body : Type.
Variable Joi_validate : Body → option (list string).
Variable Limiter : Type.
Variable consume : string → Limiter → option (option float) * Limiter.
Variable Number_toString : float → string.

Record Request : Type := mkRequest {
  params : list (string * string);
  body : Body;
  ip : option string
}.

Definition run_middleware (mw : Middleware) (req : Request) (limiter : Limiter)
  : Guard * Limiter :=
  match mw with
  | mw_validateNetwork =>
      (validateNetwork networkTypes (param "network" (params req)), limiter)
  | mw_validateTransactionRequest =>
      (validateTransactionRequest Joi_validate (body req), limiter)
  | mw_validateAddress =>
      (validateAddress_param (param "address" (params req)), limiter)
  | mw_rateLimiter =>
      rateLimiterMiddleware Limiter consume Number_toString (ip req) limiter
  end.

(** The chain of middlewares of a route: the first that responds ends
    the request, the handler runs if all call [next()]. *)
Fixpoint run_middlewares (mws : list Middleware) (req : Request) (limiter : Limiter)
  : Guard * Limiter :=
  match mws with
  | [] => (next, limiter)
  | mw :: mws' =>
      match run_middleware mw req limiter with
      | (next, limiter') => run_middlewares mws' req limiter'
      | (respond rejection, limiter') => (respond rejection, limiter')
      end
  end.

End Guards.
(** ** [src/app.ts] and [src/server.ts] *)

(** The [endpoints] that [GET /api] lists; the router is mounted at
    [/api/blockchain]. *)
Definition api_endpoints : list (string * string) := [
  ("networks", "GET /api/blockchain/networks");
  ("balance", "GET /api/blockchain/:network/balance/:address");
  ("multiBalance", "GET /api/blockchain/balance/:address");
  ("sendTransaction", "POST /api/blockchain/:network/transaction");
  ("transactionStatus", "GET /api/blockchain/:network/transaction/:hash");
  ("estimateGas", "POST /api/blockchain/:network/estimate-gas");
  ("walletInfo", "GET /api/blockchain/:network/wallet/:address");
  ("latestBlock", "GET /api/blockchain/:network/block/latest");
  ("createWallet", "GET /api/blockchain/:network/create/wallet")
].

(** How [startServer] ends: it returns, [app.listen] called, or the
    process exits with a code. *)
Inductive ServerOutcome : Type :=
| started
| exited (code : Z).

Section Server.

Variable configs : NetworkType → NetworkConfig.t.
Variable networkTypes : list string.
Variable initialize : BaseBlockchainService → Completion unit.

(** [new App()] followed by [app.listen(PORT)]. *)
Variable App_listen : Completion unit.

Definition startServer : Eff World ServerOutcome :=
  eff_try
    (let* _ := getAllServices configs networkTypes initialize in
     let* _ := eff_lift App_listen in
     eff_ret started)
    (λ _, eff_ret (exited 1)).

End Server.
(** ** The adapters, continued: balances, fees and amounts *)

(** A decimal literal denotes the nearest double, as in JavaScript. *)
Local Set Warnings "-inexact-float".

(** The string methods the adapters use, on text without characters
    outside the Basic Multilingual Plane's one-unit range (digits,
    letters, punctuation), where a character is one unit of length. *)
Fixpoint repeat_char (n : nat) (c : ascii) : string :=
  match n with
  | O => EmptyString
  | S n' => String c (repeat_char n' c)
  end.

(** [s.padStart(targetLength, c)] and [s.padEnd(targetLength, c)] *)
Definition padStart (targetLength : nat) (c : ascii) (s : string) : string :=
  repeat_char (targetLength - String.length s) c +:+ s.

Definition padEnd (targetLength : nat) (c : ascii) (s : string) : string :=
  s +:+ repeat_char (targetLength - String.length s) c.

(** [s.slice(0, n)] and [s.slice(n)] for [n >= 0] *)
Fixpoint take_chars (n : nat) (s : string) : string :=
  match n, s with
  | S n', String c rest => String c (take_chars n' rest)
  | _, _ => EmptyString
  end.

Fixpoint drop_chars (n : nat) (s : string) : string :=
  match n, s with
  | S n', String _ rest => drop_chars n' rest
  | _, _ => s
  end.

(** [s.slice(0, -k)] and [s.slice(-k)] *)
Definition slice_until_last (k : nat) (s : string) : string :=
  take_chars (String.length s - k) s.

Definition slice_last (k : nat) (s : string) : string :=
  drop_chars (String.length s - k) s.

(** [s.replace(/0+$/, '')] *)
Fixpoint strip_trailing_zeros (s : string) : string :=
  match s with
  | EmptyString => EmptyString
  | String c rest =>
      let rest' := strip_trailing_zeros rest in
      if (Ascii.eqb c "0"%char && String.eqb rest' EmptyString)%bool
      then EmptyString else String c rest'
  end.

(** [s.split('.')] *)
Fixpoint split_dot (s : string) : list string :=
  match s with
  | EmptyString => [EmptyString]
  | String c rest =>
      if Ascii.eqb c "."%char then EmptyString :: split_dot rest
      else match split_dot rest with
           | part :: parts => String c part :: parts
           | [] => [String c EmptyString]
           end
  end.

(** *** [TONService] *)
Module TONQueries.

(** A transaction of the wallet's account, as far as it is read:
    [hash().toString()], [lt], [totalFees.coins] and [now]. *)
Record Transaction : Type := mkTransaction {
  tx_hash : string;
  lt : Z;
  totalFees_coins : Z;
  tx_now : Z
}.

Definition fromNano (amount : Z) : string :=
  let amountStr := padStart 10 "0" (pretty amount) in
  let whole := or_default (Some (slice_until_last 9 amountStr)) "0" in
  let decimal := strip_trailing_zeros (slice_last 9 amountStr) in
  if String.eqb decimal EmptyString then whole
  else whole +:+ "." +:+ decimal.

(** What the adapter's code calls and does not define, beside what
    [TONService.Sdk] lists; [now] is [Math.floor(Date.now() / 1000)]. *)
Class Rpc : Type := mkRpc {
  BigInt : string → Completion Z;
  Number_toString : float → string;
  parseFloat : string → float;
  now : Z;
  client_getBalance : string → string → Completion Z;
  client_getTransactions : string → string → Z → Completion (list Transaction)
}.

Section Methods.

Context {sdk : TONService.Sdk} {rpc : Rpc}.

Definition toNano (amount : string + float) : Completion Z :=
  let amountStr := match amount with
                   | inl s => s
                   | inr x => Number_toString x
                   end in
  let parts := split_dot amountStr in
  let whole := default EmptyString (parts !! 0%nat) in
  let decimal := default EmptyString (parts !! 1%nat) in
  let paddedDecimal := take_chars 9 (padEnd 9 "0" decimal) in
  BigInt (whole +:+ paddedDecimal).

Definition getBalance (self : BaseBlockchainService) (address : string)
  : Eff TONService.State float :=
  or_handleError self "getBalance"
    (let* valid := TONService.validateAddress address in
     if negb valid then eff_throw (JsError "Invalid TON address format")
     else
       let* addr := eff_lift (TONService.Address_parse address) in
       let* balance :=
         with_field TONService.client "getBalance" (λ c, client_getBalance c addr) in
       eff_ret (parseFloat (fromNano balance))).

(** [tx.hash().toString() === hash || tx.hash().toString() === hash] *)
Definition is_transaction (hash : string) (tx : Transaction) : bool :=
  (String.eqb (tx_hash tx) hash || String.eqb (tx_hash tx) hash)%bool.

Definition getTransactionStatus (self : BaseBlockchainService) (hash : string)
  : Eff TONService.State TransactionResponse.t :=
  or_handleError self "getTransactionStatus"
    (if String.prefix "ton_" hash then
       eff_ret (TransactionResponse.mk hash confirmed None None None (Some now))
     else
       eff_try
         (let* this := eff_get in
          let* transactions :=
            with_field TONService.client "getTransactions"
              (λ c,
                 match TONService.Address_parse
                         (or_default (TONService.wallet this) EmptyString) with
                 | Normal address => client_getTransactions c address 100
                 | Throw e => Throw e
                 end) in
          match List.find (is_transaction hash) transactions with
          | Some found =>
              eff_ret (TransactionResponse.mk hash confirmed (Some (lt found)) None
                         (Some (parseFloat (fromNano (totalFees_coins found))))
                         (Some (tx_now found)))
          | None =>
              eff_ret (TransactionResponse.mk hash pending None None None (Some now))
          end)
         (λ _,
            eff_ret (TransactionResponse.mk hash pending None None None (Some now)))).

(** [request.memo.length], a count of characters. *)
Definition length_float (s : string) : float :=
  PrimFloat.of_uint63 (Uint63.of_Z (Z.of_nat (String.length s))).

Definition estimateGas (request : TransactionRequest.t)
  : Eff TONService.State float :=
  eff_try
    (let* valid := TONService.validateAddress (TransactionRequest.to request) in
     if negb valid then eff_throw (JsError "Invalid recipient address")
     else
       let baseGas := 0.005%float in
       let messageSize :=
         match truthy (TransactionRequest.memo request) with
         | Some memo => PrimFloat.mul (length_float memo) 0.0001%float
         | None => 0%float
         end in
       eff_ret (PrimFloat.add baseGas messageSize))
    (λ _, eff_ret 0.005%float).

End Methods.

End TONQueries.

(** *** [RippleService] *)
Module RippleQueries.

(** [result.account_data] of an [account_info] request. *)
Record AccountData : Type := mkAccountData {
  Balance : string;
  Sequence : option Z
}.

(** What the adapter's code calls and does not define, beside what
    [RippleService.Sdk] lists.  A [server_info] request is written as
    what is read of its answer,
    [result.info.validated_ledger?.base_fee]. *)
Class Rpc : Type := mkRpc {
  client_request_account_info : string → string → Completion AccountData;
  client_request_server_info : string → Completion (option float);
  Number_toString : float → string
}.

Section Methods.

Context {sdk : RippleService.Sdk} {rpc : Rpc}.

Definition getBalance (self : BaseBlockchainService) (address : string)
  : Eff RippleService.State float :=
  or_handleError self "getBalance"
    (let* valid := RippleService.validateAddress address in
     if negb valid then eff_throw (JsError "Invalid XRP address format")
     else
       let* account_data :=
         with_field RippleService.client "request"
           (λ c, client_request_account_info c address) in
       let* xrp := eff_lift (RippleService.dropsToXrp (Balance account_data)) in
       eff_ret (RippleService.parseFloat xrp)).

Definition getWalletInfo (self : BaseBlockchainService) (address : string)
  : Eff RippleService.State WalletInfo.t :=
  or_handleError self "getWalletInfo"
    (let* valid := RippleService.validateAddress address in
     if negb valid then eff_throw (JsError "Invalid XRP address format")
     else
       let* balance := getBalance self address in
       let* account_data :=
         with_field RippleService.client "request"
           (λ c, client_request_account_info c address) in
       let transactionCount := default 0%Z (truthy_Z (Sequence account_data)) in
       eff_ret (WalletInfo.mk address balance "XRP" (Some transactionCount)
                  None None None)).

Definition estimateGas (request : TransactionRequest.t)
  : Eff RippleService.State float :=
  eff_try
    (let* valid := RippleService.validateAddress (TransactionRequest.to request) in
     if negb valid then eff_throw (JsError "Invalid recipient address")
     else
       let* base_fee :=
         with_field RippleService.client "request" client_request_server_info in
       let baseFeeDrops := default 10%float (truthy_float base_fee) in
       let* xrp := eff_lift (RippleService.dropsToXrp (Number_toString baseFeeDrops)) in
       eff_ret (RippleService.parseFloat xrp))
    (λ _, eff_ret 0.00001%float).

End Methods.

End RippleQueries.

(** *** [ArbitrumService] *)
Module ArbitrumQueries.

Class Rpc : Type := mkRpc {
  provider_getBalance : string → string → Completion Z
}.

Section Methods.

Context {sdk : ArbitrumService.Sdk} {rpc : Rpc}.

Definition getBalance (self : BaseBlockchainService) (address : string)
  : Eff ArbitrumService.State float :=
  or_handleError self "getBalance"
    (let* valid := ArbitrumService.validateAddress address in
     if negb valid then eff_throw (JsError "Invalid Ethereum address format")
     else
       let* balanceWei :=
         with_field ArbitrumService.provider "getBalance"
           (λ p, provider_getBalance p address) in
       eff_ret (ArbitrumService.parseFloat
                  (ArbitrumService.ethers_formatEther balanceWei))).

End Methods.

End ArbitrumQueries.

(** *** [TRC20Service] *)
Module TRC20Queries.

Class Rpc : Type := mkRpc {
  trx_getBalance : string → string → Completion Z;
  parseFloat : string → float
}.

Section Methods.

Context {sdk : TRC20Service.Sdk} {rpc : Rpc}.

Definition getBalance (self : BaseBlockchainService) (address : string)
  : Eff TRC20Service.State float :=
  or_handleError self "getBalance"
    (let* valid := TRC20Service.validateAddress address in
     if negb valid then eff_throw (JsError "Invalid Tron address format")
     else
       let* balance :=
         with_field TRC20Service.tronWeb "trx" (λ tw, trx_getBalance tw address) in
       let* balanceTrx :=
         with_field TRC20Service.tronWeb "fromSun"
           (λ tw, Normal (TRC20Service.tronWeb_fromSun tw balance)) in
       eff_ret (parseFloat balanceTrx)).

End Methods.

End TRC20Queries.

(** *** [CardanoService] *)
Module CardanoQueries.

(** The [Response] of [fetch], its body as [json()] gives it. *)
Record Response (Json : Type) : Type := mkResponse {
  ok : bool;
  status : Z;
  statusText : string;
  json : Completion Json
}.
Arguments mkResponse {Json}.
Arguments ok {Json}.
Arguments status {Json}.
Arguments statusText {Json}.
Arguments json {Json}.

(** What the adapter's code calls and does not define, beside what
    [CardanoService.Sdk] lists: [fetch], on the URL, the method, the
    headers and the body; and
    [Math.random().toString(36).substr(2, 9)]. *)
Class Http : Type := mkHttp {
  Json : Type;
  JSON_stringify : Json → Completion string;
  Json_truthy : Json → bool;
  fetch : string → string → list (string * string) → option string
          → Completion (Response Json);
  random_suffix : Entropy → string
}.

Inductive HttpMethod : Type := HTTP_GET | HTTP_POST.

Definition HttpMethod_value (m : HttpMethod) : string :=
  match m with HTTP_GET => "GET" | HTTP_POST => "POST" end.

Section Methods.

Context {sdk : CardanoService.Sdk} {http : Http}.

(** [`${this.apiUrl}${endpoint}`]: an [undefined] field reads
    [undefined]. *)
Definition url_of (this : CardanoService.State) (endpoint : string) : string :=
  default "undefined" (CardanoService.apiUrl this) +:+ endpoint.

Definition headers_of (self : BaseBlockchainService) : list (string * string) :=
  ("Content-Type", "application/json")
  :: match truthy (NetworkConfig.apiKey (config self)) with
     | Some apiKey => [("project_id", apiKey)]
     | None => []
     end.

Definition makeApiCall (self : BaseBlockchainService) (endpoint : string)
    (method : HttpMethod) (body : option Json)
  : Eff CardanoService.State Json :=
  eff_try
    (let* this := eff_get in
     let* payload :=
       match body with
       | Some b =>
           if Json_truthy b then
             let* text := eff_lift (JSON_stringify b) in eff_ret (Some text)
           else eff_ret None
       | None => eff_ret None
       end in
     let* response :=
       eff_lift (fetch (url_of this endpoint) (HttpMethod_value method)
                   (headers_of self) payload) in
     if negb (ok response) then
       eff_throw (JsError ("API call failed: " +:+ pretty (status response)
                           +:+ " " +:+ statusText response))
     else eff_lift (json response))
    (λ error_,
       eff_throw (JsError ("Cardano API call failed: "
                           +:+ message_or_unknown error_))).

Definition isConnected (self : BaseBlockchainService)
  : Eff CardanoService.State bool :=
  eff_try
    (let* _ := makeApiCall self "/tip" HTTP_GET None in eff_ret true)
    (λ _, eff_ret false).

(** [hashTime] and [timestampTime] are the two readings of
    [Date.now()], in milliseconds. *)
Definition sendTransaction (self : BaseBlockchainService)
    (request : TransactionRequest.t) (entropy : Entropy)
    (hashTime timestampTime : Z)
  : Eff CardanoService.State TransactionResponse.t :=
  or_handleError self "sendTransaction"
    (let* this := eff_get in
     match CardanoService.wallet this with
     | None =>
         eff_throw (JsError "Wallet not initialized. Please provide CARDANO_MNEMONIC")
     | Some _ =>
         let* valid := CardanoService.validateAddress (TransactionRequest.to request) in
         if negb valid then eff_throw (JsError "Invalid recipient address")
         else
           let simulatedHash :=
             "cardano_" +:+ pretty hashTime +:+ "_" +:+ random_suffix entropy in
           eff_ret (TransactionResponse.mk simulatedHash pending None None None
                      (Some (timestampTime `div` 1000)%Z))
     end).

Definition estimateGas (request : TransactionRequest.t)
  : Eff CardanoService.State float :=
  eff_try
    (let baseFee := 155381%float in
     let estimatedSize := 300%float in
     let feePerByte := 44%float in
     let totalFeeLovelace := PrimFloat.add baseFee (PrimFloat.mul estimatedSize feePerByte) in
     let totalFeeAda := PrimFloat.div totalFeeLovelace 1000000%float in
     eff_ret totalFeeAda)
    (λ _, eff_ret 0.2%float).

End Methods.

End CardanoQueries.
(** ** Vocabulary of the statements *)

(** The object the matching [case] of the [switch] builds in world [w]. *)
Definition fresh_service (configs : NetworkType → NetworkConfig.t)
    (n : NetworkType) (w : World) : BaseBlockchainService :=
  mkService (constructed w) (class_of n) (configs n) n.

(** Every cached adapter sits under the key of its own network: what the
    factory's only [set] establishes. *)
Definition cache_consistent (w : World) : Prop :=
  ∀ key service, services w !! key = Some service → getNetworkType service = key.


(** What the callback settles to: one of the three literals, never a
    rejection, whatever the adapter does. *)
Definition entry_of
    (validateAddress : BaseBlockchainService → string → Completion bool)
    (getWalletInfo : BaseBlockchainService → string → Completion WalletInfo.t)
    (address : string) (service : BaseBlockchainService) : BalanceEntry.t :=
  match validateAddress service address with
  | Normal true =>
      match getWalletInfo service address with
      | Normal walletInfo => success_entry service walletInfo
      | Throw e => error_entry service e
      end
  | Normal false => invalid_address_entry service
  | Throw e => error_entry service e
  end.

(** The balances the adapters report for [address], in adapter order:
    one for each adapter that accepts the address and whose
    [getWalletInfo] returns. *)
Definition reported_balance
    (validateAddress : BaseBlockchainService → string → Completion bool)
    (getWalletInfo : BaseBlockchainService → string → Completion WalletInfo.t)
    (address : string) (service : BaseBlockchainService) : option float :=
  match validateAddress service address with
  | Normal true =>
      match getWalletInfo service address with
      | Normal walletInfo => Some (WalletInfo.balance walletInfo)
      | Throw _ => None
      end
  | _ => None
  end.

(** The sum of JavaScript numbers, left to right from [0]. *)
Definition float_sum (l : list float) : float :=
  fold_left PrimFloat.add l 0%float.

(** A method that writes no field of its adapter. *)
Definition readonly {S A} (m : Eff S A) : Prop :=
  ∀ this, (m this).2 = this.

(** ** Scenarios the statements are tried on *)

(** No environment variable set. *)
Definition no_env : string → option string := λ _, None.

(** Every network answers the handshake. *)
Definition always_initializes : BaseBlockchainService → Completion unit :=
  λ _, Normal tt.

(** The handshake with the given network fails, the others succeed. *)
Definition fails_on (n : NetworkType) : BaseBlockchainService → Completion unit :=
  λ service,
    if String.eqb (getNetworkType service) (NetworkType_value n)
    then Throw (JsError "connect ECONNREFUSED")
    else Normal tt.

(** A registry of four networks of which one, ripple, is disabled. *)
Definition scenario_networks : list string := ["arbitrum"; "solana"; "ripple"; "trc20"].

Definition scenario_configs (n : NetworkType) : NetworkConfig.t :=
  let c := NETWORK_CONFIGS no_env n in
  NetworkConfig.mk (NetworkConfig.name c) (NetworkConfig.rpcUrl c)
    (NetworkConfig.chainId c) (NetworkConfig.apiKey c) (NetworkConfig.testnet c)
    (match n with RIPPLE => false | _ => true end).

(** What the four adapters of the scenario answer for a Tron address:
    solana rejects its format; ripple, disabled and so never initialised,
    has no client to ask; arbitrum and trc20 report a balance. *)
Definition scenario_address : string := "TJRabPrwbZy45sbavfcjinPJC18kjpRTv8".

Definition scenario_validateAddress (service : BaseBlockchainService) (address : string)
  : Completion bool :=
  match class service with
  | SolanaService => Normal false
  | _ => Normal true
  end.

Definition scenario_getWalletInfo (service : BaseBlockchainService) (address : string)
  : Completion WalletInfo.t :=
  match class service with
  | TRC20Service =>
      Normal (WalletInfo.mk address 12.5%float "TRX" (Some 1%Z)
                (Some 0%float) (Some 0%float) (Some 0%float))
  | ArbitrumService =>
      Normal (WalletInfo.mk address 0.25%float "ETH" (Some 3%Z) None None None)
  | _ =>
      handleError (getNetworkType service)
        (JsError "Cannot read properties of undefined (reading 'request')")
        "getWalletInfo"
  end.

(** The derivation paths [ed25519-hd-key] takes: [m], then segments of
    digits, every one hardened. *)
Fixpoint hardened_segment (digits : bool) (s : string) : bool :=
  match s with
  | EmptyString => false
  | String "'"%char EmptyString => digits
  | String c rest =>
      ((48 <=? nat_of_ascii c)%nat && (nat_of_ascii c <=? 57)%nat
       && hardened_segment true rest)%bool
  end.

(** [s.split('/')] *)
Fixpoint split_slash (s : string) : list string :=
  match s with
  | EmptyString => [EmptyString]
  | String c rest =>
      if Ascii.eqb c "/"%char then EmptyString :: split_slash rest
      else match split_slash rest with
           | part :: parts => String c part :: parts
           | [] => [String c EmptyString]
           end
  end.

Definition hardened_path (path : string) : bool :=
  match split_slash path with
  | "m" :: segment :: segments =>
      forallb (hardened_segment false) (segment :: segments)
  | _ => false
  end.

(** A stand-in for [xrpl], [bip39] and [ed25519-hd-key] in which derived
    keys spell out what they were derived from, [derivePath] takes
    hardened paths only, and the server knows no transaction: every
    [tx] request is rejected. *)
Definition xrpl_wallet (seed : string) : RippleService.Wallet :=
  RippleService.mkWallet ("r" +:+ seed) (Some seed) ("pub:" +:+ seed) ("priv:" +:+ seed).

Definition xrpl_unknown_transactions : RippleService.Sdk :=
  RippleService.mkSdk
    (λ address, Normal (RippleService.address_pattern address))
    (λ _ _, Throw (JsError "Transaction not found."))
    (λ drops, Normal drops)
    (λ _, 0%float)
    1700000000%Z
    (λ entropy, "words of " +:+ entropy)
    (λ mnemonic, Normal ("seed of " +:+ mnemonic))
    (λ path seed, if hardened_path path then Normal (seed +:+ " at " +:+ path)
                  else Throw (JsError "Invalid derivation path"))
    (λ seed, Normal (xrpl_wallet seed))
    (λ entropy, Normal (xrpl_wallet ("generated from " +:+ entropy))).

(** A stand-in for [ethers], with the same convention, over a given
    environment; and an environment in which the operator configured
    [ARBITRUM_SEED]. *)
Definition ethers_wallet (phrase : string) (path : option string) : ArbitrumService.Wallet :=
  ArbitrumService.mkWallet ("0x" +:+ phrase +:+ default EmptyString path)
    ("priv:" +:+ phrase) ("pub:" +:+ phrase) (Some phrase).

Definition ethers_over (env : string → option string) : ArbitrumService.Sdk :=
  ArbitrumService.mkSdk
    (λ _, Normal true)
    (λ _ _, Normal None)
    (λ _ _, Normal None)
    (λ _, "0.0")
    (λ _, 0%float)
    1700000000%Z
    env
    (λ phrase, Normal phrase)
    (λ mnemonic path, Normal (ethers_wallet mnemonic path))
    (λ entropy, Normal (ethers_wallet ("words of " +:+ entropy) None)).

Definition seeded_env (name : string) : option string :=
  if String.eqb name "ARBITRUM_SEED"
  then Some "test test test test test test test test test test test junk"
  else None.

Definition scenario_mnemonic_options : option CreateWalletOptions.t :=
  Some (CreateWalletOptions.mk
          (Some "abandon abandon abandon abandon abandon abandon abandon abandon abandon abandon abandon about")
          None None None (Some 0%Z)).


(** ** Wallets: vocabulary of the statements about [createWallet] *)

(** The address, private key and public key a response reports. *)
Definition Keys : Type := (string * option string * option string)%type.

Definition keys_of (response : WalletCreationResponse.t) : Keys :=
  (WalletCreationResponse.address response,
   WalletCreationResponse.privateKey response,
   WalletCreationResponse.publicKey response).

(** Two calls in a row on one adapter, in a state that is [ready], both
    return: the first a wallet with the keys [keys1], the second a
    wallet with the keys [keys2]; the adapter's fields end as they
    started. *)
Definition return_in_a_row {S} (ready : S → Prop)
    (first second : Eff S WalletCreationResponse.t) (keys1 keys2 : Keys) : Prop :=
  ∀ this,
    ready this →
    ∃ r1 r2,
      first this = (Normal r1, this)
      ∧ second (first this).2 = (Normal r2, this)
      ∧ keys_of r1 = keys1
      ∧ keys_of r2 = keys2.

Definition any_state {S} : S → Prop := λ _, True.

(** One SDK call after another, outside any adapter. *)
Definition and_then {A B} (c : Completion A) (k : A → Completion B) : Completion B :=
  match c with
  | Normal a => k a
  | Throw e => Throw e
  end.

(** What the SDKs make of a mnemonic under the options of a call, and
    of a draw of randomness: the keys of the wallet, or what they
    throw. *)
Definition ArbitrumService_from_mnemonic {sdk : ArbitrumService.Sdk}
    (options : option CreateWalletOptions.t) (mnemonic : string) : Completion Keys :=
  and_then (ArbitrumService.Mnemonic_fromPhrase mnemonic) (λ phrase,
  and_then (ArbitrumService.HDNodeWallet_fromMnemonic phrase
              ((λ index, derivation_path options "60" index "/0/0")
                 <$> opt_index options)) (λ wallet,
  Normal (ArbitrumService.address wallet,
          Some (ArbitrumService.privateKey wallet),
          Some (ArbitrumService.publicKey wallet)))).

Definition ArbitrumService_from_draw {sdk : ArbitrumService.Sdk}
    (options : option CreateWalletOptions.t) (entropy : Entropy) : Completion Keys :=
  and_then (ArbitrumService.Wallet_createRandom entropy) (λ random,
  match opt_index options with
  | Some _ =>
      match truthy (ArbitrumService.mnemonic_phrase random) with
      | Some mnemonic => ArbitrumService_from_mnemonic options mnemonic
      | None => Throw (JsError "Failed to generate mnemonic for new wallet")
      end
  | None =>
      Normal (ArbitrumService.address random,
              Some (ArbitrumService.privateKey random),
              Some (ArbitrumService.publicKey random))
  end).

Definition AvalancheService_from_mnemonic {sdk : AvalancheService.Sdk}
    (options : option CreateWalletOptions.t) (mnemonic : string) : Completion Keys :=
  and_then (AvalancheService.Mnemonic_fromPhrase mnemonic) (λ phrase,
  and_then (AvalancheService.HDNodeWallet_fromMnemonic phrase
              ((λ index, derivation_path options "9000" index "/0/0")
                 <$> opt_index options)) (λ wallet,
  Normal (AvalancheService.address wallet,
          Some (AvalancheService.privateKey wallet),
          Some (AvalancheService.publicKey wallet)))).

Definition AvalancheService_from_draw {sdk : AvalancheService.Sdk}
    (options : option CreateWalletOptions.t) (entropy : Entropy) : Completion Keys :=
  and_then (AvalancheService.Wallet_createRandom entropy) (λ random,
  match opt_index options with
  | Some _ =>
      match truthy (AvalancheService.mnemonic_phrase random) with
      | Some mnemonic => AvalancheService_from_mnemonic options mnemonic
      | None => Throw (JsError "Failed to generate mnemonic for new wallet")
      end
  | None =>
      Normal (AvalancheService.address random,
              Some (AvalancheService.privateKey random),
              Some (AvalancheService.publicKey random))
  end).

Definition SolanaService_from_mnemonic {sdk : SolanaService.Sdk}
    (options : option CreateWalletOptions.t) (mnemonic : string) : Completion Keys :=
  and_then (SolanaService.mnemonicToSeedSync mnemonic) (λ seed,
  and_then (match opt_index options with
            | Some index =>
                SolanaService.derivePath_key
                  (derivation_path options "501" index "/0'") seed
            | None => Normal (SolanaService.slice_0_32 seed)
            end) (λ keySeed,
  and_then (SolanaService.Keypair_fromSeed keySeed) (λ keypair,
  Normal (SolanaService.publicKey keypair,
          Some (SolanaService.JSON_stringify_bytes (SolanaService.secretKey keypair)),
          Some (SolanaService.publicKey keypair))))).

Definition SolanaService_from_draw {sdk : SolanaService.Sdk}
    (options : option CreateWalletOptions.t) (entropy : Entropy) : Completion Keys :=
  SolanaService_from_mnemonic options (SolanaService.generateMnemonic entropy).

Definition TONService_from_words {sdk : TONService.Sdk}
    (options : option CreateWalletOptions.t) (words : list string) : Completion Keys :=
  and_then (TONService.mnemonicToWalletKey words) (λ keyPair,
  and_then (TONService.WalletContractV4_create_address
              (TONService.publicKey keyPair) (default 0%Z (opt_index options)))
    (λ address,
  Normal (address, Some (TONService.secretKey keyPair),
          Some (TONService.publicKey keyPair)))).

Definition TONService_from_mnemonic {sdk : TONService.Sdk}
    (options : option CreateWalletOptions.t) (mnemonic : string) : Completion Keys :=
  TONService_from_words options (TONService.split_space mnemonic).

Definition TONService_from_draw {sdk : TONService.Sdk}
    (options : option CreateWalletOptions.t) (entropy : Entropy) : Completion Keys :=
  and_then (TONService.mnemonicNew entropy) (TONService_from_words options).

(** The chain of SDK calls of [createWalletFromMnemonic]: the root key of
    the phrase's entropy, the key at 1852'/1815'/0'/0/0, its raw key and
    public key, and the base address of the key hash taken as payment and
    as stake credential. *)
Definition CardanoService_from_mnemonic {sdk : CardanoService.Sdk}
    (mnemonic : string) : Completion Keys :=
  and_then (CardanoService.mnemonicToEntropy mnemonic) (λ entropy,
  and_then (CardanoService.Bip32PrivateKey_from_bip39_entropy entropy EmptyString)
    (λ rootKey,
  and_then (CardanoService.Bip32PrivateKey_derive rootKey (CardanoService.harden 1852))
    (λ k1,
  and_then (CardanoService.Bip32PrivateKey_derive k1 (CardanoService.harden 1815))
    (λ k2,
  and_then (CardanoService.Bip32PrivateKey_derive k2 (CardanoService.harden 0))
    (λ accountKey,
  and_then (CardanoService.Bip32PrivateKey_derive accountKey 0) (λ k3,
  and_then (CardanoService.Bip32PrivateKey_derive k3 0) (λ spendingKey,
  and_then (CardanoService.Bip32PrivateKey_to_raw_key spendingKey) (λ privateKey,
  and_then (CardanoService.PrivateKey_to_public privateKey) (λ publicKey,
  and_then (CardanoService.PublicKey_hash publicKey) (λ keyhash,
  and_then (CardanoService.Credential_from_keyhash keyhash) (λ payment,
  and_then (CardanoService.PublicKey_hash publicKey) (λ keyhash',
  and_then (CardanoService.Credential_from_keyhash keyhash') (λ stake,
  and_then (CardanoService.BaseAddress_new
              CardanoService.NetworkInfo_mainnet_network_id payment stake)
    (λ baseAddress,
  and_then (CardanoService.BaseAddress_to_bech32 baseAddress) (λ bech32,
  Normal (bech32, Some privateKey, Some publicKey)))))))))))))))).

Definition CardanoService_from_draw {sdk : CardanoService.Sdk}
    (entropy : Entropy) : Completion Keys :=
  CardanoService_from_mnemonic (CardanoService.generateMnemonic 256 entropy).

Definition RippleService_keys (wallet : RippleService.Wallet) : Keys :=
  (RippleService.address wallet, Some (RippleService.privateKey wallet),
   Some (RippleService.publicKey wallet)).

Definition RippleService_from_mnemonic {sdk : RippleService.Sdk}
    (options : option CreateWalletOptions.t) (mnemonic : string) : Completion Keys :=
  and_then (match opt_index options with
            | Some index =>
                RippleService.derived_wallet mnemonic
                  (derivation_path options "144" index "/0/0")
            | None => RippleService.Wallet_fromSeed mnemonic
            end) (λ wallet, Normal (RippleService_keys wallet)).

Definition RippleService_from_draw {sdk : RippleService.Sdk}
    (options : option CreateWalletOptions.t) (entropy : Entropy) : Completion Keys :=
  and_then (match opt_index options with
            | Some index =>
                RippleService.derived_wallet (RippleService.generateMnemonic entropy)
                  (derivation_path options "144" index "/0/0")
            | None => RippleService.Wallet_generate entropy
            end) (λ wallet, Normal (RippleService_keys wallet)).

Definition TRC20Service_from_draw {sdk : TRC20Service.Sdk}
    (tronWeb : string) (entropy : Entropy) : Completion Keys :=
  and_then (TRC20Service.tronWeb_createAccount tronWeb entropy) (λ account,
  and_then (TRC20Service.account_base58 account) (λ base58,
  Normal (base58, TRC20Service.account_privateKey account,
          TRC20Service.account_publicKey account))).

(** A stand-in for [tronweb] whose [address.fromPrivateKey] answers a
    string, as the declaration in [types/tronweb.d.ts] says, and whose
    [createAccount] answers an account object. *)
Definition tronweb_as_declared : TRC20Service.Sdk :=
  TRC20Service.mkSdk
    (λ _ _, Normal true)
    (λ _ _, Normal None)
    (λ _ _, Throw (JsError "Transaction not found"))
    (λ _ sun, pretty sun)
    (λ _, 0%float)
    1700000000%Z
    (λ _, true)
    (λ mnemonic, Normal ("seed of " +:+ mnemonic))
    (λ entropy, "words of " +:+ entropy)
    (λ seed, Normal ("root of " +:+ seed))
    (λ root path, Normal (root +:+ " at " +:+ path))
    (λ child, Normal ("key of " +:+ child))
    (λ _ privateKey, Normal (TRC20Service.AccountString ("T" +:+ privateKey)))
    (λ _ entropy,
       Normal (TRC20Service.AccountObject ("T" +:+ entropy)
                 (Some ("priv:" +:+ entropy)) (Some ("pub:" +:+ entropy)))).

Definition TRC20_initialised : TRC20Service.State :=
  TRC20Service.mkState (Some "https://api.trongrid.io") None.

Definition no_options_index0 : option CreateWalletOptions.t :=
  Some (CreateWalletOptions.mk None None None None (Some 0%Z)).

(** ** Calls of the factory that overlap

    [createService] gives way once, at [await service.initialize()]:
    between its lookup in the cache and its [set], other calls run.
    [createService] above is the call that nothing interrupts; here are
    its two halves, and the factory with calls waiting in it. *)

(** A call waiting at the [await], for the adapter it constructed. *)
Record Awaiting : Type := mkAwaiting {
  awaiting_key : string;
  awaiting_service : BaseBlockchainService
}.

Section Halves.

Variable configs : NetworkType → NetworkConfig.t.
Variable initialize : BaseBlockchainService → Completion unit.

(** From the start of the call to the [await], where [initialize] has
    been invoked, or to the end of the call when that comes first. *)
Definition createService_until_await (networkType : string) (w : World)
  : (Completion BaseBlockchainService + Awaiting) * World :=
  match services w !! networkType with
  | Some service => (inl (Normal service), w)
  | None =>
      match NetworkType_of_string networkType with
      | Some n =>
          let config := configs n in
          let service := mkService (constructed w) (class_of n) config n in
          if NetworkConfig.enable config
          then (inr (mkAwaiting networkType service),
                World_initialize (ref service) (World_construct w))
          else (inl (Normal service), World_construct w)
      | None =>
          (inl (Throw (JsError ("Unsupported network type: " +:+ networkType))), w)
      end
  end.

(** From the [await] on: [initialize] settles and the adapter is cached,
    or it rejects and the call throws. *)
Definition createService_after_await (a : Awaiting) : Eff World BaseBlockchainService :=
  match initialize (awaiting_service a) with
  | Normal _ =>
      services_set (awaiting_key a) (awaiting_service a) ;;
      eff_ret (awaiting_service a)
  | Throw e => eff_throw e
  end.

(** One step of the factory with the calls waiting in it: a call starts
    and ends without waiting; a call starts and waits; a waiting call,
    any of them, goes on to its end; [getAllServices] logs a failure. *)
Inductive factory_step : World * list Awaiting → World * list Awaiting → Prop :=
| step_ended key w waiting c w' :
    createService_until_await key w = (inl c, w') →
    factory_step (w, waiting) (w', waiting)
| step_waits key w waiting a w' :
    createService_until_await key w = (inr a, w') →
    factory_step (w, waiting) (w', a :: waiting)
| step_resumed w before a after :
    factory_step (w, before ++ a :: after)
      ((createService_after_await a w).2, before ++ after)
| step_logged line w waiting :
    factory_step (w, waiting) (World_console_error line w, waiting).

End Halves.

(** ** Further vocabulary *)

(** The worlds the factory reaches from the one the process starts in. *)
Inductive reachable (configs : NetworkType → NetworkConfig.t)
    (networkTypes : list string)
    (initialize : BaseBlockchainService → Completion unit) : World → Prop :=
| reachable_empty :
    reachable configs networkTypes initialize World_empty
| reachable_createService key w :
    reachable configs networkTypes initialize w →
    reachable configs networkTypes initialize
      (createService configs initialize key w).2
| reachable_getAllServices w :
    reachable configs networkTypes initialize w →
    reachable configs networkTypes initialize
      (getAllServices configs networkTypes initialize w).2.

(** What holds of the cache and of the record of [initialize] calls:
    a cached adapter is the adapter of its key's network, that network
    is enabled, [initialize] was invoked on the adapter and returned; no
    object had [initialize] invoked twice, and only constructed objects
    had it invoked. *)
Record factory_invariant (configs : NetworkType → NetworkConfig.t)
    (initialize : BaseBlockchainService → Completion unit) (w : World) : Prop := {
  inv_cached :
    ∀ key service,
      services w !! key = Some service →
      ∃ n, NetworkType_of_string key = Some n
           ∧ service = mkService (ref service) (class_of n) (configs n) n
           ∧ NetworkConfig.enable (configs n) = true
           ∧ is_normal (initialize service) = true
           ∧ ref service ∈ initialize_calls w;
  inv_constructed : ∀ r, r ∈ initialize_calls w → r < constructed w;
  inv_once : NoDup (initialize_calls w)
}.

(** What an entry of [supportedNetworks] says of its network: a name
    outside the enum is [unavailable], with the factory's message; a
    disabled network is [available]. *)
Definition detail_describes (configs : NetworkType → NetworkConfig.t)
    (detail : NetworkDetail.t) : Prop :=
  match NetworkType_of_string (NetworkDetail.type detail) with
  | None =>
      NetworkDetail.status detail = unavailable
      ∧ NetworkDetail.error detail
        = Some ("Unsupported network type: " +:+ NetworkDetail.type detail)
  | Some n =>
      NetworkConfig.enable (configs n) = false →
      NetworkDetail.status detail = available
  end.

(** Decimal numerals and the number they denote. *)
Definition is_digit (c : ascii) : bool :=
  ((48 <=? nat_of_ascii c)%nat && (nat_of_ascii c <=? 57)%nat)%bool.

Definition digit_value (c : ascii) : Z := Z.of_nat (nat_of_ascii c) - 48.

Fixpoint all_digits (s : string) : bool :=
  match s with
  | EmptyString => true
  | String c rest => (is_digit c && all_digits rest)%bool
  end.

Fixpoint decimal_value_from (acc : Z) (s : string) : Z :=
  match s with
  | EmptyString => acc
  | String c rest => decimal_value_from (10 * acc + digit_value c) rest
  end.

Definition decimal_value (s : string) : Z := decimal_value_from 0 s.

(** What the language defines of [BigInt] on a string of decimal
    digits: the number they denote, leading zeros allowed. *)
Definition BigInt_reads_decimal (BigInt : string → Completion Z) : Prop :=
  ∀ s, s ≠ EmptyString → all_digits s = true → BigInt s = Normal (decimal_value s).

(** A [BigInt] that reads decimal numerals and rejects the rest. *)
Definition BigInt_of_decimal (s : string) : Completion Z :=
  if (all_digits s && negb (String.eqb s EmptyString))%bool
  then Normal (decimal_value s)
  else Throw (JsError ("Cannot convert " +:+ s +:+ " to a BigInt")).

(** An adapter as its constructor leaves it: no field set. *)
Definition TON_constructed : TONService.State := TONService.mkState None None None.
Definition Ripple_constructed : RippleService.State := RippleService.mkState None None.
Definition Arbitrum_constructed : ArbitrumService.State :=
  ArbitrumService.mkState None None.
Definition TRC20_constructed : TRC20Service.State := TRC20Service.mkState None None.

(** ** Further scenarios *)

(** A client that has used up its points: the limiter turns every
    request down, with a given time left. *)
Definition exhausted_limiter (msBeforeNext : Z)
  : string → unit → option (option float) * unit :=
  λ _ _, (Some (Some (whole msBeforeNext)), tt).

(** [String(x)] on a whole number from [0] to [2^53]: its digits. *)
Definition String_of_whole (x : float) : string :=
  match Prim2SF x with
  | S754_finite false m e =>
      if (0 <=? e)%Z then pretty (Z.pos m * 2 ^ e)%Z
      else pretty (Z.pos m `div` 2 ^ (- e))%Z
  | _ => "0"
  end.

(** The wait told for a whole number of milliseconds is that number
    rounded to the nearest second, halves upwards, and at least one. *)
Definition rounds_to_nearest_second (ms : Z) : bool :=
  PrimFloat.Leibniz.eqb (retry_after_seconds (Some (whole ms)))
    (whole (Z.max 1 ((ms + 500) `div` 1000))).

(** A request body that [Joi] accepts. *)
Definition scenario_request : TransactionRequest.t :=
  TransactionRequest.mk (Some "TJRabPrwbZy45sbavfcjinPJC18kjpRTv8")
    "TJRabPrwbZy45sbavfcjinPJC18kjpRTv8" 1.5%float None None None.

(** A stand-in for [@ton/ton] and the language's [BigInt], with a node
    that knows no transaction and an address parser that accepts raw
    addresses of the base workchain only. *)
Definition ton_sdk : TONService.Sdk :=
  TONService.mkSdk
    (λ address, if String.prefix "0:" address then Normal address
                else Throw (JsError ("Unknown address type: " +:+ address)))
    no_env
    (λ entropy, Normal ["words"; "of"; entropy])
    (λ words, Normal (TONService.mkKeyPair ("pub:" +:+ TONService.join_space words)
                        ("priv:" +:+ TONService.join_space words)))
    (λ publicKey workchain, Normal (pretty workchain +:+ ":" +:+ publicKey)).

Definition ton_rpc : TONQueries.Rpc :=
  TONQueries.mkRpc BigInt_of_decimal (λ _, "0") (λ _, 0%float) 1700000000%Z
    (λ _ _, Normal 0%Z) (λ _ _ _, Normal []).

(** A stand-in for [xrpl] whose address check is unusable, so that the
    adapter falls back on its pattern; and a server that knows no
    account. *)
Definition xrpl_without_isValidAddress : RippleService.Sdk :=
  RippleService.mkSdk
    (λ _, Throw (JsError "isValidAddress is not a function"))
    (λ _ _, Throw (JsError "Transaction not found."))
    (λ drops, Normal drops)
    (λ _, 0%float)
    1700000000%Z
    (λ entropy, "words of " +:+ entropy)
    (λ mnemonic, Normal ("seed of " +:+ mnemonic))
    (λ path seed, Normal (seed +:+ " at " +:+ path))
    (λ seed, Normal (xrpl_wallet seed))
    (λ entropy, Normal (xrpl_wallet ("generated from " +:+ entropy))).

Definition xrpl_unknown_accounts : RippleQueries.Rpc :=
  RippleQueries.mkRpc
    (λ _ _, Throw (JsError "Account not found."))
    (λ _, Normal None)
    (λ _, "10").

Definition scenario_ripple_address : string := "rHb9CJAWyB4rj91VRWn96DkukG4bwdtyTh".

Definition Ripple_connected : RippleService.State :=
  RippleService.mkState (Some "wss://xrplcluster.com") None.

(** A stand-in for the Cardano library that accepts the addresses of
    the main network, and two API servers: one that is down, one that
    answers every call with [404]. *)
Definition cardano_sdk : CardanoService.Sdk :=
  CardanoService.mkSdk
    (λ address, if String.prefix "addr1" address then Normal address
                else Throw (JsError "Invalid bech32 address"))
    (λ _ entropy, "words of " +:+ entropy)
    (λ mnemonic, Normal ("entropy of " +:+ mnemonic))
    (λ entropy _, Normal ("root of " +:+ entropy))
    (λ key index, Normal (key +:+ "/" +:+ pretty index))
    (λ key, Normal ("raw " +:+ key))
    (λ key, Normal ("pub " +:+ key))
    (λ key, Normal ("hash " +:+ key))
    1%Z
    (λ keyhash, Normal ("credential " +:+ keyhash))
    (λ network payment stake, Normal (payment +:+ " " +:+ stake))
    (λ address, Normal ("addr1" +:+ address)).

Definition cardano_api_down : CardanoQueries.Http :=
  CardanoQueries.mkHttp string (λ j, Normal j) (λ _, true)
    (λ _ _ _ _, Throw (JsError "fetch failed"))
    (λ entropy, entropy).

Definition cardano_api_not_found : CardanoQueries.Http :=
  CardanoQueries.mkHttp string (λ j, Normal j) (λ _, true)
    (λ _ _ _ _, Normal (CardanoQueries.mkResponse false 404%Z "Not Found"
                          (Normal "{}")))
    (λ entropy, entropy).

Definition Cardano_with_wallet : CardanoService.State :=
  CardanoService.mkState (Some "https://cardano-mainnet.blockfrost.io/api/v0")
    (Some (CardanoService.mkWalletData "priv" "pub" "addr1qx", None)).

Definition scenario_cardano_request : TransactionRequest.t :=
  TransactionRequest.mk None "addr1qy" 2%float None None None.

(** The route of [sendTransaction], and a request on it for a network
    that does not exist. *)
Definition sendTransaction_route : Route :=
  mkRoute POST [Param "network"; Lit "transaction"]
    [mw_validateNetwork; mw_validateTransactionRequest; mw_rateLimiter]
    h_sendTransaction.

Definition bitcoin_request : Request TransactionRequest.t :=
  mkRequest TransactionRequest.t [("network", "bitcoin")] scenario_request None.

(** ** Reading the API index

    An entry of [api_endpoints] names a method and a path; below the
    mount point the path is a pattern in the notation of the router. *)
Definition Method_of_string (s : string) : option Method :=
  if String.eqb s "GET" then Some GET
  else if String.eqb s "POST" then Some POST
  else None.

Definition Segment_of_string (s : string) : Segment :=
  match s with
  | String ":"%char name => Param name
  | _ => Lit s
  end.

Definition advertised_route (endpoint : string) : option (Method * list Segment) :=
  match TONService.split_space endpoint with
  | [m; path] =>
      match Method_of_string m, split_slash path with
      | Some m, _ :: "api" :: "blockchain" :: segments =>
          Some (m, Segment_of_string <$> segments)
      | _, _ => None
      end
  | _ => None
  end.

(** The request path that fills the parameters of a pattern in. *)
Definition instantiate (values : string → string) (pattern : list Segment)
  : list string :=
  (λ segment, match segment with
              | Lit s => s
              | Param name => values name
              end) <$> pattern.

(** The handler an entry of the index is named after. *)
Definition handler_of_endpoint (name : string) : option Handler :=
  if String.eqb name "networks" then Some h_getSupportedNetworks
  else if String.eqb name "balance" then Some h_getBalance
  else if String.eqb name "multiBalance" then Some h_getMultiNetworkBalance
  else if String.eqb name "sendTransaction" then Some h_sendTransaction
  else if String.eqb name "transactionStatus" then Some h_getTransactionStatus
  else if String.eqb name "estimateGas" then Some h_estimateGas
  else if String.eqb name "walletInfo" then Some h_getWalletInfo
  else if String.eqb name "latestBlock" then Some h_getLatestBlock
  else if String.eqb name "createWallet" then Some h_createWallet
  else None.

(** The handler that takes a request, if a route does. *)
Definition handler_for (m : Method) (segments : list string) : option Handler :=
  option_map (λ found, handler found.1) (dispatch router m segments).

(** Parameter values of the scenarios. *)
Definition scenario_values (name : string) : string :=
  if String.eqb name "network" then "trc20" else scenario_address.
(** * Properties *)

(** ** The enum *)

Lemma NetworkType_of_string_value (n : NetworkType) :
  NetworkType_of_string (NetworkType_value n) = Some n.
Proof. by destruct n. Qed.

Lemma NetworkType_of_string_Some (s : string) (n : NetworkType) :
  NetworkType_of_string s = Some n → NetworkType_value n = s.
Proof.
  unfold NetworkType_of_string.
  repeat match goal with
         | |- context [String.eqb s ?c] =>
             destruct (String.eqb_spec s c) as [->|_]; [by intros [= <-]|]
         end.
  discriminate.
Qed.

Lemma NetworkType_value_inj (m n : NetworkType) :
  NetworkType_value m = NetworkType_value n → m = n.
Proof.
  intros H. apply (f_equal NetworkType_of_string) in H.
  rewrite !NetworkType_of_string_value in H. by injection H.
Qed.

Lemma Object_values_NetworkType_NoDup : NoDup Object_values_NetworkType.
Proof. apply (bool_decide_unpack _). by vm_compute. Qed.

Lemma cache_consistent_empty : cache_consistent World_empty.
Proof. intros key service H. simpl in H. by rewrite lookup_empty in H. Qed.

(** ** The factory *)

Section FactoryFacts.

Variable configs : NetworkType → NetworkConfig.t.
Variable initialize : BaseBlockchainService → Completion unit.

Local Abbreviation create := (createService configs initialize).
Local Abbreviation fresh := (fresh_service configs).

(** The four paths through [createService]. *)
Lemma createService_cached key service w :
  services w !! key = Some service →
  create key w = (Normal service, w).
Proof. intros H. unfold createService, eff_bind, eff_get. by rewrite H. Qed.

Lemma createService_unsupported key w :
  services w !! key = None →
  NetworkType_of_string key = None →
  create key w
  = (Throw (JsError ("Unsupported network type: " +:+ key)), w).
Proof.
  intros H1 H2. unfold createService, eff_bind, eff_get. by rewrite H1, H2.
Qed.

Lemma createService_disabled key n w :
  services w !! key = None →
  NetworkType_of_string key = Some n →
  NetworkConfig.enable (configs n) = false →
  create key w = (Normal (fresh n w), World_construct w).
Proof.
  intros H1 H2 H3. unfold createService, eff_bind, eff_get.
  rewrite H1, H2. simpl. by rewrite H3.
Qed.

Lemma createService_enabled key n w :
  services w !! key = None →
  NetworkType_of_string key = Some n →
  NetworkConfig.enable (configs n) = true →
  create key w
  = match initialize (fresh n w) with
    | Normal _ =>
        (Normal (fresh n w),
         World_set key (fresh n w)
           (World_initialize (constructed w) (World_construct w)))
    | Throw e => (Throw e, World_initialize (constructed w) (World_construct w))
    end.
Proof.
  intros H1 H2 H3. unfold createService, eff_bind, eff_get.
  rewrite H1, H2. simpl. rewrite H3. unfold call_initialize, eff_bind. simpl.
  unfold fresh_service. by destruct (initialize _).
Qed.

(** A returned adapter is the adapter of the network asked for, and the
    cache stays consistent, whatever the outcome. *)
Lemma createService_consistent key w :
  cache_consistent w →
  cache_consistent (create key w).2
  ∧ ∀ service, (create key w).1 = Normal service →
               getNetworkType service = key.
Proof.
  intros Hw.
  destruct (services w !! key) as [cached|] eqn:Hc.
  { rewrite (createService_cached _ _ _ Hc). simpl. split; [done|].
    intros service [= <-]. by apply Hw. }
  destruct (NetworkType_of_string key) as [n|] eqn:Hn.
  2:{ rewrite (createService_unsupported _ _ Hc Hn). by split. }
  pose proof (NetworkType_of_string_Some _ _ Hn) as Hkey.
  destruct (NetworkConfig.enable (configs n)) eqn:He.
  - rewrite (createService_enabled _ _ _ Hc Hn He).
    destruct (initialize _); simpl.
    + split; [|by intros service [= <-]].
      intros k s. simpl. destruct (decide (key = k)) as [<-|Hne].
      * rewrite lookup_insert_eq. by intros [= <-].
      * rewrite lookup_insert_ne by done. apply Hw.
    + by split.
  - rewrite (createService_disabled _ _ _ Hc Hn He). simpl.
    split; [done|]. by intros service [= <-].
Qed.

(** [createService] throws for an unsupported name or a failed
    [initialize], and for nothing else. *)
Lemma createService_throws key w e w' :
  create key w = (Throw e, w') →
  services w !! key = None
  ∧ (NetworkType_of_string key = None
     ∨ ∃ n, NetworkType_of_string key = Some n
            ∧ NetworkConfig.enable (configs n) = true
            ∧ initialize (fresh n w) = Throw e).
Proof.
  destruct (services w !! key) as [cached|] eqn:Hc.
  { by rewrite (createService_cached _ _ _ Hc). }
  intros H. split; [done|].
  destruct (NetworkType_of_string key) as [n|] eqn:Hn; [right|by left].
  exists n. destruct (NetworkConfig.enable (configs n)) eqn:He.
  - rewrite (createService_enabled _ _ _ Hc Hn He) in H.
    destruct (initialize _); [done|]. by injection H as -> _.
  - by rewrite (createService_disabled _ _ _ Hc Hn He) in H.
Qed.

(** The cache entry of a disabled network is never written. *)
Lemma createService_cache_frame key k n w :
  NetworkType_of_string k = Some n →
  NetworkConfig.enable (configs n) = false →
  services (create key w).2 !! k = services w !! k.
Proof.
  intros Hk Hdis.
  destruct (services w !! key) as [cached|] eqn:Hc.
  { by rewrite (createService_cached _ _ _ Hc). }
  destruct (NetworkType_of_string key) as [m|] eqn:Hm.
  2:{ by rewrite (createService_unsupported _ _ Hc Hm). }
  destruct (NetworkConfig.enable (configs m)) eqn:He.
  - rewrite (createService_enabled _ _ _ Hc Hm He).
    destruct (initialize _); [|done]. simpl.
    apply lookup_insert_ne. intros ->. congruence.
  - by rewrite (createService_disabled _ _ _ Hc Hm He).
Qed.

(** The loop of [getAllServices]: it always completes; what it appends
    to [acc] is, in order, one adapter per name on which
    [createService] did not throw. *)
Lemma getAllServices_from_spec rest :
  ∀ acc w,
    cache_consistent w →
    ∃ found w',
      getAllServices_from configs initialize rest acc w = (Normal (acc ++ found), w')
      ∧ cache_consistent w'
      ∧ sublist (getNetworkType <$> found) rest
      ∧ (∀ k, k ∈ rest → k ∉ getNetworkType <$> found →
           NetworkType_of_string k = None
           ∨ ∃ n service e,
               NetworkType_of_string k = Some n
               ∧ networkType service = n
               ∧ NetworkConfig.enable (configs n) = true
               ∧ initialize service = Throw e)
      ∧ (∀ k n, NetworkType_of_string k = Some n →
           NetworkConfig.enable (configs n) = false →
           services w' !! k = services w !! k)
      ∧ ((∀ k, k ∈ rest → is_Some (NetworkType_of_string k)) →
         (∀ service, is_normal (initialize service) = true) →
         getNetworkType <$> found = rest).
Proof.
  induction rest as [|key rest IH]; intros acc w Hw.
  { exists [], w. rewrite app_nil_r.
    repeat split; try done; intros k Hk; by apply elem_of_nil in Hk. }
  simpl. unfold eff_bind at 1. unfold eff_try, eff_bind at 1.
  destruct (createService_consistent key w Hw) as [Hw1 Hkey].
  pose proof (λ k n, createService_cache_frame key k n w) as Hframe.
  destruct (create key w) as [[service|e] w1] eqn:Hcall; simpl in *.
  - destruct (IH (acc ++ [service]) w1 Hw1)
      as (found & w' & Hrun & Hw' & Hsub & Homit & Hdis & Hall).
    exists (service :: found), w'. rewrite Hrun, <- app_assoc. simpl.
    specialize (Hkey service eq_refl). rewrite Hkey.
    repeat split; try done.
    + by apply sublist_skip.
    + intros k Hk Hnot. apply not_elem_of_cons in Hnot as [Hne Hnot].
      apply elem_of_cons in Hk as [->|Hk]; [done|]. by apply Homit.
    + intros k n Hk Hoff. rewrite (Hdis k n Hk Hoff). by eapply Hframe.
    + intros Hreg Hok. f_equal. apply Hall; [|done].
      intros k Hk. apply Hreg. by right.
  - unfold console_error_push, eff_modify. simpl.
    set (w2 := World_console_error _ w1).
    assert (cache_consistent w2) as Hw2 by done.
    destruct (IH acc w2 Hw2)
      as (found & w' & Hrun & Hw' & Hsub & Homit & Hdis & Hall).
    exists found, w'. rewrite Hrun.
    apply createService_throws in Hcall as [Hc Hwhy].
    repeat split; try done.
    + by apply sublist_cons.
    + intros k Hk Hnot. apply elem_of_cons in Hk as [->|Hk]; [|by apply Homit].
      destruct Hwhy as [Hwhy|(n & Hn & He & Hinit)]; [by left|right].
      by exists n, (fresh n w), e.
    + intros k n Hk Hoff. rewrite (Hdis k n Hk Hoff). by eapply Hframe.
    + intros Hreg Hok. exfalso.
      destruct Hwhy as [Hwhy|(n & Hn & He & Hinit)].
      * destruct (Hreg key) as [n Hn]; [by left|]. congruence.
      * specialize (Hok (fresh n w)). by rewrite Hinit in Hok.
Qed.

End FactoryFacts.


(** ** The factory: the claims *)

(** C4, as stated, fails: of four registered networks with ripple
    disabled and every handshake succeeding, [getAllServices] returns four
    adapters, the disabled network's among them, not at most three.
    Likewise on the registry of the source, where trc20 alone is
    enabled: all eight adapters are returned, [initialize] having run on
    the one of trc20 only. *)
Lemma getAllServices_returns_disabled_adapter :
  (∃ found w',
     getAllServices scenario_configs scenario_networks always_initializes World_empty
     = (Normal found, w')
     ∧ length (getAvailableNetworks scenario_networks) = 4
     ∧ (NetworkConfig.enable ∘ scenario_configs) <$> [ARBITRUM; SOLANA; RIPPLE; TRC20]
       = [true; true; false; true]
     ∧ getNetworkType <$> found = ["arbitrum"; "solana"; "ripple"; "trc20"]
     ∧ ¬ (length found ≤ 3)%nat)
  ∧ (∃ found w',
       getAllServices (NETWORK_CONFIGS no_env) Object_values_NetworkType
         always_initializes World_empty
       = (Normal found, w')
       ∧ getNetworkType <$> found = Object_values_NetworkType
       ∧ length found = 8
       ∧ initialize_calls w' = [7]
       ∧ dom (services w') = {["trc20"]}).
Proof.
  split.
  - eexists _, _. split; [by vm_compute|]. simpl. repeat split; lia.
  - eexists _, _. split; [by vm_compute|]. by repeat split.
Qed.

(** C4 (amended): [getAllServices] never fails as a whole and returns, in
    registry order, one adapter for each network on which [createService]
    did not throw.  A network is omitted only if its name is unsupported
    or its [initialize] threw; a disabled network is not omitted (its
    adapter is returned while the cache keeps no entry for it), so when
    every registered network is supported and no handshake fails the
    result has one adapter per registered network, four out of four.
    [getAvailableNetworks] returns all registered ids in any case. *)
Theorem getAllServices_omits_only_failed_constructions
    (configs : NetworkType → NetworkConfig.t) (networkTypes : list string)
    (initialize : BaseBlockchainService → Completion unit) (w : World) :
  cache_consistent w →
  ∃ found w',
    getAllServices configs networkTypes initialize w = (Normal found, w')
    ∧ sublist (getNetworkType <$> found) networkTypes
    ∧ (∀ k, k ∈ networkTypes → k ∉ getNetworkType <$> found →
         NetworkType_of_string k = None
         ∨ ∃ n service e,
             NetworkType_of_string k = Some n
             ∧ networkType service = n
             ∧ NetworkConfig.enable (configs n) = true
             ∧ initialize service = Throw e)
    ∧ (∀ k n, k ∈ networkTypes →
         NetworkType_of_string k = Some n →
         NetworkConfig.enable (configs n) = false →
         k ∈ getNetworkType <$> found ∧ services w' !! k = services w !! k)
    ∧ ((∀ k, k ∈ networkTypes → is_Some (NetworkType_of_string k)) →
       (∀ service, is_normal (initialize service) = true) →
       getNetworkType <$> found = networkTypes
       ∧ length found = length networkTypes)
    ∧ getAvailableNetworks networkTypes = networkTypes.
Proof.
  intros Hw. unfold getAllServices.
  destruct (getAllServices_from_spec configs initialize networkTypes [] w Hw)
    as (found & w' & Hrun & _ & Hsub & Homit & Hdis & Hall).
  exists found, w'. repeat split; try done.
  - destruct (decide (k ∈ getNetworkType <$> found)) as [|Hnot]; [done|].
    destruct (Homit k H Hnot) as [?|(m & ? & ? & ? & ? & ? & ?)]; congruence.
  - by eapply Hdis.
  - by apply Hall.
  - rewrite <- (length_fmap getNetworkType found). by rewrite (Hall H H0).
Qed.

Lemma getAllServices_omits_only_failed_constructions_witness :
  ∃ found w',
    getAllServices scenario_configs scenario_networks always_initializes World_empty
    = (Normal found, w')
    ∧ length found = 4.
Proof.
  destruct (getAllServices_omits_only_failed_constructions
              scenario_configs scenario_networks always_initializes World_empty
              cache_consistent_empty)
    as (found & w' & Hrun & _ & _ & _ & Hall & _).
  exists found, w'. split; [exact Hrun|].
  apply Hall; [|done].
  intros k Hk.
  repeat (apply elem_of_cons in Hk as [->|Hk]; [by eexists|]).
  by apply elem_of_nil in Hk.
Defined.


(** C5, as stated, fails for a disabled network: with the registry of the
    source, where arbitrum has [enable: false], two calls in a row both
    succeed and return two different objects, the second call having
    constructed an adapter of its own. *)
Lemma createService_twice_disabled_distinct :
  ∃ s1 w1 s2 w2,
    createService (NETWORK_CONFIGS no_env) always_initializes "arbitrum" World_empty
    = (Normal s1, w1)
    ∧ createService (NETWORK_CONFIGS no_env) always_initializes "arbitrum" w1
      = (Normal s2, w2)
    ∧ ref s1 = 0 ∧ ref s2 = 1
    ∧ s1 ≠ s2
    ∧ constructed w2 = S (constructed w1).
Proof.
  eexists _, _, _, _. split; [by vm_compute|]. split; [by vm_compute|].
  simpl. by repeat split.
Qed.

(** C5 (amended): for every network id whose registry entry has
    [enable = true], a call of [createService] that returned an adapter is
    followed by a call that returns the identical object and changes
    nothing: no adapter is constructed, [initialize] is not invoked, the
    cache is as it was. *)
Theorem createService_twice_identical
    (configs : NetworkType → NetworkConfig.t)
    (initialize : BaseBlockchainService → Completion unit)
    (key : string) (n : NetworkType) (w w1 : World)
    (service : BaseBlockchainService) :
  NetworkType_of_string key = Some n →
  NetworkConfig.enable (configs n) = true →
  createService configs initialize key w = (Normal service, w1) →
  createService configs initialize key w1 = (Normal service, w1).
Proof.
  intros Hn He Hfirst. apply createService_cached.
  destruct (services w !! key) as [cached|] eqn:Hc.
  - rewrite (createService_cached _ _ _ _ _ Hc) in Hfirst.
    by injection Hfirst as -> <-.
  - rewrite (createService_enabled _ _ _ _ _ Hc Hn He) in Hfirst.
    destruct (initialize _); [|done].
    injection Hfirst as <- <-. simpl. apply lookup_insert_eq.
Qed.

Lemma createService_twice_identical_witness :
  let service := fresh_service (NETWORK_CONFIGS no_env) TRC20 World_empty in
  let w1 := World_set "trc20" service
              (World_initialize 0 (World_construct World_empty)) in
  createService (NETWORK_CONFIGS no_env) always_initializes "trc20" w1
  = (Normal service, w1).
Proof.
  intros service w1.
  apply (createService_twice_identical
           (NETWORK_CONFIGS no_env) always_initializes "trc20" TRC20 World_empty);
    reflexivity.
Defined.

(** C6: the two paths of [createService] that do not cache.
    - If the network's entry has [enable = false], whatever the world,
      the call returns an adapter, [initialize] is not invoked on
      anything, and the cache is unchanged.
    - If the network is enabled, not cached, and [initialize] throws [e]
      on the adapter just built, the call throws [e] and the cache is
      unchanged; the next call for the same id builds a second adapter
      from scratch and runs [initialize] on that one, returning and
      caching it when that attempt succeeds. *)
Theorem createService_non_caching_paths
    (configs : NetworkType → NetworkConfig.t)
    (initialize : BaseBlockchainService → Completion unit)
    (key : string) (n : NetworkType) (w : World) :
  NetworkType_of_string key = Some n →
  (NetworkConfig.enable (configs n) = false →
     ∃ service w',
       createService configs initialize key w = (Normal service, w')
       ∧ services w' = services w
       ∧ initialize_calls w' = initialize_calls w)
  ∧ (NetworkConfig.enable (configs n) = true →
     services w !! key = None →
     ∀ e, initialize (fresh_service configs n w) = Throw e →
       ∃ w',
         createService configs initialize key w = (Throw e, w')
         ∧ services w' = services w
         ∧ constructed w' = S (constructed w)
         ∧ initialize_calls w' = initialize_calls w ++ [constructed w]
         ∧ ∃ w'',
             createService configs initialize key w'
             = (match initialize (fresh_service configs n w') with
                | Normal _ => Normal (fresh_service configs n w')
                | Throw e' => Throw e'
                end, w'')
             ∧ constructed w'' = S (constructed w')
             ∧ initialize_calls w'' = initialize_calls w' ++ [constructed w']
             ∧ services w''
               = match initialize (fresh_service configs n w') with
                 | Normal _ => <[key := fresh_service configs n w']> (services w')
                 | Throw _ => services w'
                 end).
Proof.
  intros Hn. split.
  - intros Hoff. destruct (services w !! key) as [cached|] eqn:Hc.
    + exists cached, w. by rewrite (createService_cached _ _ _ _ _ Hc).
    + exists (fresh_service configs n w), (World_construct w).
      by rewrite (createService_disabled _ _ _ _ _ Hc Hn Hoff).
  - intros Hon Hc e Hfail.
    exists (World_initialize (constructed w) (World_construct w)).
    rewrite (createService_enabled _ _ _ _ _ Hc Hn Hon), Hfail.
    repeat split.
    set (w' := World_initialize _ _).
    assert (services w' !! key = None) as Hc' by done.
    rewrite (createService_enabled _ _ _ _ _ Hc' Hn Hon).
    destruct (initialize (fresh_service configs n w')); by eexists.
Qed.

Lemma createService_non_caching_paths_witness :
  (∃ service w',
     createService (NETWORK_CONFIGS no_env) always_initializes "cardano" World_empty
     = (Normal service, w')
     ∧ services w' = services World_empty
     ∧ initialize_calls w' = [])
  ∧ (∃ w',
       createService (NETWORK_CONFIGS no_env) (fails_on TRC20) "trc20" World_empty
       = (Throw (JsError "connect ECONNREFUSED"), w')
       ∧ services w' = services World_empty
       ∧ constructed w' = 1).
Proof.
  split.
  - apply (createService_non_caching_paths
             (NETWORK_CONFIGS no_env) always_initializes "cardano" CARDANO World_empty);
      reflexivity.
  - destruct (createService_non_caching_paths
                (NETWORK_CONFIGS no_env) (fails_on TRC20) "trc20" TRC20 World_empty
                eq_refl) as [_ Hthrow].
    destruct (Hthrow eq_refl eq_refl (JsError "connect ECONNREFUSED") eq_refl)
      as (w' & Hcall & Hcache & Hcount & _).
    by exists w'.
Defined.

(** The cache only ever holds keys that are members of the enum. *)
Lemma cache_consistent_keys (w : World) (key : string) :
  cache_consistent w →
  NetworkType_of_string key = None →
  services w !! key = None.
Proof.
  intros Hw Hkey. destruct (services w !! key) as [cached|] eqn:Hc; [|done].
  apply Hw in Hc. unfold getNetworkType in Hc.
  by rewrite <- Hc, NetworkType_of_string_value in Hkey.
Qed.

(** C10: in a world whose cache is consistent (the empty one the process
    starts with, and every world the factory reaches from it), a string
    that is no member of the enum makes [createService] throw
    [Unsupported network type: <string>] and leaves the world as it
    was: nothing constructed, nothing initialised, the cache untouched.
    [getBalance] answers such a request with status 500, the world again
    unchanged. *)
Theorem createService_unsupported_leaves_world
    (configs : NetworkType → NetworkConfig.t)
    (initialize : BaseBlockchainService → Completion unit)
    (validateAddress : BaseBlockchainService → string → Completion bool)
    (getBalance_of : BaseBlockchainService → string → Completion float)
    (getWalletInfo : BaseBlockchainService → string → Completion WalletInfo.t)
    (key address : string) (w : World) :
  cache_consistent w →
  NetworkType_of_string key = None →
  createService configs initialize key w
  = (Throw (JsError ("Unsupported network type: " +:+ key)), w)
  ∧ getBalance configs initialize validateAddress getBalance_of getWalletInfo key address w
    = (Normal (res_status_json 500 "Failed to get balance"), w).
Proof.
  intros Hw Hkey.
  pose proof (createService_unsupported configs initialize key w
                (cache_consistent_keys w key Hw Hkey) Hkey) as Hcall.
  split; [done|].
  unfold getBalance, eff_try, eff_bind at 1. by rewrite Hcall.
Qed.

Lemma createService_unsupported_leaves_world_witness :
  createService (NETWORK_CONFIGS no_env) always_initializes "bitcoin" World_empty
  = (Throw (JsError "Unsupported network type: bitcoin"), World_empty).
Proof.
  apply (createService_unsupported_leaves_world
           (NETWORK_CONFIGS no_env) always_initializes
           (λ _ _, Normal true) (λ _ _, Normal 0%float)
           scenario_getWalletInfo
           "bitcoin" scenario_address World_empty cache_consistent_empty eq_refl).
Defined.

(** ** The aggregation *)

(** Keeping, in a list whose images under [f] are pairwise distinct, the
    elements with the image of a member keeps that member alone. *)
Lemma filter_same_image_NoDup {A B} `{EqDecision B} (f : A → B) (l : list A) (x : A) :
  NoDup (f <$> l) → x ∈ l → filter (λ y, f y = f x) l = [x].
Proof.
  induction l as [|y l IH]; intros Hnd Hx; [by apply elem_of_nil in Hx|].
  rewrite fmap_cons in Hnd. apply NoDup_cons in Hnd as [Hy Hnd].
  apply elem_of_cons in Hx as [->|Hx].
  - rewrite filter_cons_True by done. f_equal.
    destruct (filter _ l) as [|z l'] eqn:Hf; [done|].
    assert (z ∈ filter (λ y0, f y0 = f y) l) as Hz by (rewrite Hf; by left).
    apply list_elem_of_filter in Hz as [Hz1 Hz2].
    exfalso. apply Hy. rewrite <- Hz1. by apply list_elem_of_fmap_2.
  - rewrite filter_cons_False; [by apply IH|].
    intros Heq. apply Hy. rewrite Heq. by apply list_elem_of_fmap_2.
Qed.

Section ControllerFacts.

Variable validateAddress : BaseBlockchainService → string → Completion bool.
Variable getWalletInfo : BaseBlockchainService → string → Completion WalletInfo.t.

Local Abbreviation query := (query_balance validateAddress getWalletInfo).
Local Abbreviation entry_of := (entry_of validateAddress getWalletInfo).

Lemma query_balance_entry address service :
  query address service = Normal (entry_of address service).
Proof.
  unfold query_balance, entry_of, try_catch.
  destruct (validateAddress service address) as [[]|e]; [|done..].
  by destruct (getWalletInfo service address).
Qed.

Lemma entry_of_network address service :
  BalanceEntry.network (entry_of address service) = Some (getNetworkType service).
Proof.
  unfold entry_of.
  destruct (validateAddress service address) as [[]|e]; [|done..].
  by destruct (getWalletInfo service address).
Qed.

Lemma balances_of_entries address services :
  balances_of validateAddress getWalletInfo address services
  = fulfilled <$> (entry_of address <$> services).
Proof.
  unfold balances_of, Promise_allSettled. rewrite <- !list_fmap_compose.
  apply list_fmap_ext. intros _ service _. simpl. by rewrite query_balance_entry.
Qed.

Lemma successful_of_fulfilled (entries : list BalanceEntry.t) :
  successful_of (fulfilled <$> entries) = filter (λ e, is_success e = true) entries.
Proof.
  unfold successful_of. induction entries as [|e entries IH]; [done|].
  rewrite fmap_cons. destruct (is_success e) eqn:He.
  - rewrite !filter_cons_True by done. rewrite fmap_cons. by f_equal.
  - rewrite !filter_cons_False by (simpl; congruence). done.
Qed.

Lemma failed_of_fulfilled (entries : list BalanceEntry.t) :
  failed_of (fulfilled <$> entries) = filter (λ e, ¬ is_success e = true) entries.
Proof.
  unfold failed_of. induction entries as [|e entries IH]; [done|].
  rewrite fmap_cons. destruct (is_success e) eqn:He.
  - rewrite !filter_cons_False; [done|congruence|simpl; by rewrite He].
  - rewrite !filter_cons_True; [|congruence|simpl; by rewrite He].
    rewrite fmap_cons. by f_equal.
Qed.

End ControllerFacts.

Section AggregationClaims.

Variable configs : NetworkType → NetworkConfig.t.
Variable networkTypes : list string.
Variable initialize : BaseBlockchainService → Completion unit.
Variable validateAddress : BaseBlockchainService → string → Completion bool.
Variable getWalletInfo : BaseBlockchainService → string → Completion WalletInfo.t.

Local Abbreviation entry := (entry_of validateAddress getWalletInfo).
Local Abbreviation body_of address queried :=
  (multi_balance_body address (balances_of validateAddress getWalletInfo address queried)).

(** The handler runs [getAllServices], which completes, and answers with
    the body computed from the adapters it returned. *)
Lemma getMultiNetworkBalance_run address w :
  cache_consistent w →
  NoDup networkTypes →
  ∃ queried w',
    getAllServices configs networkTypes initialize w = (Normal queried, w')
    ∧ getMultiNetworkBalance configs networkTypes initialize
        validateAddress getWalletInfo address w
      = (Normal (res_json (body_of address queried)), w')
    ∧ NoDup (getNetworkType <$> queried).
Proof.
  intros Hw Hnd.
  destruct (getAllServices_from_spec configs initialize networkTypes [] w Hw)
    as (queried & w' & Hrun & _ & Hsub & _).
  exists queried, w'. unfold getMultiNetworkBalance, eff_try, eff_bind, getAllServices.
  rewrite Hrun. repeat split. by eapply sublist_NoDup.
Qed.

Lemma body_networks address queried :
  MultiBalance.networks (body_of address queried)
  = filter (λ e, is_success e = true) (entry address <$> queried).
Proof. simpl. by rewrite balances_of_entries, successful_of_fulfilled. Qed.

Lemma body_failedNetworks address queried :
  MultiBalance.failedNetworks (body_of address queried)
  = filter (λ e, ¬ is_success e = true) (entry address <$> queried).
Proof. simpl. by rewrite balances_of_entries, failed_of_fulfilled. Qed.

Lemma body_entries_network address queried :
  BalanceEntry.network
    <$> (MultiBalance.networks (body_of address queried)
         ++ MultiBalance.failedNetworks (body_of address queried))
  ≡ₚ Some <$> (getNetworkType <$> queried).
Proof.
  rewrite body_networks, body_failedNetworks, filter_app_complement.
  rewrite <- !list_fmap_compose.
  erewrite list_fmap_ext; [done|]. intros _ service _. simpl.
  apply entry_of_network.
Qed.

(** C1: the aggregation answers with a body in which the two partitions
    together have one entry per adapter that [getAllServices] returned
    (so the lengths add up to the number of networks queried, which is
    also what [totalNetworksChecked] reports), the network ids of the
    entries are those of the adapters, each exactly once, and no
    network id occurs in both partitions. *)
Theorem getMultiNetworkBalance_partitions address w :
  cache_consistent w →
  NoDup networkTypes →
  ∃ queried body w',
    getAllServices configs networkTypes initialize w = (Normal queried, w')
    ∧ getMultiNetworkBalance configs networkTypes initialize
        validateAddress getWalletInfo address w
      = (Normal (res_json body), w')
    ∧ length (MultiBalance.networks body) + length (MultiBalance.failedNetworks body)
      = length queried
    ∧ MultiBalance.successfulQueries body + MultiBalance.failedQueries body
      = MultiBalance.totalNetworksChecked body
    ∧ MultiBalance.totalNetworksChecked body = length queried
    ∧ BalanceEntry.network
        <$> (MultiBalance.networks body ++ MultiBalance.failedNetworks body)
      ≡ₚ Some <$> (getNetworkType <$> queried)
    ∧ NoDup (BalanceEntry.network
               <$> (MultiBalance.networks body ++ MultiBalance.failedNetworks body))
    ∧ (∀ e1 e2,
         e1 ∈ MultiBalance.networks body →
         e2 ∈ MultiBalance.failedNetworks body →
         BalanceEntry.network e1 ≠ BalanceEntry.network e2).
Proof.
  intros Hw Hnd.
  destruct (getMultiNetworkBalance_run address w Hw Hnd)
    as (queried & w' & Hall & Hrun & Hdistinct).
  exists queried, (body_of address queried), w'.
  pose proof (body_entries_network address queried) as Hperm.
  assert (NoDup (BalanceEntry.network
                   <$> (MultiBalance.networks (body_of address queried)
                        ++ MultiBalance.failedNetworks (body_of address queried))))
    as Hnodup.
  { rewrite Hperm. by apply (NoDup_fmap_2 Some). }
  assert (length (MultiBalance.networks (body_of address queried))
          + length (MultiBalance.failedNetworks (body_of address queried))
          = length queried) as Hlen.
  { rewrite <- length_app, <- (length_fmap BalanceEntry.network), Hperm.
    by rewrite !length_fmap. }
  split_and!; try done.
  - simpl in *. rewrite Hlen. unfold balances_of, Promise_allSettled.
    by rewrite !length_fmap.
  - simpl. unfold balances_of, Promise_allSettled. by rewrite !length_fmap.
  - intros e1 e2 H1 H2 Heq. rewrite fmap_app in Hnodup.
    apply NoDup_app in Hnodup as (_ & Hdisj & _).
    apply (Hdisj (BalanceEntry.network e1)).
    + by apply list_elem_of_fmap_2.
    + rewrite Heq. by apply list_elem_of_fmap_2.
Qed.

(** In the two partitions together, the entries carrying the network id
    of a queried adapter are that adapter's own entry and nothing else. *)
Lemma body_entries_of_service address queried service :
  NoDup (getNetworkType <$> queried) →
  service ∈ queried →
  filter (λ e, BalanceEntry.network e = Some (getNetworkType service))
    (MultiBalance.networks (body_of address queried)
     ++ MultiBalance.failedNetworks (body_of address queried))
  = [entry address service].
Proof.
  intros Hnd Hin. rewrite body_networks, body_failedNetworks.
  set (E := entry address <$> queried).
  assert (filter (λ e, BalanceEntry.network e = Some (getNetworkType service)) E
          = [entry address service]) as Hmine.
  { rewrite <- (entry_of_network validateAddress getWalletInfo address service).
    apply (filter_same_image_NoDup BalanceEntry.network).
    - assert (BalanceEntry.network <$> E = Some <$> (getNetworkType <$> queried))
        as ->; [|by apply (NoDup_fmap_2 Some)].
      unfold E. rewrite <- !list_fmap_compose.
      apply list_fmap_ext. intros _ s _. simpl. apply entry_of_network.
    - by apply list_elem_of_fmap_2. }
  rewrite filter_app, !list_filter_filter.
  rewrite (list_filter_iff _ (λ e, is_success e = true
             ∧ BalanceEntry.network e = Some (getNetworkType service))) by tauto.
  rewrite (list_filter_iff (λ e, _ ∧ ¬ _) (λ e, (¬ is_success e = true)
             ∧ BalanceEntry.network e = Some (getNetworkType service))) by tauto.
  rewrite <- !list_filter_filter, Hmine.
  rewrite !filter_cons, !filter_nil.
  destruct (decide (is_success (entry address service) = true)).
  - by rewrite decide_False by tauto.
  - by rewrite decide_True by done.
Qed.

(** C2: each adapter's outcome is recorded by itself.  For every adapter
    queried: if its [validateAddress] returns [false], the one entry of
    its network is the [invalid_address] one (status [invalid_address],
    not [error]) and sits among the failed; if its [getWalletInfo]
    throws, the one entry of its network is an [error] one among the
    failed; and if its [getWalletInfo] returns, the one entry of its
    network is its [success] entry among the successful, whatever the
    other adapters do, throwing included. *)
Theorem getMultiNetworkBalance_isolates_adapters address w :
  cache_consistent w →
  NoDup networkTypes →
  ∃ queried body w',
    getAllServices configs networkTypes initialize w = (Normal queried, w')
    ∧ getMultiNetworkBalance configs networkTypes initialize
        validateAddress getWalletInfo address w
      = (Normal (res_json body), w')
    ∧ ∀ service,
        service ∈ queried →
        let mine :=
          filter (λ e, BalanceEntry.network e = Some (getNetworkType service))
            (MultiBalance.networks body ++ MultiBalance.failedNetworks body) in
        (validateAddress service address = Normal false →
           mine = [invalid_address_entry service]
           ∧ BalanceEntry.status (invalid_address_entry service) = invalid_address
           ∧ invalid_address_entry service ∈ MultiBalance.failedNetworks body)
        ∧ (∀ e,
             validateAddress service address = Normal true →
             getWalletInfo service address = Throw e →
             mine = [error_entry service e]
             ∧ BalanceEntry.status (error_entry service e) = error
             ∧ error_entry service e ∈ MultiBalance.failedNetworks body)
        ∧ (∀ walletInfo,
             validateAddress service address = Normal true →
             getWalletInfo service address = Normal walletInfo →
             mine = [success_entry service walletInfo]
             ∧ success_entry service walletInfo ∈ MultiBalance.networks body).
Proof.
  intros Hw Hnd.
  destruct (getMultiNetworkBalance_run address w Hw Hnd)
    as (queried & w' & Hall & Hrun & Hdistinct).
  exists queried, (body_of address queried), w'.
  split; [done|]. split; [done|].
  intros service Hin mine. unfold mine.
  rewrite (body_entries_of_service address queried service Hdistinct Hin).
  rewrite body_networks, body_failedNetworks.
  assert (entry address service ∈ entry address <$> queried) as Hmem
      by by apply list_elem_of_fmap_2.
  split_and!.
  - intros Hv. unfold entry_of in *. rewrite Hv in *.
    split_and!; [done..|]. apply list_elem_of_filter. by split.
  - intros e Hv Hthrow. unfold entry_of in *. rewrite Hv, Hthrow in *.
    split_and!; [done..|]. apply list_elem_of_filter. by split.
  - intros walletInfo Hv Hret. unfold entry_of in *. rewrite Hv, Hret in *.
    split; [done|]. apply list_elem_of_filter. by split.
Qed.

Local Abbreviation reported address :=
  (reported_balance validateAddress getWalletInfo address).

(** An adapter's entry is a success exactly when it reported a balance,
    which the entry then carries. *)
Lemma entry_of_reported address service :
  match reported address service with
  | Some b =>
      is_success (entry address service) = true
      ∧ BalanceEntry.balance (entry address service) = Some b
  | None => is_success (entry address service) = false
  end.
Proof.
  unfold entry_of, reported_balance.
  destruct (validateAddress service address) as [[]|e]; [|done..].
  by destruct (getWalletInfo service address).
Qed.

(** The successful entries carry exactly the reported balances. *)
Lemma successful_entries_balances address (queried : list BaseBlockchainService) :
  BalanceEntry.balance
    <$> filter (λ e, is_success e = true) (entry address <$> queried)
  = Some <$> omap (reported address) queried.
Proof.
  induction queried as [|service queried IH]; [done|].
  rewrite fmap_cons. simpl omap.
  pose proof (entry_of_reported address service) as Hentry.
  destruct (reported address service) as [b|].
  - destruct Hentry as [Hs Hb].
    rewrite filter_cons_True by done. rewrite !fmap_cons. by f_equal.
  - rewrite filter_cons_False by congruence. done.
Qed.

Lemma fold_add_balance_Some (entries : list BalanceEntry.t) (bs : list float) :
  BalanceEntry.balance <$> entries = Some <$> bs →
  ∀ acc, fold_left add_balance entries acc = fold_left PrimFloat.add bs acc.
Proof.
  revert bs. induction entries as [|e entries IH]; intros [|b bs] H acc;
    try done.
  rewrite !fmap_cons in H. injection H as Hb Hrest. simpl.
  unfold add_balance at 2. rewrite Hb. by apply IH.
Qed.

(** A result in the failed partition plays no part in the total. *)
Lemma totalBalance_ignores_failed address
    (before after : list (PromiseSettledResult BalanceEntry.t))
    (result : PromiseSettledResult BalanceEntry.t) :
  is_failed result = true →
  MultiBalance.totalBalance (multi_balance_body address (before ++ result :: after))
  = MultiBalance.totalBalance (multi_balance_body address (before ++ after)).
Proof.
  intros Hfailed. simpl. unfold successful_of.
  rewrite !filter_app, filter_cons_False; [done|].
  destruct result as [value|reason]; simpl in *; [|done].
  by destruct (is_success value).
Qed.

(** C3: [totalBalance] is the sum, as JavaScript adds numbers (left to
    right, from 0), of the [balance] fields of the successful entries,
    which are the balances the succeeding adapters reported; it is a
    function of the successful partition alone, so a failed result
    added, removed or replaced leaves it as it was. *)
Theorem totalBalance_sums_successful_only address (queried : list BaseBlockchainService) :
  let body := body_of address queried in
  BalanceEntry.balance <$> MultiBalance.networks body
  = Some <$> omap (reported address) queried
  ∧ MultiBalance.totalBalance body = float_sum (omap (reported address) queried)
  ∧ MultiBalance.totalBalance body
    = totalBalance_of (MultiBalance.networks body)
  ∧ (∀ balances1 balances2,
       successful_of balances1 = successful_of balances2 →
       MultiBalance.totalBalance (multi_balance_body address balances1)
       = MultiBalance.totalBalance (multi_balance_body address balances2))
  ∧ (∀ before after result,
       is_failed result = true →
       MultiBalance.totalBalance (multi_balance_body address (before ++ result :: after))
       = MultiBalance.totalBalance (multi_balance_body address (before ++ after)))
  ∧ (∀ before after result result',
       is_failed result = true →
       is_failed result' = true →
       MultiBalance.totalBalance (multi_balance_body address (before ++ result :: after))
       = MultiBalance.totalBalance (multi_balance_body address (before ++ result' :: after))).
Proof.
  intros body.
  assert (BalanceEntry.balance <$> MultiBalance.networks body
          = Some <$> omap (reported address) queried) as Hbalances.
  { unfold body. rewrite body_networks. apply successful_entries_balances. }
  split_and!; try done.
  - unfold float_sum. by apply fold_add_balance_Some.
  - intros balances1 balances2 Hsame. simpl. by rewrite Hsame.
  - intros. by apply totalBalance_ignores_failed.
  - intros before after result result' H1 H2.
    by rewrite !totalBalance_ignores_failed.
Qed.

End AggregationClaims.

Lemma scenario_networks_NoDup : NoDup scenario_networks.
Proof. apply (bool_decide_unpack _). by vm_compute. Qed.

(** The scenario, run: arbitrum and trc20 succeed, solana is an
    [invalid_address], ripple an [error]; the total is 0.25 + 12.5. *)
Example getMultiNetworkBalance_scenario :
  ∃ body w',
    getMultiNetworkBalance scenario_configs scenario_networks always_initializes
      scenario_validateAddress scenario_getWalletInfo scenario_address World_empty
    = (Normal (res_json body), w')
    ∧ BalanceEntry.network <$> MultiBalance.networks body
      = [Some "arbitrum"; Some "trc20"]
    ∧ (λ e, (BalanceEntry.network e, BalanceEntry.status e))
        <$> MultiBalance.failedNetworks body
      = [(Some "solana", invalid_address); (Some "ripple", error)]
    ∧ MultiBalance.totalBalance body = 12.75%float
    ∧ MultiBalance.totalNetworksChecked body = 4.
Proof. eexists _, _. split; [by vm_compute|]. by vm_compute. Qed.

Lemma getMultiNetworkBalance_partitions_witness :
  ∃ queried body w',
    getAllServices scenario_configs scenario_networks always_initializes World_empty
    = (Normal queried, w')
    ∧ getMultiNetworkBalance scenario_configs scenario_networks always_initializes
        scenario_validateAddress scenario_getWalletInfo scenario_address World_empty
      = (Normal (res_json body), w')
    ∧ length (MultiBalance.networks body) + length (MultiBalance.failedNetworks body)
      = length queried.
Proof.
  destruct (getMultiNetworkBalance_partitions
              scenario_configs scenario_networks always_initializes
              scenario_validateAddress scenario_getWalletInfo scenario_address
              World_empty cache_consistent_empty scenario_networks_NoDup)
    as (queried & body & w' & Hall & Hrun & Hlen & _).
  by exists queried, body, w'.
Defined.

Lemma getMultiNetworkBalance_isolates_adapters_witness :
  ∃ (queried : list BaseBlockchainService) body w',
    getAllServices scenario_configs scenario_networks always_initializes World_empty
    = (Normal queried, w')
    ∧ getMultiNetworkBalance scenario_configs scenario_networks always_initializes
      scenario_validateAddress scenario_getWalletInfo scenario_address World_empty
    = (Normal (res_json body), w')
    ∧ ∀ service,
        service ∈ queried →
        scenario_validateAddress service scenario_address = Normal false →
        invalid_address_entry service ∈ MultiBalance.failedNetworks body.
Proof.
  destruct (getMultiNetworkBalance_isolates_adapters
              scenario_configs scenario_networks always_initializes
              scenario_validateAddress scenario_getWalletInfo scenario_address
              World_empty cache_consistent_empty scenario_networks_NoDup)
    as (queried & body & w' & Hall & Hrun & Heach).
  exists queried, body, w'. split; [exact Hall|]. split; [exact Hrun|].
  intros service Hin Hinvalid.
  destruct (Heach service Hin) as [Hcase _]. by apply Hcase.
Defined.

Lemma totalBalance_sums_successful_only_witness :
  let ok := fulfilled (success_entry
                         (fresh_service scenario_configs TRC20 World_empty)
                         (WalletInfo.mk scenario_address 12.5%float "TRX" None None None None)) in
  let ko := fulfilled (invalid_address_entry
                         (fresh_service scenario_configs SOLANA World_empty)) in
  MultiBalance.totalBalance (multi_balance_body scenario_address ([ok] ++ ko :: [ok]))
  = MultiBalance.totalBalance (multi_balance_body scenario_address ([ok] ++ [ok])).
Proof.
  intros ok ko.
  apply (totalBalance_sums_successful_only
           scenario_validateAddress scenario_getWalletInfo scenario_address []).
  reflexivity.
Defined.

(** ** Computations over an adapter's fields *)

Lemma readonly_ret {S A} (a : A) : readonly (eff_ret (S:=S) a).
Proof. done. Qed.

Lemma readonly_throw {S A} (e : JsThrown) : readonly (eff_throw (S:=S) (A:=A) e).
Proof. done. Qed.

Lemma readonly_lift {S A} (c : Completion A) : readonly (eff_lift (S:=S) c).
Proof. done. Qed.

Lemma readonly_with_field {S F A} (field : S → option F) property
    (call : F → Completion A) :
  readonly (with_field field property call).
Proof. done. Qed.

Lemma readonly_bind {S A B} (m : Eff S A) (k : A → Eff S B) :
  readonly m → (∀ a, readonly (k a)) → readonly (eff_bind m k).
Proof.
  intros Hm Hk this. unfold eff_bind. specialize (Hm this).
  destruct (m this) as [[a|e] this']; simpl in *; subst; [apply Hk|done].
Qed.

Lemma readonly_try {S A} (body : Eff S A) (handler : JsThrown → Eff S A) :
  readonly body → (∀ e, readonly (handler e)) → readonly (eff_try body handler).
Proof.
  intros Hb Hh this. unfold eff_try. specialize (Hb this).
  destruct (body this) as [[a|e] this']; simpl in *; subst; [done|apply Hh].
Qed.

Lemma readonly_or_handleError {S A} self context (body : Eff S A) :
  readonly body → readonly (or_handleError self context body).
Proof. intros Hb. apply readonly_try; [done|]. intros e. apply readonly_lift. Qed.

(** Walks through a method's body: binds, handlers and the case
    distinctions between them. *)
Ltac readonly_method :=
  repeat first
    [ progress intros
    | apply readonly_or_handleError
    | apply readonly_try
    | apply readonly_bind
    | apply readonly_ret
    | apply readonly_throw
    | apply readonly_lift
    | apply readonly_with_field
    | case_match ].

(** A read-only [try] whose handler returns a value is a call that
    returns a value. *)
Lemma eff_try_returns {S A} (body : Eff S A) (fallback : JsThrown → A) :
  readonly body →
  ∀ this, ∃ a, eff_try body (λ e, eff_ret (fallback e)) this = (Normal a, this).
Proof.
  intros Hbody this. specialize (Hbody this). unfold eff_try, eff_ret.
  destruct (body this) as [[a|e] this']; simpl in *; subst; by eexists.
Qed.

(** ** The adapters *)

Example RippleService_address_pattern_genesis :
  RippleService.address_pattern "rHb9CJAWyB4rj91VRWn96DkukG4bwdtyTh" = true
  ∧ RippleService.address_pattern "rHb9CJAWyB4rj91VRWn96Dkuk" = false
  ∧ RippleService.address_pattern "rHb9CJAWyB4rj91VRWn96DkukG4bwdtyT0" = false
  ∧ RippleService.address_pattern "xHb9CJAWyB4rj91VRWn96DkukG4bwdtyTh" = false.
Proof. by vm_compute. Qed.

(** C8: for each of the seven adapters, whatever the SDK's address
    check does on the string given (return either boolean, or throw) and
    whatever state the adapter is in (initialised or not),
    [validateAddress] returns a boolean, does not throw, and leaves the
    adapter's fields as they were. *)
Theorem validateAddress_returns_boolean (address : string) :
  (∀ (sdk : ArbitrumService.Sdk) this,
     ∃ b, ArbitrumService.validateAddress address this = (Normal b, this))
  ∧ (∀ (sdk : AvalancheService.Sdk) this,
       ∃ b, AvalancheService.validateAddress address this = (Normal b, this))
  ∧ (∀ (sdk : TRC20Service.Sdk) this,
       ∃ b, TRC20Service.validateAddress address this = (Normal b, this))
  ∧ (∀ (sdk : RippleService.Sdk) this,
       ∃ b, RippleService.validateAddress address this = (Normal b, this))
  ∧ (∀ (sdk : CardanoService.Sdk) this,
       ∃ b, CardanoService.validateAddress address this = (Normal b, this))
  ∧ (∀ (sdk : SolanaService.Sdk) this,
       ∃ b, SolanaService.validateAddress address this = (Normal b, this))
  ∧ (∀ (sdk : TONService.Sdk) this,
       ∃ b, TONService.validateAddress address this = (Normal b, this)).
Proof.
  split_and!; intros sdk this.
  - apply (eff_try_returns _ (λ _, false)). readonly_method.
  - apply (eff_try_returns _ (λ _, false)). readonly_method.
  - apply (eff_try_returns _ (λ _, false)). readonly_method.
  - apply (eff_try_returns _ (λ _, RippleService.address_pattern address)).
    readonly_method.
  - apply (eff_try_returns _ (λ _, false)). readonly_method.
  - apply (eff_try_returns _ (λ _, false)). readonly_method.
  - apply (eff_try_returns _ (λ _, false)). readonly_method.
Qed.

(** An adapter that was never initialised answers [false]. *)
Example TRC20Service_validateAddress_uninitialised (sdk : TRC20Service.Sdk) address :
  TRC20Service.validateAddress address (TRC20Service.mkState None None)
  = (Normal false, TRC20Service.mkState None None).
Proof. done. Qed.

(** *** [getTransactionStatus] *)

(** The adapters built on [ethers] and on [tronweb] answer an unknown
    identifier (the node returns [null], or a transaction without
    [txID]) with a receipt whose status is [failed], and change no
    field. *)
Lemma ArbitrumService_getTransactionStatus_unknown
    (sdk : ArbitrumService.Sdk) self hash p w :
  ArbitrumService.provider_getTransaction p hash = Normal None →
  ArbitrumService.getTransactionStatus self hash (ArbitrumService.mkState (Some p) w)
  = (Normal (TransactionResponse.mk hash failed None None None
               (Some ArbitrumService.now)),
     ArbitrumService.mkState (Some p) w).
Proof.
  intros H. unfold ArbitrumService.getTransactionStatus, or_handleError, eff_try,
    eff_bind, with_field. simpl. by rewrite H.
Qed.

Lemma AvalancheService_getTransactionStatus_unknown
    (sdk : AvalancheService.Sdk) self hash p w :
  AvalancheService.provider_getTransaction p hash = Normal None →
  AvalancheService.getTransactionStatus self hash (AvalancheService.mkState (Some p) w)
  = (Normal (TransactionResponse.mk hash failed None None None
               (Some AvalancheService.now)),
     AvalancheService.mkState (Some p) w).
Proof.
  intros H. unfold AvalancheService.getTransactionStatus, or_handleError, eff_try,
    eff_bind, with_field. simpl. by rewrite H.
Qed.

Lemma TRC20Service_getTransactionStatus_unknown
    (sdk : TRC20Service.Sdk) self hash tw w transaction :
  TRC20Service.trx_getTransaction tw hash = Normal transaction →
  transaction ≫= (λ t, truthy (TRC20Service.txID t)) = None →
  TRC20Service.getTransactionStatus self hash (TRC20Service.mkState (Some tw) w)
  = (Normal (TransactionResponse.mk hash failed None None None
               (Some TRC20Service.now)),
     TRC20Service.mkState (Some tw) w).
Proof.
  intros Hcall H. unfold TRC20Service.getTransactionStatus, or_handleError, eff_try,
    eff_bind, with_field. simpl. by rewrite Hcall, H.
Qed.

(** [getTransactionStatus] reads the adapter's fields and writes none. *)
Lemma getTransactionStatus_readonly self hash :
  (∀ sdk : ArbitrumService.Sdk,
     readonly (ArbitrumService.getTransactionStatus self hash))
  ∧ (∀ sdk : AvalancheService.Sdk,
       readonly (AvalancheService.getTransactionStatus self hash))
  ∧ (∀ sdk : TRC20Service.Sdk,
       readonly (TRC20Service.getTransactionStatus self hash))
  ∧ (∀ sdk : RippleService.Sdk,
       readonly (RippleService.getTransactionStatus self hash)).
Proof.
  split_and!; intros sdk.
  - unfold ArbitrumService.getTransactionStatus. readonly_method.
  - unfold AvalancheService.getTransactionStatus. readonly_method.
  - unfold TRC20Service.getTransactionStatus. readonly_method.
  - unfold RippleService.getTransactionStatus. readonly_method.
Qed.

(** C7 fails on [RippleService].  Whatever the server answers, the call
    returns no receipt with status [failed]: its receipts are
    [confirmed] or [pending]; and when the [tx] request is rejected, as
    it is for an identifier the ledger does not know, the call throws
    the wrapped error. *)
Theorem RippleService_getTransactionStatus_unknown_throws
    (sdk : RippleService.Sdk) self hash :
  (∀ this,
     match (RippleService.getTransactionStatus self hash this).1 with
     | Normal receipt =>
         TransactionResponse.status receipt = confirmed
         ∨ TransactionResponse.status receipt = pending
     | Throw _ => True
     end)
  ∧ (∀ c w,
       match RippleService.client_request_tx c hash with
       | Throw reason =>
           RippleService.getTransactionStatus self hash
             (RippleService.mkState (Some c) w)
           = (Throw (JsError (getNetworkType self
                              +:+ " getTransactionStatus failed: "
                              +:+ message_of reason)),
              RippleService.mkState (Some c) w)
       | Normal _ => True
       end).
Proof.
  split.
  - intros this.
    unfold RippleService.getTransactionStatus, or_handleError, eff_try, eff_bind,
      with_field, eff_lift, eff_ret.
    destruct (RippleService.client this) as [c|]; [|done].
    destruct (RippleService.client_request_tx c hash) as [response|e]; [|done].
    destruct (truthy (RippleService.Fee response)) as [drops|].
    + destruct (RippleService.dropsToXrp drops); [|done]. simpl.
      destruct (default false (RippleService.validated response)); auto.
    + simpl. destruct (default false (RippleService.validated response)); auto.
  - intros c w.
    destruct (RippleService.client_request_tx c hash) as [response|reason] eqn:H;
      [done|].
    unfold RippleService.getTransactionStatus, or_handleError, eff_try, eff_bind,
      with_field. simpl. by rewrite H.
Qed.

(** The same request on the mainnet adapter, for a well-formed
    identifier the ledger has never seen. *)
Example RippleService_getTransactionStatus_txnNotFound :
  RippleService.getTransactionStatus (sdk := xrpl_unknown_transactions)
    (fresh_service (NETWORK_CONFIGS no_env) RIPPLE World_empty)
    "E08D6E9754025BA2534A78707605E0601F03ACE063687A0CA1BDDACFCD1698C7"
    (RippleService.mkState (Some "wss://xrplcluster.com") None)
  = (Throw (JsError "ripple getTransactionStatus failed: Transaction not found."),
     RippleService.mkState (Some "wss://xrplcluster.com") None).
Proof. done. Qed.

(** *** [createWallet] *)

Lemma string_app_nil_r (s : string) : s +:+ EmptyString = s.
Proof.
  induction s as [|a s IH]; [done|].
  change (String a (s +:+ EmptyString) = String a s). by rewrite IH.
Qed.

Lemma string_app_assoc (s t u : string) : (s +:+ t) +:+ u = s +:+ (t +:+ u).
Proof.
  induction s as [|a s IH]; [done|].
  change (String a ((s +:+ t) +:+ u) = String a (s +:+ (t +:+ u))). by rewrite IH.
Qed.

(** [phrase.split(' ').join(' ')] is [phrase]: the TON adapter reports
    back the mnemonic it was given. *)
Lemma split_space_from_nonempty current s : TONService.split_space_from current s ≠ [].
Proof.
  revert current. induction s as [|c rest IH]; intros current; simpl; [done|].
  destruct (Ascii.eqb c " "); [done|apply IH].
Qed.

Lemma join_split_space_from current s :
  TONService.join_space (TONService.split_space_from current s) = current +:+ s.
Proof.
  revert current. induction s as [|c rest IH]; intros current; simpl.
  - by rewrite string_app_nil_r.
  - destruct (Ascii.eqb_spec c " ") as [->|_].
    + pose proof (split_space_from_nonempty EmptyString rest) as Hne.
      specialize (IH EmptyString).
      destruct (TONService.split_space_from EmptyString rest) as [|w ws]; [done|].
      change (TONService.join_space (current :: w :: ws))
        with (current +:+ " " +:+ TONService.join_space (w :: ws)).
      by rewrite IH.
    + by rewrite IH, string_app_assoc.
Qed.

Lemma join_split_space s : TONService.join_space (TONService.split_space s) = s.
Proof. apply join_split_space_from. Qed.

Lemma truthy_idempotent (v : option string) (s : string) :
  truthy v = Some s → truthy (Some s) = Some s.
Proof.
  destruct v as [s'|]; [|done]. simpl.
  destruct (String.eqb s' EmptyString) eqn:He; [done|]. intros [= <-]. by rewrite He.
Qed.

(** [a || b] is [a] when [a] is truthy, and [b] otherwise. *)
Lemma truthy_or_else_l (a b : option string) (s : string) :
  truthy a = Some s → truthy (or_else a b) = Some s.
Proof. intros H. unfold or_else. rewrite H. by eapply truthy_idempotent. Qed.

Lemma truthy_or_else_r (a b : option string) :
  truthy a = None → truthy (or_else a b) = truthy b.
Proof. intros H. unfold or_else. by rewrite H. Qed.

Section CreateWalletReadonly.

Context (self : BaseBlockchainService) (options : option CreateWalletOptions.t).

Lemma ArbitrumService_createWallet_readonly (sdk : ArbitrumService.Sdk) entropy :
  readonly (ArbitrumService.createWallet self options entropy).
Proof. unfold ArbitrumService.createWallet. readonly_method. Qed.

Lemma AvalancheService_createWallet_readonly (sdk : AvalancheService.Sdk) entropy :
  readonly (AvalancheService.createWallet self options entropy).
Proof. unfold AvalancheService.createWallet. readonly_method. Qed.

Lemma TRC20Service_createWallet_readonly (sdk : TRC20Service.Sdk) entropy entropy' :
  readonly (TRC20Service.createWallet self options entropy entropy').
Proof. unfold TRC20Service.createWallet. readonly_method. Qed.

Lemma RippleService_createWallet_readonly (sdk : RippleService.Sdk) entropy :
  readonly (RippleService.createWallet self options entropy).
Proof. unfold RippleService.createWallet. readonly_method. Qed.

Lemma CardanoService_createWallet_readonly (sdk : CardanoService.Sdk) entropy :
  readonly (CardanoService.createWallet self options entropy).
Proof.
  unfold CardanoService.createWallet, CardanoService.createWalletFromMnemonic.
  readonly_method.
Qed.

Lemma SolanaService_createWallet_readonly (sdk : SolanaService.Sdk) entropy :
  readonly (SolanaService.createWallet self options entropy).
Proof. unfold SolanaService.createWallet. readonly_method. Qed.

Lemma TONService_createWallet_readonly (sdk : TONService.Sdk) entropy :
  readonly (TONService.createWallet self options entropy).
Proof. unfold TONService.createWallet. readonly_method. Qed.

End CreateWalletReadonly.


(** How the calls read their options and the environment. *)
Lemma truthy_or_else_none (a b : option string) :
  truthy a = None → truthy b = None → truthy (or_else a b) = None.
Proof. intros Ha Hb. by rewrite (truthy_or_else_r _ _ Ha). Qed.

(** Unfolds what the SDKs make, in each case of the options' index, and
    names what each SDK call returned. *)
Ltac sdk_results options :=
  unfold ArbitrumService_from_draw, ArbitrumService_from_mnemonic,
    AvalancheService_from_draw, AvalancheService_from_mnemonic,
    SolanaService_from_draw, SolanaService_from_mnemonic,
    TONService_from_draw, TONService_from_mnemonic, TONService_from_words,
    CardanoService_from_draw, CardanoService_from_mnemonic,
    RippleService_from_draw, RippleService_from_mnemonic,
    TRC20Service_from_draw, TRC20Service.account_base58, and_then in *;
  repeat match goal with
         | H : context [opt_index options] |- _ => revert H
         end;
  destruct (opt_index options); intros; simpl in *;
  repeat match goal with
         | H : match ?x with _ => _ end = Normal _ |- _ =>
             destruct x eqn:?; try discriminate H
         | H : Normal _ = Normal ?keys |- _ => is_var keys; injection H as <-
         end.

(** Runs a call on the results its SDK calls are known to have. *)
Ltac run_call :=
  unfold or_handleError, eff_try, eff_bind, eff_lift, eff_ret, eff_throw, eff_get,
    with_field;
  repeat first
    [ match goal with
      | H : ?x = _ |- context [?x] => rewrite H
      end
    | progress simpl ].

(** C9 (amended).  Two calls of [createWallet] in a row on one adapter,
    whatever randomness either call could draw.

    With a non-empty mnemonic supplied, on the Arbitrum, Avalanche,
    Solana, TON, Cardano and Ripple adapters: when the SDK makes a
    wallet from the mnemonic, the index and the derivation path, both
    calls return it, with that address, private key and public key, and
    leave the adapter as it was.

    With no mnemonic supplied, on every adapter (on Arbitrum, Avalanche,
    Solana and TON: when no seed phrase is configured in the
    environment): each call returns the wallet the SDK's generator makes
    from the randomness that very call draws, so the two wallets differ
    whenever the generator's two results do.

    With no mnemonic supplied and a seed phrase configured in the
    environment, on Arbitrum, Avalanche, Solana and TON: both calls
    return the wallet the SDK makes from the configured phrase. *)
Theorem createWallet_same_mnemonic_same_wallet (self : BaseBlockchainService) (options : option CreateWalletOptions.t)
    (entropy1 entropy2 : Entropy) :
  (∀ mnemonic,
     truthy (opt_mnemonic options) = Some mnemonic →
     (∀ (sdk : ArbitrumService.Sdk) keys,
        ArbitrumService_from_mnemonic options mnemonic = Normal keys →
        return_in_a_row any_state
          (ArbitrumService.createWallet self options entropy1)
          (ArbitrumService.createWallet self options entropy2) keys keys)
     ∧ (∀ (sdk : AvalancheService.Sdk) keys,
          AvalancheService_from_mnemonic options mnemonic = Normal keys →
          return_in_a_row any_state
            (AvalancheService.createWallet self options entropy1)
            (AvalancheService.createWallet self options entropy2) keys keys)
     ∧ (∀ (sdk : SolanaService.Sdk) keys,
          SolanaService_from_mnemonic options mnemonic = Normal keys →
          return_in_a_row any_state
            (SolanaService.createWallet self options entropy1)
            (SolanaService.createWallet self options entropy2) keys keys)
     ∧ (∀ (sdk : TONService.Sdk) keys,
          TONService_from_mnemonic options mnemonic = Normal keys →
          return_in_a_row any_state
            (TONService.createWallet self options entropy1)
            (TONService.createWallet self options entropy2) keys keys)
     ∧ (∀ (sdk : CardanoService.Sdk) keys,
          CardanoService_from_mnemonic mnemonic = Normal keys →
          return_in_a_row any_state
            (CardanoService.createWallet self options entropy1)
            (CardanoService.createWallet self options entropy2) keys keys)
     ∧ (∀ (sdk : RippleService.Sdk) keys,
          RippleService_from_mnemonic options mnemonic = Normal keys →
          return_in_a_row any_state
            (RippleService.createWallet self options entropy1)
            (RippleService.createWallet self options entropy2) keys keys))
  ∧ (truthy (opt_mnemonic options) = None →
     (∀ (sdk : ArbitrumService.Sdk) keys1 keys2,
        truthy (ArbitrumService.env "ARBITRUM_SEED") = None →
        ArbitrumService_from_draw options entropy1 = Normal keys1 →
        ArbitrumService_from_draw options entropy2 = Normal keys2 →
        return_in_a_row any_state
          (ArbitrumService.createWallet self options entropy1)
          (ArbitrumService.createWallet self options entropy2) keys1 keys2)
     ∧ (∀ (sdk : AvalancheService.Sdk) keys1 keys2,
          truthy (AvalancheService.env "AVALANCHE_SEED") = None →
          AvalancheService_from_draw options entropy1 = Normal keys1 →
          AvalancheService_from_draw options entropy2 = Normal keys2 →
          return_in_a_row any_state
            (AvalancheService.createWallet self options entropy1)
            (AvalancheService.createWallet self options entropy2) keys1 keys2)
     ∧ (∀ (sdk : SolanaService.Sdk) keys1 keys2,
          truthy (SolanaService.env "SOLANA_SEED") = None →
          SolanaService_from_draw options entropy1 = Normal keys1 →
          SolanaService_from_draw options entropy2 = Normal keys2 →
          return_in_a_row any_state
            (SolanaService.createWallet self options entropy1)
            (SolanaService.createWallet self options entropy2) keys1 keys2)
     ∧ (∀ (sdk : TONService.Sdk) keys1 keys2,
          truthy (TONService.env "TON_SEED") = None →
          TONService_from_draw options entropy1 = Normal keys1 →
          TONService_from_draw options entropy2 = Normal keys2 →
          return_in_a_row any_state
            (TONService.createWallet self options entropy1)
            (TONService.createWallet self options entropy2) keys1 keys2)
     ∧ (∀ (sdk : CardanoService.Sdk) keys1 keys2,
          CardanoService_from_draw entropy1 = Normal keys1 →
          CardanoService_from_draw entropy2 = Normal keys2 →
          return_in_a_row any_state
            (CardanoService.createWallet self options entropy1)
            (CardanoService.createWallet self options entropy2) keys1 keys2)
     ∧ (∀ (sdk : RippleService.Sdk) keys1 keys2,
          RippleService_from_draw options entropy1 = Normal keys1 →
          RippleService_from_draw options entropy2 = Normal keys2 →
          return_in_a_row any_state
            (RippleService.createWallet self options entropy1)
            (RippleService.createWallet self options entropy2) keys1 keys2)
     ∧ (∀ (sdk : TRC20Service.Sdk) tronWeb entropy1' entropy2' keys1 keys2,
          TRC20Service_from_draw tronWeb entropy1 = Normal keys1 →
          TRC20Service_from_draw tronWeb entropy2 = Normal keys2 →
          return_in_a_row (λ this, TRC20Service.tronWeb this = Some tronWeb)
            (TRC20Service.createWallet self options entropy1 entropy1')
            (TRC20Service.createWallet self options entropy2 entropy2')
            keys1 keys2))
  ∧ (∀ seed,
       truthy (opt_mnemonic options) = None →
       (∀ (sdk : ArbitrumService.Sdk) keys,
          truthy (ArbitrumService.env "ARBITRUM_SEED") = Some seed →
          ArbitrumService_from_mnemonic options seed = Normal keys →
          return_in_a_row any_state
            (ArbitrumService.createWallet self options entropy1)
            (ArbitrumService.createWallet self options entropy2) keys keys)
       ∧ (∀ (sdk : AvalancheService.Sdk) keys,
            truthy (AvalancheService.env "AVALANCHE_SEED") = Some seed →
            AvalancheService_from_mnemonic options seed = Normal keys →
            return_in_a_row any_state
              (AvalancheService.createWallet self options entropy1)
              (AvalancheService.createWallet self options entropy2) keys keys)
       ∧ (∀ (sdk : SolanaService.Sdk) keys,
            truthy (SolanaService.env "SOLANA_SEED") = Some seed →
            SolanaService_from_mnemonic options seed = Normal keys →
            return_in_a_row any_state
              (SolanaService.createWallet self options entropy1)
              (SolanaService.createWallet self options entropy2) keys keys)
       ∧ (∀ (sdk : TONService.Sdk) keys,
            truthy (TONService.env "TON_SEED") = Some seed →
            TONService_from_mnemonic options seed = Normal keys →
            return_in_a_row any_state
              (TONService.createWallet self options entropy1)
              (TONService.createWallet self options entropy2) keys keys)).
Proof.
  split_and!.
  - intros mnemonic Hm. split_and!; intros sdk keys Hkeys this _.
    + pose proof (truthy_or_else_l _ (ArbitrumService.env "ARBITRUM_SEED") _ Hm).
      unfold ArbitrumService.createWallet.
      sdk_results options; run_call; by eexists _, _.
    + pose proof (truthy_or_else_l _ (AvalancheService.env "AVALANCHE_SEED") _ Hm).
      unfold AvalancheService.createWallet.
      sdk_results options; run_call; by eexists _, _.
    + unfold SolanaService.createWallet.
      sdk_results options; run_call; by eexists _, _.
    + unfold TONService.createWallet.
      sdk_results options; run_call; by eexists _, _.
    + unfold CardanoService.createWallet.
      unfold CardanoService.createWalletFromMnemonic.
      sdk_results options; run_call; by eexists _, _.
    + unfold RippleService.createWallet.
      sdk_results options; run_call; by eexists _, _.
  - intros Hm. split_and!.
    + intros sdk keys1 keys2 Hseed Hkeys1 Hkeys2 this _.
      pose proof (truthy_or_else_none _ _ Hm Hseed).
      unfold ArbitrumService.createWallet.
      sdk_results options; run_call;
        by eexists _, _.
    + intros sdk keys1 keys2 Hseed Hkeys1 Hkeys2 this _.
      pose proof (truthy_or_else_none _ _ Hm Hseed).
      unfold AvalancheService.createWallet.
      sdk_results options; run_call;
        by eexists _, _.
    + intros sdk keys1 keys2 Hseed Hkeys1 Hkeys2 this _.
      pose proof (truthy_or_else_none _ _ Hm Hseed).
      unfold SolanaService.createWallet.
      sdk_results options; run_call;
        by eexists _, _.
    + intros sdk keys1 keys2 Hseed Hkeys1 Hkeys2 this _.
      unfold TONService.createWallet.
      sdk_results options; run_call;
        by eexists _, _.
    + intros sdk keys1 keys2 Hkeys1 Hkeys2 this _.
      unfold CardanoService.createWallet.
      unfold CardanoService.createWalletFromMnemonic.
      sdk_results options; run_call;
        by eexists _, _.
    + intros sdk keys1 keys2 Hkeys1 Hkeys2 this _.
      unfold RippleService.createWallet.
      sdk_results options; run_call;
        by eexists _, _.
    + intros sdk tronWeb entropy1' entropy2' keys1 keys2 Hkeys1 Hkeys2 this Hready.
      unfold TRC20Service.createWallet.
      sdk_results options; run_call;
        by eexists _, _.
  - intros seed Hm. split_and!; intros sdk keys Hseed Hkeys this _.
    + pose proof (truthy_or_else_r _ (ArbitrumService.env "ARBITRUM_SEED") Hm) as Hor.
      rewrite Hseed in Hor.
      unfold ArbitrumService.createWallet.
      sdk_results options; run_call; by eexists _, _.
    + pose proof (truthy_or_else_r _ (AvalancheService.env "AVALANCHE_SEED") Hm) as Hor.
      rewrite Hseed in Hor.
      unfold AvalancheService.createWallet.
      sdk_results options; run_call; by eexists _, _.
    + unfold SolanaService.createWallet.
      sdk_results options; run_call; by eexists _, _.
    + unfold TONService.createWallet.
      sdk_results options; run_call; by eexists _, _.
Qed.

(** What the statement above leaves out. *)

(** On the TRC20 adapter with a mnemonic supplied the address is read as
    [account.address.base58] off what [tronWeb.address.fromPrivateKey]
    answered; that is a string ([types/tronweb.d.ts]), and then every
    call throws. *)
Lemma TRC20Service_createWallet_mnemonic_throws {sdk : TRC20Service.Sdk}
    (self : BaseBlockchainService) (options : option CreateWalletOptions.t)
    (entropy entropy' : Entropy) (mnemonic : string) (this : TRC20Service.State) :
  truthy (opt_mnemonic options) = Some mnemonic →
  (∀ tronWeb privateKey account,
     TRC20Service.address_fromPrivateKey tronWeb privateKey = Normal account →
     ∃ address, account = TRC20Service.AccountString address) →
  ∃ e, TRC20Service.createWallet self options entropy entropy' this = (Throw e, this).
Proof.
  intros Hm Hstring.
  unfold TRC20Service.createWallet, or_handleError, eff_try, eff_bind, eff_lift,
    eff_ret, eff_throw, eff_get, with_field.
  rewrite Hm.
  repeat (case_match; simplify_eq/=; try by eexists).
  all: match goal with
       | H : TRC20Service.address_fromPrivateKey _ _ = Normal _ |- _ =>
           destruct (Hstring _ _ _ H) as [? ->]
       end; simplify_eq/=.
Qed.
(** C9, as stated, fails on [ArbitrumService] when the operator has set
    [ARBITRUM_SEED]: two calls with no mnemonic supplied, drawing
    different randomness, return the same wallet, the one of the
    configured seed.  (Without the variable the stand-in SDK does give
    two different wallets for the two draws.) *)
Lemma ArbitrumService_createWallet_configured_seed :
  let create env entropy :=
    (ArbitrumService.createWallet (sdk := ethers_over env)
       (fresh_service (NETWORK_CONFIGS no_env) ARBITRUM World_empty)
       None entropy (ArbitrumService.mkState None None)).1 in
  ∃ wallet,
    create seeded_env "first draw" = Normal wallet
    ∧ create seeded_env "second draw" = Normal wallet
    ∧ WalletCreationResponse.address wallet
      = "0xtest test test test test test test test test test test junk"
    ∧ create no_env "first draw" ≠ create no_env "second draw".
Proof. eexists. by vm_compute. Qed.

(** The Arbitrum adapter on a supplied mnemonic and index, and the Ripple
    adapter on no options at all. *)
Lemma createWallet_same_mnemonic_same_wallet_witness :
  (∃ keys,
     return_in_a_row any_state
       (ArbitrumService.createWallet (sdk := ethers_over no_env)
          (fresh_service (NETWORK_CONFIGS no_env) ARBITRUM World_empty)
          scenario_mnemonic_options "first draw")
       (ArbitrumService.createWallet (sdk := ethers_over no_env)
          (fresh_service (NETWORK_CONFIGS no_env) ARBITRUM World_empty)
          scenario_mnemonic_options "second draw")
       keys keys
     ∧ keys.1.1 = "0xabandon abandon abandon abandon abandon abandon abandon abandon abandon abandon abandon aboutm/44'/60'/0'/0/0")
  ∧ (∃ keys1 keys2,
       return_in_a_row any_state
         (RippleService.createWallet (sdk := xrpl_unknown_transactions)
            (fresh_service (NETWORK_CONFIGS no_env) RIPPLE World_empty)
            None "first draw")
         (RippleService.createWallet (sdk := xrpl_unknown_transactions)
            (fresh_service (NETWORK_CONFIGS no_env) RIPPLE World_empty)
            None "second draw")
         keys1 keys2
       ∧ keys1.1.1 = "rgenerated from first draw"
       ∧ keys2.1.1 = "rgenerated from second draw").
Proof.
  split.
  - destruct (createWallet_same_mnemonic_same_wallet
                (fresh_service (NETWORK_CONFIGS no_env) ARBITRUM World_empty)
                scenario_mnemonic_options "first draw" "second draw")
      as (Hsupplied & _ & _).
    destruct (Hsupplied _ eq_refl) as (Harbitrum & _).
    eexists. split; [apply (Harbitrum (ethers_over no_env)); reflexivity|].
    reflexivity.
  - destruct (createWallet_same_mnemonic_same_wallet
                (fresh_service (NETWORK_CONFIGS no_env) RIPPLE World_empty)
                None "first draw" "second draw")
      as (_ & Hdrawn & _).
    destruct (Hdrawn eq_refl) as (_ & _ & _ & _ & _ & Hripple & _).
    eexists _, _.
    split; [apply (Hripple xrpl_unknown_transactions); reflexivity|].
    split; reflexivity.
Defined.

(** The TRC20 adapter on a supplied mnemonic, with [tronweb] as its
    declaration has it: the call throws on reading [base58]. *)
Example TRC20Service_createWallet_mnemonic :
  ∃ e,
    TRC20Service.createWallet (sdk := tronweb_as_declared)
      (fresh_service (NETWORK_CONFIGS no_env) TRC20 World_empty)
      scenario_mnemonic_options "first draw" "second draw" TRC20_initialised
    = (Throw e, TRC20_initialised).
Proof.
  eapply TRC20Service_createWallet_mnemonic_throws; [reflexivity|].
  intros tronWeb privateKey account [= <-]. by eexists.
Qed.

(** The Ripple adapter on a supplied mnemonic and index: the default
    path ends in [/0/0], which [derivePath] does not take, and the call
    throws. *)
Example RippleService_createWallet_default_path :
  (RippleService.createWallet (sdk := xrpl_unknown_transactions)
     (fresh_service (NETWORK_CONFIGS no_env) RIPPLE World_empty)
     scenario_mnemonic_options "first draw" (RippleService.mkState None None)).1
  = Throw (JsError "ripple createWallet failed: Invalid derivation path").
Proof. by vm_compute. Qed.

(** * Further properties *)

(** ** The factory, continued *)

Section FactoryInvariants.

Variable configs : NetworkType → NetworkConfig.t.
Variable networkTypes : list string.
Variable initialize : BaseBlockchainService → Completion unit.

Local Abbreviation create := (createService configs initialize).

(** What [createService] and the logging of a failure both keep, the
    loop of [getAllServices] keeps. *)
Lemma getAllServices_from_preserves (P : World → Prop) :
  (∀ key w, P w → P (create key w).2) →
  (∀ line w, P w → P (World_console_error line w)) →
  ∀ rest acc w, P w → P (getAllServices_from configs initialize rest acc w).2.
Proof.
  intros Hcreate Hlog. induction rest as [|key rest IH]; intros acc w Hw; [done|].
  simpl. unfold eff_bind at 1. unfold eff_try, eff_bind at 1.
  specialize (Hcreate key w Hw).
  destruct (create key w) as [[service|e] w1]; simpl in *.
  - by apply IH.
  - apply IH. by apply Hlog.
Qed.

Lemma createService_invariant key w :
  factory_invariant configs initialize w →
  factory_invariant configs initialize (create key w).2.
Proof.
  intros [Hcached Hcons Honce].
  destruct (services w !! key) as [cached|] eqn:Hc.
  { by rewrite (createService_cached _ _ _ _ _ Hc). }
  destruct (NetworkType_of_string key) as [n|] eqn:Hn.
  2:{ by rewrite (createService_unsupported _ _ _ _ Hc Hn). }
  assert (constructed w ∉ initialize_calls w) as Hfresh.
  { intros Hin. apply Hcons in Hin. lia. }
  destruct (NetworkConfig.enable (configs n)) eqn:He.
  - rewrite (createService_enabled _ _ _ _ _ Hc Hn He).
    destruct (initialize (fresh_service configs n w)) eqn:Hinit; simpl.
    + split; simpl.
      * intros k s. destruct (decide (key = k)) as [<-|Hne].
        -- rewrite lookup_insert_eq. intros [= <-]. exists n.
           rewrite Hinit. split_and!; try done. set_solver.
        -- rewrite lookup_insert_ne by done. intros Hk.
           destruct (Hcached k s Hk) as (m & ? & ? & ? & ? & ?).
           exists m. split_and!; try done. set_solver.
      * intros r [Hr|Hr%list_elem_of_singleton]%elem_of_app;
          [apply Hcons in Hr|]; lia.
      * apply NoDup_app. split_and!; [done| |apply NoDup_singleton].
        intros r Hr ->%list_elem_of_singleton. done.
    + split; simpl.
      * intros k s Hk. destruct (Hcached k s Hk) as (m & ? & ? & ? & ? & ?).
        exists m. split_and!; try done. set_solver.
      * intros r [Hr|Hr%list_elem_of_singleton]%elem_of_app;
          [apply Hcons in Hr|]; lia.
      * apply NoDup_app. split_and!; [done| |apply NoDup_singleton].
        intros r Hr ->%list_elem_of_singleton. done.
  - rewrite (createService_disabled _ _ _ _ _ Hc Hn He). split; simpl; [done| |done].
    intros r Hr. apply Hcons in Hr. lia.
Qed.

Lemma getAllServices_invariant w :
  factory_invariant configs initialize w →
  factory_invariant configs initialize
    (getAllServices configs networkTypes initialize w).2.
Proof.
  apply (getAllServices_from_preserves (factory_invariant configs initialize)).
  - intros key w'. apply createService_invariant.
  - by intros line w' [].
Qed.

Lemma factory_invariant_consistent w :
  factory_invariant configs initialize w → cache_consistent w.
Proof.
  intros [Hcached _ _] key service Hk.
  destruct (Hcached key service Hk) as (n & Hn & -> & _).
  by apply NetworkType_of_string_Some.
Qed.

(** X1: in every world the factory reaches from the empty one, a cached
    adapter is the adapter of its key's network, of an enabled network,
    and one on which [initialize] was invoked and returned; [initialize]
    was invoked at most once on any one object, and only on objects
    constructed before. *)
Theorem reachable_factory_invariant w :
  reachable configs networkTypes initialize w →
  factory_invariant configs initialize w ∧ cache_consistent w.
Proof.
  intros Hreach.
  assert (factory_invariant configs initialize w) as Hinv.
  { induction Hreach as [|key w _ IH|w _ IH].
    - split; simpl; [|by intros r ?%elem_of_nil|apply NoDup_nil_2].
      intros key service H. by rewrite lookup_empty in H.
    - by apply createService_invariant.
    - by apply getAllServices_invariant. }
  split; [done|by apply factory_invariant_consistent].
Qed.

Lemma createService_grows key w :
  services w ⊆ services (create key w).2.
Proof.
  destruct (services w !! key) as [cached|] eqn:Hc.
  { by rewrite (createService_cached _ _ _ _ _ Hc). }
  destruct (NetworkType_of_string key) as [n|] eqn:Hn.
  2:{ by rewrite (createService_unsupported _ _ _ _ Hc Hn). }
  destruct (NetworkConfig.enable (configs n)) eqn:He.
  - rewrite (createService_enabled _ _ _ _ _ Hc Hn He).
    destruct (initialize (fresh_service configs n w)); simpl; [|done].
    by apply insert_subseteq.
  - by rewrite (createService_disabled _ _ _ _ _ Hc Hn He).
Qed.

Lemma getAllServices_from_grows rest acc w :
  services w ⊆ services (getAllServices_from configs initialize rest acc w).2.
Proof.
  apply (getAllServices_from_preserves (λ w', services w ⊆ services w')); [| |done].
  - intros key w' Hw'. etrans; [done|]. apply createService_grows.
  - by intros line w' Hw'.
Qed.

(** X2: calls that run one after the other only add to the cache: an
    entry, once cached, is neither removed nor replaced by a call of
    [createService], or of [getAllServices], during which no other call
    of the factory runs. *)
Theorem cache_only_grows w :
  (∀ key, services w ⊆ services (create key w).2)
  ∧ services w ⊆ services (getAllServices configs networkTypes initialize w).2.
Proof.
  split; [intros key; apply createService_grows|].
  apply getAllServices_from_grows.
Qed.

(** [createService] is its two halves with nothing in between. *)
Lemma createService_halves key w :
  create key w
  = match createService_until_await configs key w with
    | (inl completion, w') => (completion, w')
    | (inr awaiting, w') => createService_after_await initialize awaiting w'
    end.
Proof.
  unfold createService, createService_until_await, createService_after_await,
    new_service, call_initialize, services_set, eff_bind, eff_get, eff_ret,
    eff_throw, eff_modify.
  simpl. destruct (services w !! key); [done|].
  destruct (NetworkType_of_string key) as [n|]; [|done]. simpl.
  destruct (NetworkConfig.enable (configs n)); [|done]. simpl.
  by destruct (initialize _).
Qed.

(** However calls overlap, a key that is cached stays cached. *)
Lemma factory_step_keeps_keys state state' key :
  factory_step configs initialize state state' →
  is_Some (services state.1 !! key) → is_Some (services state'.1 !! key).
Proof.
  intros Hstep Hkey. destruct Hstep as
    [key' w waiting c w' Hcall | key' w waiting a w' Hcall | w before a after
    | line w waiting]; simpl in *; [| | |done].
  - unfold createService_until_await in Hcall.
    repeat case_match; by simplify_eq/=.
  - unfold createService_until_await in Hcall.
    repeat case_match; by simplify_eq/=.
  - unfold createService_after_await, services_set, eff_bind, eff_modify,
      eff_ret, eff_throw.
    destruct (initialize _); simpl; [|done].
    destruct (decide (awaiting_key a = key)) as [->|Hne].
    + by rewrite lookup_insert_eq.
    + by rewrite lookup_insert_ne.
Qed.

Lemma interleaving_keeps_keys state state' key :
  rtc (factory_step configs initialize) state state' →
  is_Some (services state.1 !! key) → is_Some (services state'.1 !! key).
Proof.
  induction 1 as [|state middle state' Hstep _ IH]; [done|].
  intros Hkey. by eapply IH, factory_step_keeps_keys.
Qed.

(** An enabled adapter that [createService] returns is cached under the
    key it was asked for. *)
Lemma createService_enabled_cached key w service :
  cache_consistent w →
  (create key w).1 = Normal service →
  NetworkConfig.enable (config service) = true →
  services (create key w).2 !! key = Some service.
Proof.
  intros Hw. destruct (services w !! key) as [cached|] eqn:Hc.
  { rewrite (createService_cached _ _ _ _ _ Hc). simpl. by intros [= <-]. }
  destruct (NetworkType_of_string key) as [n|] eqn:Hn.
  2:{ by rewrite (createService_unsupported _ _ _ _ Hc Hn). }
  destruct (NetworkConfig.enable (configs n)) eqn:He.
  - rewrite (createService_enabled _ _ _ _ _ Hc Hn He).
    destruct (initialize (fresh_service configs n w)); simpl; [|done].
    intros [= <-] _. by rewrite lookup_insert_eq.
  - rewrite (createService_disabled _ _ _ _ _ Hc Hn He). simpl.
    intros [= <-]. simpl. by rewrite He.
Qed.

Lemma getAllServices_from_warm rest :
  ∀ acc w,
    cache_consistent w →
    ∃ found w',
      getAllServices_from configs initialize rest acc w = (Normal (acc ++ found), w')
      ∧ ∀ service, service ∈ found →
          NetworkConfig.enable (config service) = true →
          services w' !! getNetworkType service = Some service.
Proof.
  induction rest as [|key rest IH]; intros acc w Hw.
  { exists [], w. rewrite app_nil_r. split; [done|]. by intros s ?%elem_of_nil. }
  simpl. unfold eff_bind at 1. unfold eff_try, eff_bind at 1.
  destruct (createService_consistent configs initialize key w Hw) as [Hw1 Hkey].
  pose proof (createService_enabled_cached key w) as Hcached.
  destruct (create key w) as [[service|e] w1] eqn:Hcall; simpl in *.
  - destruct (IH (acc ++ [service]) w1 Hw1) as (found & w' & Hrun & Hwarm).
    exists (service :: found), w'. rewrite Hrun, <- app_assoc. split; [done|].
    intros s [->|Hs]%elem_of_cons He; [|by apply Hwarm].
    pose proof (getAllServices_from_grows rest (acc ++ [service]) w1) as Hgrow.
    rewrite Hrun in Hgrow. simpl in Hgrow.
    rewrite (Hkey service eq_refl).
    eapply lookup_weaken; [|done]. by apply Hcached.
  - unfold console_error_push, eff_modify. simpl.
    set (w2 := World_console_error _ w1).
    assert (cache_consistent w2) as Hw2 by done.
    destruct (IH acc w2 Hw2) as (found & w' & Hrun & Hwarm).
    exists found, w'. by rewrite Hrun.
Qed.

(** X3: a run of [getAllServices] during which no other call of the
    factory runs warms the cache: every enabled adapter it returns is
    cached under its network afterwards, so that a [createService] for
    that network that comes next returns the same object and changes
    nothing. *)
Theorem getAllServices_warms_cache w :
  cache_consistent w →
  ∃ found w',
    getAllServices configs networkTypes initialize w = (Normal found, w')
    ∧ ∀ service, service ∈ found →
        NetworkConfig.enable (config service) = true →
        create (getNetworkType service) w' = (Normal service, w').
Proof.
  intros Hw.
  destruct (getAllServices_from_warm networkTypes [] w Hw) as (found & w' & Hrun & Hwarm).
  exists found, w'. split; [done|].
  intros service Hs He. by apply createService_cached, Hwarm.
Qed.

End FactoryInvariants.

(** ** The handlers of the controller *)

(** A handler that asks the factory for the adapter, calls the adapter's
    methods and turns every throw into a response: it returns a response
    and leaves the world as [createService] left it. *)
Lemma handler_frame {A}
    (configs : NetworkType → NetworkConfig.t)
    (initialize : BaseBlockchainService → Completion unit)
    (network : string) (k : BaseBlockchainService → Eff World A)
    (fallback : JsThrown → A) (w : World) :
  (∀ service, readonly (k service)) →
  ∃ response,
    eff_try (eff_bind (createService configs initialize network) k)
      (λ e, eff_ret (fallback e)) w
    = (Normal response, (createService configs initialize network w).2).
Proof.
  intros Hk. unfold eff_try, eff_bind.
  destruct (createService configs initialize network w) as [[service|e] w1]; simpl.
  - specialize (Hk service w1).
    destruct (k service w1) as [[a|e] w2]; simpl in *; subst; by eexists.
  - by eexists.
Qed.

Lemma handler_throws {A}
    (configs : NetworkType → NetworkConfig.t)
    (initialize : BaseBlockchainService → Completion unit)
    (network : string) (k : BaseBlockchainService → Eff World A)
    (fallback : JsThrown → A) (w w' : World) (e : JsThrown) :
  createService configs initialize network w = (Throw e, w') →
  eff_try (eff_bind (createService configs initialize network) k)
    (λ e, eff_ret (fallback e)) w
  = (Normal (fallback e), w').
Proof. intros Hcall. unfold eff_try, eff_bind. by rewrite Hcall. Qed.

Section HandlerFacts.

Variable configs : NetworkType → NetworkConfig.t.
Variable networkTypes : list string.
Variable initialize : BaseBlockchainService → Completion unit.
Variable validateAddress : BaseBlockchainService → string → Completion bool.
Variable getBalance_of : BaseBlockchainService → string → Completion float.
Variable getWalletInfo : BaseBlockchainService → string → Completion WalletInfo.t.
Variable sendTransaction_of :
  BaseBlockchainService → TransactionRequest.t → Completion TransactionResponse.t.
Variable getTransactionStatus_of :
  BaseBlockchainService → string → Completion TransactionResponse.t.
Variable getLatestBlock_of : BaseBlockchainService → Completion BlockInfo.t.
Variable estimateGas_of :
  BaseBlockchainService → TransactionRequest.t → Completion float.
Variable createWallet_of :
  BaseBlockchainService → CreateWalletOptions.t → Completion WalletCreationResponse.t.

Local Abbreviation create := (createService configs initialize).

(** X4: every handler of a single network answers, whatever the factory
    and the adapter do: it never throws, and what it changes in the world
    is what its one call of [createService] changes. *)
Theorem handlers_always_respond (network : string) (w : World) :
  let w' := (create network w).2 in
  (∀ address, ∃ response,
      getBalance configs initialize validateAddress getBalance_of getWalletInfo
        network address w = (Normal response, w'))
  ∧ (∀ request, ∃ response,
      sendTransaction configs initialize validateAddress sendTransaction_of
        network request w = (Normal response, w'))
  ∧ (∀ hash, ∃ response,
      getTransactionStatus configs initialize getTransactionStatus_of
        network hash w = (Normal response, w'))
  ∧ (∀ address, ∃ response,
      getWalletInfo_handler configs initialize validateAddress getWalletInfo
        network address w = (Normal response, w'))
  ∧ (∃ response,
      getLatestBlock configs initialize getLatestBlock_of network w
      = (Normal response, w'))
  ∧ (∀ request, ∃ response,
      estimateGas configs initialize validateAddress getWalletInfo estimateGas_of
        network request w = (Normal response, w'))
  ∧ (∀ address, ∃ response,
      validateAddress_handler configs initialize validateAddress
        network address w = (Normal response, w'))
  ∧ (∀ body, ∃ response,
      createWallet configs initialize createWallet_of network body w
      = (Normal response, w'))
  ∧ (∀ startTime endTime, ∃ response,
      getNetworkHealth configs initialize getLatestBlock_of
        network startTime endTime w = (Normal response, w')).
Proof.
  intros w'. subst w'.
  split_and!; intros; apply handler_frame; readonly_method.
Qed.

(** X5: in a world whose cache is consistent, a network name outside the
    enum is answered by every handler with status 500 and by the health
    check with status 503 and the factory's message; the world is left
    as it was. *)
Theorem handlers_unsupported_network (network : string) (w : World) :
  cache_consistent w →
  NetworkType_of_string network = None →
  (∀ request,
      sendTransaction configs initialize validateAddress sendTransaction_of
        network request w
      = (Normal (res_status_json 500 "Failed to send transaction"), w))
  ∧ (∀ hash,
      getTransactionStatus configs initialize getTransactionStatus_of
        network hash w
      = (Normal (res_status_json 500 "Failed to get transaction status"), w))
  ∧ (∀ address,
      getWalletInfo_handler configs initialize validateAddress getWalletInfo
        network address w
      = (Normal (res_status_json 500 "Failed to get wallet info"), w))
  ∧ getLatestBlock configs initialize getLatestBlock_of network w
    = (Normal (res_status_json 500 "Failed to get latest block"), w)
  ∧ (∀ request,
      estimateGas configs initialize validateAddress getWalletInfo estimateGas_of
        network request w
      = (Normal (res_status_json 500 "Failed to estimate gas"), w))
  ∧ (∀ address,
      validateAddress_handler configs initialize validateAddress
        network address w
      = (Normal (res_status_json 500 "Failed to validate address"), w))
  ∧ (∀ body,
      createWallet configs initialize createWallet_of network body w
      = (Normal (res_status_json 500 "Failed to create wallet"), w))
  ∧ (∀ startTime endTime,
      getNetworkHealth configs initialize getLatestBlock_of
        network startTime endTime w
      = (Normal (res_status_json 503 ("Unsupported network type: " +:+ network)), w)).
Proof.
  intros Hw Hkey.
  pose proof (createService_unsupported configs initialize network w
                (cache_consistent_keys w network Hw Hkey) Hkey) as Hcall.
  split_and!; intros; refine (handler_throws _ _ _ _ _ _ _ _ Hcall).
Qed.

(** X6: an address that the adapter's [validateAddress] rejects is
    answered with status 400 by the handlers that take one, whatever the
    adapter's other methods would do: no balance is read, no gas
    estimated and no transaction sent for it.  For [sendTransaction]
    this holds of the recipient and of a sender that is given and not
    empty. *)
Theorem handlers_reject_invalid_address
    (network : string) (w w' : World) (service : BaseBlockchainService)
    (address : string) :
  create network w = (Normal service, w') →
  validateAddress service address = Normal false →
  (∀ balance_of walletInfo_of,
      getBalance configs initialize validateAddress balance_of walletInfo_of
        network address w
      = (Normal (res_status_json 400 "Invalid address format"), w'))
  ∧ (∀ walletInfo_of,
      getWalletInfo_handler configs initialize validateAddress walletInfo_of
        network address w
      = (Normal (res_status_json 400 "Invalid address format"), w'))
  ∧ (∀ walletInfo_of gas_of request,
      TransactionRequest.to request = address →
      estimateGas configs initialize validateAddress walletInfo_of gas_of
        network request w
      = (Normal (res_status_json 400 "Invalid recipient address"), w'))
  ∧ (∀ send request,
      TransactionRequest.to request = address →
      sendTransaction configs initialize validateAddress send network request w
      = (Normal (res_status_json 400 "Invalid recipient address"), w'))
  ∧ (∀ send request,
      validateAddress service (TransactionRequest.to request) = Normal true →
      truthy (TransactionRequest.from request) = Some address →
      sendTransaction configs initialize validateAddress send network request w
      = (Normal (res_status_json 400 "Invalid sender address"), w')).
Proof.
  intros Hcall Hbad.
  split_and!; intros;
    unfold getBalance, getWalletInfo_handler, estimateGas, sendTransaction,
      eff_try, eff_bind, eff_lift;
    rewrite Hcall; subst; simpl;
    repeat match goal with H : _ = _ |- _ => rewrite H; simpl end; done.
Qed.

Lemma network_detail_spec key w :
  cache_consistent w →
  ∃ detail,
    network_detail configs initialize key w = (Normal detail, (create key w).2)
    ∧ NetworkDetail.type detail = key
    ∧ detail_describes configs detail.
Proof.
  intros Hw. unfold network_detail, eff_try, eff_bind at 1, detail_describes.
  destruct (services w !! key) as [cached|] eqn:Hc.
  { rewrite (createService_cached _ _ _ _ _ Hc). simpl. eexists. split; [done|].
    split; [done|]. simpl. apply Hw in Hc. unfold getNetworkType in Hc.
    by rewrite <- Hc, NetworkType_of_string_value. }
  destruct (NetworkType_of_string key) as [n|] eqn:Hn.
  2:{ rewrite (createService_unsupported _ _ _ _ Hc Hn). simpl. eexists.
      split; [done|]. split; [done|]. simpl. by rewrite Hn. }
  destruct (NetworkConfig.enable (configs n)) eqn:He.
  - rewrite (createService_enabled _ _ _ _ _ Hc Hn He).
    destruct (initialize _); simpl; eexists; (split; [done|]); (split; [done|]);
      simpl; rewrite Hn; by rewrite He.
  - rewrite (createService_disabled _ _ _ _ _ Hc Hn He). simpl. eexists.
    split; [done|]. split; [done|]. simpl. by rewrite Hn.
Qed.

Lemma network_details_spec networks :
  ∀ w,
    cache_consistent w →
    ∃ (details : list NetworkDetail.t) w',
      network_details configs initialize networks w = (Normal details, w')
      ∧ NetworkDetail.type <$> details = networks
      ∧ ∀ detail, detail ∈ details → detail_describes configs detail.
Proof.
  induction networks as [|key rest IH]; intros w Hw.
  { exists [], w. split; [done|]. split; [done|]. by intros d ?%elem_of_nil. }
  simpl. unfold eff_bind at 1.
  destruct (network_detail_spec key w Hw) as (detail & -> & Hkey & Hd).
  destruct (createService_consistent configs initialize key w Hw) as [Hw1 _].
  destruct (IH _ Hw1) as (details & w' & Hrun & Htypes & Hall).
  unfold eff_bind at 1. rewrite Hrun. simpl.
  exists (detail :: details), w'. split; [done|]. split.
  - by rewrite fmap_cons, Hkey, Htypes.
  - intros d [->|Hin]%elem_of_cons; [done|by apply Hall].
Qed.

(** X7: over a registry without repetition, [getSupportedNetworks]
    answers with status 200 and one entry for every registered name, in
    the order of the registry.  The entry of a
    name outside the enum is [unavailable], with the factory's message;
    the entry of a disabled network is [available], since the factory
    hands out its adapter without contacting the network.  [count] is
    the size of the registry and [availableCount] does not exceed it. *)
Theorem getSupportedNetworks_lists_registry (w : World) :
  NoDup networkTypes →
  cache_consistent w →
  ∃ body w',
    getSupportedNetworks configs networkTypes initialize w
    = (Normal (res_json body), w')
    ∧ NetworkDetail.type <$> SupportedNetworksBody.supportedNetworks body
      = networkTypes
    ∧ SupportedNetworksBody.count body = length networkTypes
    ∧ (SupportedNetworksBody.availableCount body ≤ SupportedNetworksBody.count body)%nat
    ∧ ∀ detail,
        detail ∈ SupportedNetworksBody.supportedNetworks body →
        detail_describes configs detail.
Proof.
  intros _ Hw.
  destruct (network_details_spec networkTypes w Hw)
    as (details & w' & Hrun & Htypes & Hall).
  unfold getSupportedNetworks, getAvailableNetworks, eff_try, eff_bind.
  rewrite Hrun. simpl. eexists _, w'. split; [done|]. simpl.
  split_and!; try done.
  rewrite <- Htypes, length_fmap. apply length_filter.
Qed.

End HandlerFacts.

(** ** The middlewares and the route table *)

Lemma elem_of_Object_values_NetworkType (network : string) :
  network ∈ Object_values_NetworkType ↔ is_Some (NetworkType_of_string network).
Proof.
  split.
  - intros (n & -> & _)%list_elem_of_fmap. rewrite NetworkType_of_string_value. by eexists.
  - intros [n Hn]. apply NetworkType_of_string_Some in Hn as <-.
    apply list_elem_of_fmap. exists n. split; [done|].
    destruct n; set_solver.
Qed.

(** X8: [validateNetwork] lets through exactly the names of the enum
    that the factory's [switch] knows.  So behind it [createService]
    never throws [Unsupported network type]: if it throws, it throws
    what [initialize] threw on the freshly constructed adapter. *)
Theorem validateNetwork_admits_supported (network : string) :
  (validateNetwork Object_values_NetworkType (Some network) = next
   ↔ is_Some (NetworkType_of_string network))
  ∧ (validateNetwork Object_values_NetworkType (Some network) = next →
     ∀ configs initialize w e w',
       createService configs initialize network w = (Throw e, w') →
       ∃ n, NetworkType_of_string network = Some n
            ∧ NetworkConfig.enable (configs n) = true
            ∧ initialize (fresh_service configs n w) = Throw e).
Proof.
  assert (validateNetwork Object_values_NetworkType (Some network) = next
          ↔ is_Some (NetworkType_of_string network)) as Hiff.
  { rewrite <- elem_of_Object_values_NetworkType. unfold validateNetwork.
    case_bool_decide; split; try done. }
  split; [done|].
  intros [n Hn]%Hiff configs initialize w e w' Hcall.
  apply createService_throws in Hcall as [_ [Hwhy|(m & Hm & He & Hinit)]];
    [congruence|].
  exists m. by split_and!.
Qed.

Section GuardFacts.

Variable networkTypes : list string.
Variable Body : Type.
Variable Joi_validate : Body → option (list string).
Variable Limiter : Type.
Variable consume : string → Limiter → option (option float) * Limiter.
Variable Number_toString : float → string.

Local Abbreviation guards :=
  (run_middlewares networkTypes Body Joi_validate Limiter consume Number_toString).

Lemma dispatch_elem_of routes m segments route ps :
  dispatch routes m segments = Some (route, ps) →
  route ∈ routes ∧ match_path (path route) segments = Some ps.
Proof.
  induction routes as [|r routes IH]; [done|]. simpl.
  destruct (Method_eqb (method r) m).
  - destruct (match_path (path r) segments) as [ps'|] eqn:Hm.
    + intros [= <- <-]. split; [by left|done].
    + intros [Hin ?]%IH. split; [by right|done].
  - intros [Hin ?]%IH. split; [by right|done].
Qed.

(** X9: on every route of the table, validation comes before the rate
    limiter: a request that a validation middleware turns down with
    status 400 consumes no point of the limiter, and the limiter is
    asked at most once, for the key of the client's address. *)
Theorem routes_validate_before_limiting
    (route : Route) (req : Request Body) (limiter : Limiter) :
  route ∈ router →
  let consumed := consume (default "unknown" (truthy (ip Body req))) limiter in
  match guards (middlewares route) req limiter with
  | (respond rejection, limiter') =>
      (Rejection.code rejection = 400%nat ∧ limiter' = limiter)
      ∨ (Rejection.code rejection = 429%nat ∧ limiter' = consumed.2)
  | (next, limiter') =>
      (middlewares route = [] ∧ limiter' = limiter)
      ∨ (consumed.1 = None ∧ limiter' = consumed.2)
  end.
Proof.
  intros Hroute consumed. subst consumed.
  unfold router in Hroute.
  repeat (apply elem_of_cons in Hroute as [->|Hroute]);
    [..|by apply elem_of_nil in Hroute]; simpl;
    unfold validateNetwork, validateAddress_param, validateTransactionRequest,
      rateLimiterMiddleware;
    repeat (case_match; simpl; simplify_eq; auto); auto.
Qed.

(** When the chain reaches the handler, every middleware of it called
    [next()]. *)
Lemma guards_next mws req limiter limiter' :
  guards mws req limiter = (next, limiter') →
  ∀ mw, mw ∈ mws →
    ∃ l, (run_middleware networkTypes Body Joi_validate Limiter consume
            Number_toString mw req l).1
         = next.
Proof.
  revert limiter. induction mws as [|mw0 mws IH]; intros limiter Hrun mw Hin;
    [by apply elem_of_nil in Hin|].
  simpl in Hrun.
  destruct (run_middleware _ _ _ _ _ _ mw0 req limiter) as [[|rejection] l1] eqn:H0;
    [|done].
  apply elem_of_cons in Hin as [->|Hin].
  - exists limiter. by rewrite H0.
  - by eapply IH.
Qed.

(** Every route validates the parameters its path has. *)
Lemma router_guards_parameters route :
  route ∈ router →
  (Param "network" ∈ path route → mw_validateNetwork ∈ middlewares route)
  ∧ (Param "address" ∈ path route → mw_validateAddress ∈ middlewares route).
Proof.
  intros Hroute. unfold router in Hroute.
  repeat (apply elem_of_cons in Hroute as [->|Hroute]);
    [..|by apply elem_of_nil in Hroute]; simpl; split; intros Hin;
    first
      [ by repeat (apply elem_of_cons in Hin as [Hin|Hin]; [discriminate|]);
           apply elem_of_nil in Hin
      | by repeat constructor ].
Qed.

(** X10: a handler of a route with a [:network] parameter runs only on
    a registered network name: when the route's middlewares all call
    [next()], the parameter is a member of the registry; and on the
    routes with an [:address] parameter the address is not empty. *)
Theorem handler_runs_on_validated_parameters
    (m : Method) (segments : list string) (route : Route)
    (ps : list (string * string)) (body : Body) (ip : option string)
    (limiter limiter' : Limiter) :
  dispatch router m segments = Some (route, ps) →
  guards (middlewares route) (mkRequest Body ps body ip) limiter = (next, limiter') →
  (Param "network" ∈ path route →
   ∃ network, param "network" ps = Some network ∧ network ∈ networkTypes)
  ∧ (Param "address" ∈ path route →
     ∃ address, param "address" ps = Some address ∧ address ≠ EmptyString).
Proof.
  intros [Hroute Hmatch]%dispatch_elem_of Hrun.
  destruct (router_guards_parameters route Hroute) as [Hnet Haddr].
  split; intros Hin.
  - destruct (guards_next _ _ _ _ Hrun _ (Hnet Hin)) as [l Hnext].
    simpl in Hnext. unfold validateNetwork in Hnext.
    destruct (param "network" ps) as [network|]; [|done].
    case_bool_decide; [|done]. by exists network.
  - destruct (guards_next _ _ _ _ Hrun _ (Haddr Hin)) as [l Hnext].
    simpl in Hnext. unfold validateAddress_param, truthy in Hnext.
    destruct (param "address" ps) as [address|]; [|done].
    destruct (String.eqb_spec address EmptyString); [done|]. by exists address.
Qed.


End GuardFacts.

Lemma forallb_seqZ (f : Z → bool) (m n z : Z) :
  forallb f (seqZ m n) = true → (m ≤ z < m + n)%Z → f z = true.
Proof.
  intros Hall Hz. rewrite forallb_forall in Hall.
  apply Hall, list_elem_of_In, elem_of_seqZ, Hz.
Qed.

(** Within the limiter's window of 60 seconds, by running the code on
    every whole number of milliseconds, second by second. *)
Lemma retry_after_seconds_every_millisecond :
  forallb (λ s, forallb (λ ms, rounds_to_nearest_second (1000 * s + ms))
                  (seqZ 0 1000))
    (seqZ 0 61) = true.
Proof. vm_compute. reflexivity. Qed.

Lemma retry_after_seconds_window (ms : Z) :
  (0 ≤ ms ≤ 60000)%Z →
  retry_after_seconds (Some (whole ms)) = whole (Z.max 1 ((ms + 500) `div` 1000)).
Proof.
  intros Hms.
  pose proof (Z.div_mod ms 1000 ltac:(lia)) as Hdiv.
  pose proof (Z.mod_pos_bound ms 1000 ltac:(lia)) as Hmod.
  assert (0 ≤ ms `div` 1000 < 0 + 61)%Z as Hs
    by (split; [apply Z.div_pos; lia | apply Z.div_lt_upper_bound; lia]).
  pose proof (forallb_seqZ _ _ _ _ retry_after_seconds_every_millisecond Hs) as H1.
  cbv beta in H1.
  pose proof (forallb_seqZ _ _ _ (ms `mod` 1000)%Z H1 ltac:(lia)) as H2.
  cbv beta in H2. rewrite <- Hdiv in H2.
  apply FloatAxioms.Leibniz.eqb_spec. exact H2.
Qed.

Lemma retry_after_seconds_truthy (rejRes : option float) :
  truthy_float (Some (retry_after_seconds rejRes)) = Some (retry_after_seconds rejRes).
Proof.
  unfold retry_after_seconds.
  destruct (truthy_float (Some (Math_round _))) as [secs|] eqn:Hsecs; simpl; [|done].
  unfold truthy_float in Hsecs. case_match; simplify_eq. unfold truthy_float.
  by case_match.
Qed.

(** X12: a client over the limit is answered with status 429 and one
    wait, in the body and (as a string) in the [Retry-After] header.
    The wait is never [0] and never [NaN]; it is [1] when what the
    limiter threw carries no [msBeforeNext]; and for a whole number of
    milliseconds within the limiter's window of 60 seconds it is that
    time rounded to the nearest second, halves upwards, and at least
    one second. *)
Theorem rateLimiter_retry_after
    (Limiter : Type) (consume : string → Limiter → option (option float) * Limiter)
    (Number_toString : float → string)
    (ip : option string) (limiter limiter' : Limiter) (rejRes : option float) :
  consume (default "unknown" (truthy ip)) limiter = (Some rejRes, limiter') →
  ∃ secs,
    rateLimiterMiddleware Limiter consume Number_toString ip limiter
    = (respond (Rejection.mk 429 "Too many requests" None None (Some secs)
                  [("Retry-After", Number_toString secs)]),
       limiter')
    ∧ truthy_float (Some secs) = Some secs
    ∧ (rejRes = None → secs = 1%float)
    ∧ (∀ ms, (0 ≤ ms ≤ 60000)%Z → rejRes = Some (whole ms) →
       secs = whole (Z.max 1 ((ms + 500) `div` 1000))).
Proof.
  intros Hconsume. unfold rateLimiterMiddleware. rewrite Hconsume.
  eexists. split; [done|]. split; [apply retry_after_seconds_truthy|]. split.
  - by intros ->.
  - intros ms Hms ->. by apply retry_after_seconds_window.
Qed.

(** ** Strings and decimal numerals *)

Lemma string_app_cons (c : ascii) (s t : string) :
  String c s +:+ t = String c (s +:+ t).
Proof. done. Qed.

Lemma string_app_nil_l (t : string) : EmptyString +:+ t = t.
Proof. done. Qed.

Lemma string_length_app (s t : string) :
  String.length (s +:+ t) = (String.length s + String.length t)%nat.
Proof.
  induction s as [|c s IH]; [done|].
  rewrite string_app_cons. simpl. by rewrite IH.
Qed.

Lemma repeat_char_length n c : String.length (repeat_char n c) = n.
Proof. induction n as [|n IH]; simpl; [done|by rewrite IH]. Qed.

Lemma take_drop_chars n s : take_chars n s +:+ drop_chars n s = s.
Proof.
  revert s. induction n as [|n IH]; intros [|c s]; simpl; try done.
  by rewrite string_app_cons, IH.
Qed.

Lemma take_chars_all n s : (String.length s ≤ n)%nat → take_chars n s = s.
Proof.
  revert s. induction n as [|n IH]; intros [|c s]; simpl; try done; [lia|].
  intros Hlen. rewrite IH; [done|lia].
Qed.

Lemma take_chars_length n s :
  (n ≤ String.length s)%nat → String.length (take_chars n s) = n.
Proof.
  revert s. induction n as [|n IH]; intros [|c s]; simpl; try done; [lia|].
  intros Hlen. rewrite IH; [done|lia].
Qed.

Lemma drop_chars_length n s :
  String.length (drop_chars n s) = (String.length s - n)%nat.
Proof.
  revert s. induction n as [|n IH]; intros [|c s]; simpl; done.
Qed.

(** Padding what [replace(/0+$/, '')] left gives back the original. *)
Lemma padEnd_strip_trailing_zeros s :
  padEnd (String.length s) "0" (strip_trailing_zeros s) = s.
Proof.
  unfold padEnd. induction s as [|c s IH]; [done|]. simpl.
  destruct (Ascii.eqb_spec c "0"%char) as [->|Hc]; simpl.
  - destruct (String.eqb_spec (strip_trailing_zeros s) EmptyString) as [He|He].
    + rewrite He in IH. simpl in IH. rewrite string_app_nil_l in *.
      rewrite Nat.sub_0_r in IH. simpl. by rewrite IH.
    + rewrite string_app_cons. simpl. by rewrite IH.
  - rewrite string_app_cons. simpl. by rewrite IH.
Qed.

Lemma all_digits_app s t :
  all_digits (s +:+ t) = (all_digits s && all_digits t)%bool.
Proof.
  induction s as [|c s IH]; [done|].
  rewrite string_app_cons. simpl. by rewrite IH, andb_assoc.
Qed.

Lemma all_digits_repeat_zero n : all_digits (repeat_char n "0") = true.
Proof. induction n as [|n IH]; [done|]. simpl. by rewrite IH. Qed.

Lemma all_digits_take n s : all_digits s = true → all_digits (take_chars n s) = true.
Proof.
  intros Hs. rewrite <- (take_drop_chars n s), all_digits_app in Hs.
  by apply andb_true_iff in Hs as [? _].
Qed.

Lemma all_digits_drop n s : all_digits s = true → all_digits (drop_chars n s) = true.
Proof.
  intros Hs. rewrite <- (take_drop_chars n s), all_digits_app in Hs.
  by apply andb_true_iff in Hs as [_ ?].
Qed.

Lemma all_digits_strip s :
  all_digits s = true → all_digits (strip_trailing_zeros s) = true.
Proof.
  intros Hs. rewrite <- (padEnd_strip_trailing_zeros s) in Hs.
  unfold padEnd in Hs. rewrite all_digits_app in Hs.
  by apply andb_true_iff in Hs as [? _].
Qed.

(** A numeral has no dot: [split('.')] leaves it whole, and cuts a
    numeral, a dot and a numeral in two. *)
Lemma split_dot_digits s : all_digits s = true → split_dot s = [s].
Proof.
  induction s as [|c s IH]; [done|]. simpl.
  intros [Hc Hs]%andb_true_iff. rewrite (IH Hs).
  destruct (Ascii.eqb_spec c "."%char) as [->|_]; [done|done].
Qed.

Lemma split_dot_numeral w d :
  all_digits w = true → all_digits d = true →
  split_dot (w +:+ "." +:+ d) = [w; d].
Proof.
  intros Hw Hd. induction w as [|c w IH].
  - rewrite string_app_nil_l. change ("." +:+ d) with (String "."%char d).
    simpl. by rewrite (split_dot_digits d Hd).
  - simpl in Hw. apply andb_true_iff in Hw as [Hc Hw].
    rewrite string_app_cons. simpl. rewrite (IH Hw).
    destruct (Ascii.eqb_spec c "."%char) as [->|_]; [done|done].
Qed.

Lemma decimal_value_from_spec acc s :
  decimal_value_from acc s = (acc * 10 ^ Z.of_nat (String.length s) + decimal_value s)%Z.
Proof.
  unfold decimal_value. revert acc. induction s as [|c s IH]; intros acc.
  - simpl. lia.
  - cbn [decimal_value_from String.length]. rewrite IH, (IH (10 * 0 + _)%Z).
    rewrite Nat2Z.inj_succ, Z.pow_succ_r by lia. lia.
Qed.

Lemma decimal_value_app s t :
  decimal_value (s +:+ t)
  = (decimal_value s * 10 ^ Z.of_nat (String.length t) + decimal_value t)%Z.
Proof.
  unfold decimal_value at 1 2. generalize 0%Z as acc.
  induction s as [|c s IH]; intros acc.
  - rewrite string_app_nil_l. simpl. apply decimal_value_from_spec.
  - rewrite string_app_cons. simpl. apply IH.
Qed.

Lemma decimal_value_repeat_zero n : decimal_value (repeat_char n "0") = 0%Z.
Proof.
  unfold decimal_value. induction n as [|n IH]; [done|]. simpl. apply IH.
Qed.

Lemma decimal_value_bounds s :
  all_digits s = true →
  (0 ≤ decimal_value s < 10 ^ Z.of_nat (String.length s))%Z.
Proof.
  induction s as [|c s IH]; [simpl; unfold decimal_value; simpl; lia|].
  simpl all_digits. intros [Hc Hs]%andb_true_iff.
  change (String c s) with (String c EmptyString +:+ s).
  rewrite decimal_value_app, string_length_app. specialize (IH Hs).
  assert (0 ≤ decimal_value (String c EmptyString) ≤ 9)%Z as Hd.
  { unfold decimal_value. simpl. unfold is_digit, digit_value in *.
    apply andb_true_iff in Hc as [?%Nat.leb_le ?%Nat.leb_le]. lia. }
  change (String.length (String c EmptyString)) with 1%nat.
  rewrite Nat2Z.inj_add, Z.pow_add_r by lia. change (10 ^ Z.of_nat 1)%Z with 10%Z.
  nia.
Qed.

(** The decimal digits of a number denote it. *)
Lemma pretty_N_go_numeral x s :
  ∃ numeral,
    pretty_N_go x s = numeral +:+ s
    ∧ all_digits numeral = true
    ∧ decimal_value numeral = Z.of_N x
    ∧ (numeral = EmptyString → x = 0%N).
Proof.
  revert s. induction (N.lt_wf_0 x) as [x _ IH]; intros s.
  assert (x = 0 ∨ 0 < x)%N as [->|Hx] by lia.
  { exists EmptyString. by rewrite pretty_N_go_0. }
  rewrite pretty_N_go_step by done.
  destruct (IH (x `div` 10)%N (N.div_lt x 10 Hx eq_refl)
              (String (pretty_N_char (x `mod` 10)) s))
    as (numeral & -> & Hd & Hv & _).
  exists (numeral +:+ String (pretty_N_char (x `mod` 10)) EmptyString).
  pose proof (N.mod_lt x 10 ltac:(done)) as Hmod.
  assert (is_digit (pretty_N_char (x `mod` 10)) = true
          ∧ digit_value (pretty_N_char (x `mod` 10)) = Z.of_N (x `mod` 10)) as [Hc Hcv].
  { generalize dependent (x `mod` 10)%N. intros d Hdigit.
    assert (d = 0 ∨ d = 1 ∨ d = 2 ∨ d = 3 ∨ d = 4 ∨ d = 5 ∨ d = 6 ∨ d = 7
            ∨ d = 8 ∨ d = 9)%N as Hcases by lia.
    destruct Hcases as [->|[->|[->|[->|[->|[->|[->|[->|[->| ->]]]]]]]]]; done. }
  split_and!.
  - change (String ?c s) with (String c EmptyString +:+ s).
    by rewrite string_app_assoc.
  - rewrite all_digits_app, Hd. simpl. by rewrite Hc.
  - rewrite decimal_value_app, Hv. unfold decimal_value. simpl. rewrite Hcv.
    rewrite (N.div_mod x 10) at 3 by done. lia.
  - intros He. apply (f_equal String.length) in He.
    rewrite string_length_app in He. simpl in He. lia.
Qed.

Lemma pretty_Z_numeral (n : Z) :
  (0 ≤ n)%Z →
  all_digits (pretty n) = true ∧ decimal_value (pretty n) = n
  ∧ pretty n ≠ EmptyString.
Proof.
  intros Hn. destruct n as [|p|p]; [done| |lia].
  unfold pretty, pretty_Z, pretty, pretty_positive, pretty, pretty_N.
  rewrite decide_False by done.
  destruct (pretty_N_go_numeral (N.pos p) EmptyString) as (numeral & -> & Hd & Hv & Hne).
  rewrite string_app_nil_r. split_and!; [done|done|].
  intros He. by specialize (Hne He).
Qed.

(** ** [TONService]: amounts *)

(** What [fromNano] prints: the digits before the last nine, a dot, and
    the last nine without their trailing zeros. *)
Lemma fromNano_parts (amount : Z) :
  (0 ≤ amount)%Z →
  ∃ whole last9,
    all_digits whole = true ∧ all_digits last9 = true
    ∧ String.length last9 = 9%nat ∧ whole ≠ EmptyString
    ∧ decimal_value (whole +:+ last9) = amount
    ∧ TONQueries.fromNano amount
      = if String.eqb (strip_trailing_zeros last9) EmptyString then whole
        else whole +:+ "." +:+ strip_trailing_zeros last9.
Proof.
  intros Hn. destruct (pretty_Z_numeral amount Hn) as (Hd & Hv & _).
  unfold TONQueries.fromNano.
  set (amountStr := padStart 10 "0" (pretty amount)).
  assert (all_digits amountStr = true ∧ decimal_value amountStr = amount
          ∧ (10 ≤ String.length amountStr)%nat) as (HD & HV & HL).
  { unfold amountStr, padStart.
    rewrite all_digits_app, all_digits_repeat_zero, decimal_value_app,
      decimal_value_repeat_zero, string_length_app, repeat_char_length.
    split_and!; [done|lia|lia]. }
  exists (slice_until_last 9 amountStr), (slice_last 9 amountStr).
  unfold slice_until_last, slice_last.
  assert (String.length (take_chars (String.length amountStr - 9) amountStr)
          = (String.length amountStr - 9)%nat) as Hwhole
    by (apply take_chars_length; lia).
  split_and!.
  - by apply all_digits_take.
  - by apply all_digits_drop.
  - rewrite drop_chars_length. lia.
  - intros He. rewrite He in Hwhole. simpl in Hwhole. lia.
  - by rewrite take_drop_chars.
  - unfold or_default.
    destruct (String.eqb_spec (take_chars (String.length amountStr - 9) amountStr)
                EmptyString) as [He|_]; [|done].
    rewrite He in Hwhole. simpl in Hwhole. lia.
Qed.

(** X13: [toNano] undoes [fromNano]: for every amount of nanotons that
    is not negative, reading back what [fromNano] prints gives the
    amount, whatever its size. *)
Theorem toNano_fromNano {rpc : TONQueries.Rpc} (amount : Z) :
  BigInt_reads_decimal TONQueries.BigInt →
  (0 ≤ amount)%Z →
  TONQueries.toNano (inl (TONQueries.fromNano amount)) = Normal amount.
Proof.
  intros HBigInt Hn.
  destruct (fromNano_parts amount Hn)
    as (whole & last9 & Hw & Hl & Hlen & Hne & Hv & ->).
  pose proof (padEnd_strip_trailing_zeros last9) as Hpad. rewrite Hlen in Hpad.
  assert (TONQueries.BigInt (whole +:+ last9) = Normal amount) as Hread.
  { rewrite HBigInt, Hv; [done| |by rewrite all_digits_app, Hw, Hl].
    intros He. apply (f_equal String.length) in He.
    rewrite string_length_app, Hlen in He. simpl in He. lia. }
  unfold TONQueries.toNano.
  destruct (String.eqb_spec (strip_trailing_zeros last9) EmptyString) as [He|He].
  - rewrite (split_dot_digits whole Hw). rewrite He in Hpad.
    change (TONQueries.BigInt (whole +:+ take_chars 9 (padEnd 9 "0" EmptyString))
            = Normal amount).
    by rewrite Hpad, take_chars_all by lia.
  - rewrite (split_dot_numeral whole _ Hw (all_digits_strip last9 Hl)).
    change (TONQueries.BigInt
              (whole +:+ take_chars 9 (padEnd 9 "0" (strip_trailing_zeros last9)))
            = Normal amount).
    by rewrite Hpad, take_chars_all by lia.
Qed.

Lemma pow10_split (n m : nat) :
  (10 ^ Z.of_nat (n + m) = 10 ^ Z.of_nat n * 10 ^ Z.of_nat m)%Z.
Proof. rewrite Nat2Z.inj_add, Z.pow_add_r by lia. done. Qed.

(** The first nine decimals, as a number of billionths. *)
Lemma padded_decimal_value (decimal : string) :
  all_digits decimal = true →
  String.length (take_chars 9 (padEnd 9 "0" decimal)) = 9%nat
  ∧ all_digits (take_chars 9 (padEnd 9 "0" decimal)) = true
  ∧ decimal_value (take_chars 9 (padEnd 9 "0" decimal))
    = ((decimal_value decimal * 10 ^ 9)
       `div` 10 ^ Z.of_nat (String.length decimal))%Z.
Proof.
  intros Hd. unfold padEnd.
  destruct (decide (String.length decimal ≤ 9)%nat) as [Hshort|Hlong].
  - assert (String.length (decimal +:+ repeat_char (9 - String.length decimal) "0")
            = 9%nat) as Hlen
      by (rewrite string_length_app, repeat_char_length; lia).
    rewrite take_chars_all by lia.
    split_and!; [done|by rewrite all_digits_app, Hd, all_digits_repeat_zero|].
    rewrite decimal_value_app, decimal_value_repeat_zero, repeat_char_length.
    assert (10 ^ 9 = 10 ^ Z.of_nat (9 - String.length decimal)
                     * 10 ^ Z.of_nat (String.length decimal))%Z as ->
      by (rewrite <- pow10_split; f_equal; lia).
    rewrite Z.mul_assoc, Z.div_mul; [lia|].
    apply Z.pow_nonzero; lia.
  - replace (9 - String.length decimal)%nat with 0%nat by lia.
    simpl repeat_char. rewrite string_app_nil_r.
    pose proof (take_drop_chars 9 decimal) as Hsplit.
    assert (String.length (take_chars 9 decimal) = 9%nat) as Hlen
      by (apply take_chars_length; lia).
    split_and!; [done|by apply all_digits_take|].
    rewrite <- Hsplit at 2 3. rewrite decimal_value_app, string_length_app, Hlen.
    pose proof (decimal_value_bounds (drop_chars 9 decimal) (all_digits_drop 9 _ Hd))
      as Hrest.
    set (high := decimal_value (take_chars 9 decimal)) in *.
    set (low := decimal_value (drop_chars 9 decimal)) in *.
    set (k := String.length (drop_chars 9 decimal)) in *.
    rewrite pow10_split. change (10 ^ Z.of_nat 9)%Z with (10 ^ 9)%Z.
    assert (0 < 10 ^ Z.of_nat k)%Z as Hk by (apply Z.pow_pos_nonneg; lia).
    apply (Z.div_unique_pos _ _ _ (low * 10 ^ 9)%Z); nia.
Qed.

(** X14: [toNano] reads a decimal numeral as billionths, rounded down:
    the decimals after the ninth are dropped, not rounded; a numeral
    without a dot is read as whole tons. *)
Theorem toNano_rounds_down {rpc : TONQueries.Rpc} (whole decimal : string) :
  BigInt_reads_decimal TONQueries.BigInt →
  all_digits whole = true →
  all_digits decimal = true →
  TONQueries.toNano (inl (whole +:+ "." +:+ decimal))
  = Normal (decimal_value whole * 10 ^ 9
            + (decimal_value decimal * 10 ^ 9)
              `div` 10 ^ Z.of_nat (String.length decimal))%Z
  ∧ TONQueries.toNano (inl whole) = Normal (decimal_value whole * 10 ^ 9)%Z.
Proof.
  intros HBigInt Hw Hd.
  assert (∀ digits,
    all_digits digits = true →
    TONQueries.BigInt (whole +:+ take_chars 9 (padEnd 9 "0" digits))
    = Normal (decimal_value whole * 10 ^ 9
              + (decimal_value digits * 10 ^ 9)
                `div` 10 ^ Z.of_nat (String.length digits))%Z) as Hread.
  { intros digits Hdigits.
    destruct (padded_decimal_value digits Hdigits) as (Hlen & Hpd & Hpv).
    rewrite HBigInt.
    - by rewrite decimal_value_app, Hlen, Hpv.
    - intros He. apply (f_equal String.length) in He.
      rewrite string_length_app, Hlen in He. simpl in He. lia.
    - by rewrite all_digits_app, Hw, Hpd. }
  unfold TONQueries.toNano. split.
  - rewrite (split_dot_numeral whole decimal Hw Hd). by apply Hread.
  - rewrite (split_dot_digits whole Hw).
    change (TONQueries.BigInt (whole +:+ take_chars 9 (padEnd 9 "0" EmptyString))
            = Normal (decimal_value whole * 10 ^ 9)%Z).
    rewrite (Hread EmptyString eq_refl). f_equal.
    change (decimal_value EmptyString) with 0%Z.
    rewrite Z.mul_0_l, Z.div_0_l; [lia|]. done.
Qed.

Lemma BigInt_of_decimal_reads : BigInt_reads_decimal BigInt_of_decimal.
Proof.
  intros s Hne Hd. unfold BigInt_of_decimal. rewrite Hd.
  by destruct (String.eqb_spec s EmptyString).
Qed.

(** ** The adapters, continued *)

Lemma TONService_validateAddress_returns {sdk : TONService.Sdk} address this :
  ∃ b, TONService.validateAddress address this = (Normal b, this)
       ∧ (b = true → is_normal (TONService.Address_parse address) = true).
Proof.
  unfold TONService.validateAddress, eff_try, eff_bind, eff_lift.
  destruct (TONService.Address_parse address); simpl; eexists; (split; [done|]); done.
Qed.

Lemma RippleService_validateAddress_returns {sdk : RippleService.Sdk} address this :
  ∃ b, RippleService.validateAddress address this = (Normal b, this).
Proof. apply (eff_try_returns _ (λ _, RippleService.address_pattern address)). readonly_method. Qed.

Lemma ArbitrumService_validateAddress_returns {sdk : ArbitrumService.Sdk} address this :
  ∃ b, ArbitrumService.validateAddress address this = (Normal b, this).
Proof. apply (eff_try_returns _ (λ _, false)). readonly_method. Qed.

Lemma CardanoService_validateAddress_returns {sdk : CardanoService.Sdk} address this :
  ∃ b, CardanoService.validateAddress address this = (Normal b, this).
Proof. apply (eff_try_returns _ (λ _, false)). readonly_method. Qed.

(** *** [getBalance] *)

(** X15: an address that the adapter's own [validateAddress] rejects
    makes [getBalance] throw [<network> getBalance failed: Invalid ...
    address format], in the TON, Ripple, Arbitrum and Tron adapters
    alike, whatever the node would answer and whether or not the adapter
    is connected; no field of the adapter changes. *)
Theorem getBalance_rejects_invalid_address
    (self : BaseBlockchainService) (address : string) :
  (∀ (sdk : TONService.Sdk) (rpc : TONQueries.Rpc) this,
     (TONService.validateAddress address this).1 = Normal false →
     TONQueries.getBalance self address this
     = (Throw (JsError (getNetworkType self
                        +:+ " getBalance failed: Invalid TON address format")),
        this))
  ∧ (∀ (sdk : RippleService.Sdk) (rpc : RippleQueries.Rpc) this,
       (RippleService.validateAddress address this).1 = Normal false →
       RippleQueries.getBalance self address this
       = (Throw (JsError (getNetworkType self
                          +:+ " getBalance failed: Invalid XRP address format")),
          this))
  ∧ (∀ (sdk : ArbitrumService.Sdk) (rpc : ArbitrumQueries.Rpc) this,
       (ArbitrumService.validateAddress address this).1 = Normal false →
       ArbitrumQueries.getBalance self address this
       = (Throw (JsError (getNetworkType self
                          +:+ " getBalance failed: Invalid Ethereum address format")),
          this))
  ∧ (∀ (sdk : TRC20Service.Sdk) (rpc : TRC20Queries.Rpc) this,
       (TRC20Service.validateAddress address this).1 = Normal false →
       TRC20Queries.getBalance self address this
       = (Throw (JsError (getNetworkType self
                          +:+ " getBalance failed: Invalid Tron address format")),
          this)).
Proof.
  split_and!; intros sdk rpc this Hbad.
  - destruct (TONService_validateAddress_returns address this) as (b & Hb & _).
    rewrite Hb in Hbad. simpl in Hbad. injection Hbad as ->.
    unfold TONQueries.getBalance, or_handleError, eff_try, eff_bind at 1.
    by rewrite Hb.
  - destruct (RippleService_validateAddress_returns address this) as (b & Hb).
    rewrite Hb in Hbad. simpl in Hbad. injection Hbad as ->.
    unfold RippleQueries.getBalance, or_handleError, eff_try, eff_bind at 1.
    by rewrite Hb.
  - destruct (ArbitrumService_validateAddress_returns address this) as (b & Hb).
    rewrite Hb in Hbad. simpl in Hbad. injection Hbad as ->.
    unfold ArbitrumQueries.getBalance, or_handleError, eff_try, eff_bind at 1.
    by rewrite Hb.
  - assert (∃ b, TRC20Service.validateAddress address this = (Normal b, this))
      as (b & Hb).
    { apply (eff_try_returns _ (λ _, false)). readonly_method. }
    rewrite Hb in Hbad. simpl in Hbad. injection Hbad as ->.
    unfold TRC20Queries.getBalance, or_handleError, eff_try, eff_bind at 1.
    by rewrite Hb.
Qed.

(** X16: an adapter that was constructed and never initialised, which
    is what the factory hands out for a disabled network, answers every
    [getBalance] with an error: the Tron adapter rejects every address
    as invalid, the others reject the address or fail to reach their
    missing connection. *)
Theorem getBalance_uninitialised_throws
    (self : BaseBlockchainService) (address : string) :
  (∀ (sdk : TRC20Service.Sdk) (rpc : TRC20Queries.Rpc),
     TRC20Queries.getBalance self address TRC20_constructed
     = (Throw (JsError (getNetworkType self
                        +:+ " getBalance failed: Invalid Tron address format")),
        TRC20_constructed))
  ∧ (∀ (sdk : TONService.Sdk) (rpc : TONQueries.Rpc),
       ∃ message,
         message ∈ ["Invalid TON address format";
                    "Cannot read properties of undefined (reading 'getBalance')"]
         ∧ TONQueries.getBalance self address TON_constructed
           = (Throw (JsError (getNetworkType self +:+ " getBalance failed: "
                              +:+ message)),
              TON_constructed))
  ∧ (∀ (sdk : RippleService.Sdk) (rpc : RippleQueries.Rpc),
       ∃ message,
         message ∈ ["Invalid XRP address format";
                    "Cannot read properties of undefined (reading 'request')"]
         ∧ RippleQueries.getBalance self address Ripple_constructed
           = (Throw (JsError (getNetworkType self +:+ " getBalance failed: "
                              +:+ message)),
              Ripple_constructed))
  ∧ (∀ (sdk : ArbitrumService.Sdk) (rpc : ArbitrumQueries.Rpc),
       ∃ message,
         message ∈ ["Invalid Ethereum address format";
                    "Cannot read properties of undefined (reading 'getBalance')"]
         ∧ ArbitrumQueries.getBalance self address Arbitrum_constructed
           = (Throw (JsError (getNetworkType self +:+ " getBalance failed: "
                              +:+ message)),
              Arbitrum_constructed)).
Proof.
  split_and!; intros sdk rpc.
  - done.
  - destruct (TONService_validateAddress_returns address TON_constructed)
      as (b & Hb & Hparse).
    unfold TONQueries.getBalance, or_handleError, eff_try, eff_bind at 1.
    rewrite Hb. destruct b; simpl.
    + specialize (Hparse eq_refl). unfold eff_bind, eff_lift.
      destruct (TONService.Address_parse address); [|done]. simpl.
      eexists. split; [|done]. set_solver.
    + eexists. split; [|done]. set_solver.
  - destruct (RippleService_validateAddress_returns address Ripple_constructed)
      as (b & Hb).
    unfold RippleQueries.getBalance, or_handleError, eff_try, eff_bind at 1.
    rewrite Hb. destruct b; simpl; (eexists; split; [|done]); set_solver.
  - destruct (ArbitrumService_validateAddress_returns address Arbitrum_constructed)
      as (b & Hb).
    unfold ArbitrumQueries.getBalance, or_handleError, eff_try, eff_bind at 1.
    rewrite Hb. destruct b; simpl; (eexists; split; [|done]); set_solver.
Qed.

(** X17: [getWalletInfo] of the Ripple adapter reads the balance through
    [getBalance], so a failed [account_info] request surfaces wrapped
    twice: [<network> getWalletInfo failed: <network> getBalance failed:
    <message>]. *)
Theorem RippleService_getWalletInfo_wraps_twice
    {sdk : RippleService.Sdk} {rpc : RippleQueries.Rpc}
    (self : BaseBlockchainService) (address : string)
    (this : RippleService.State) (client : string) (e : JsThrown) :
  (RippleService.validateAddress address this).1 = Normal true →
  RippleService.client this = Some client →
  RippleQueries.client_request_account_info client address = Throw e →
  RippleQueries.getWalletInfo self address this
  = (Throw (JsError (getNetworkType self +:+ " getWalletInfo failed: "
                     +:+ getNetworkType self +:+ " getBalance failed: "
                     +:+ message_of e)),
     this).
Proof.
  intros Hvalid Hclient Hrequest.
  destruct (RippleService_validateAddress_returns address this) as (b & Hb).
  rewrite Hb in Hvalid. simpl in Hvalid. injection Hvalid as ->.
  assert (RippleQueries.getBalance self address this
          = (Throw (JsError (getNetworkType self +:+ " getBalance failed: "
                             +:+ message_of e)), this)) as Hbalance.
  { unfold RippleQueries.getBalance, or_handleError, eff_try, eff_bind at 1.
    rewrite Hb. simpl. unfold eff_bind at 1, with_field.
    by rewrite Hclient, Hrequest. }
  unfold RippleQueries.getWalletInfo, or_handleError, eff_try, eff_bind at 1.
  rewrite Hb. simpl. unfold eff_bind at 1. by rewrite Hbalance.
Qed.

(** *** [estimateGas] *)

(** X18: [estimateGas] of the TON, Ripple and Cardano adapters never
    throws and changes no field.  A recipient that [validateAddress]
    rejects gets the fallback fee, not an error: [0.005] TON,
    [0.00001] XRP; the Ripple adapter answers the same without a
    connection.  The Cardano estimate is the constant [0.168581] ADA
    for every request. *)
Theorem estimateGas_never_throws (request : TransactionRequest.t) :
  (∀ (sdk : TONService.Sdk) this,
     ∃ fee,
       TONQueries.estimateGas request this = (Normal fee, this)
       ∧ ((TONService.validateAddress (TransactionRequest.to request) this).1
          = Normal false → fee = 0.005%float))
  ∧ (∀ (sdk : RippleService.Sdk) (rpc : RippleQueries.Rpc) this,
       ∃ fee,
         RippleQueries.estimateGas request this = (Normal fee, this)
         ∧ ((RippleService.validateAddress (TransactionRequest.to request) this).1
            = Normal false ∨ RippleService.client this = None →
            fee = 0.00001%float))
  ∧ (∀ this,
       CardanoQueries.estimateGas request this = (Normal 0.168581%float, this)).
Proof.
  split_and!.
  - intros sdk this.
    destruct (TONService_validateAddress_returns (TransactionRequest.to request) this)
      as (b & Hb & _).
    unfold TONQueries.estimateGas, eff_try, eff_bind. rewrite Hb.
    destruct b; simpl; eexists; (split; [done|]); done.
  - intros sdk rpc this.
    destruct (RippleService_validateAddress_returns (TransactionRequest.to request) this)
      as (b & Hb).
    unfold RippleQueries.estimateGas, eff_try, eff_bind at 1. rewrite Hb.
    destruct b; simpl.
    + unfold eff_bind at 1, with_field.
      destruct (RippleService.client this) as [c|] eqn:Hc; simpl.
      * destruct (RippleQueries.client_request_server_info c) as [base_fee|e];
          simpl; [|eexists; split; [done|]; by intros [|]].
        unfold eff_bind, eff_lift.
        destruct (RippleService.dropsToXrp _); simpl;
          eexists; (split; [done|]); by intros [|].
      * eexists. split; [done|]. done.
    + eexists. split; [done|]. done.
  - intros this. by vm_compute.
Qed.

(** *** [getTransactionStatus] of the TON adapter *)

(** X19: [getTransactionStatus] of the TON adapter never throws, never
    answers [failed] and changes no field.  An identifier that starts
    with [ton_], the form [sendTransaction] makes up, is answered
    [confirmed] without asking the network; any other is [pending]
    unless the wallet's recent transactions contain it, and so whenever
    the request fails or the adapter has no connection. *)
Theorem TONService_getTransactionStatus_never_fails
    {sdk : TONService.Sdk} {rpc : TONQueries.Rpc}
    (self : BaseBlockchainService) (hash : string) (this : TONService.State) :
  ∃ response,
    TONQueries.getTransactionStatus self hash this = (Normal response, this)
    ∧ TransactionResponse.hash response = hash
    ∧ TransactionResponse.status response ≠ failed
    ∧ (String.prefix "ton_" hash = true →
       response = TransactionResponse.mk hash confirmed None None None
                    (Some TONQueries.now))
    ∧ (String.prefix "ton_" hash = false →
       TONService.client this = None →
       response = TransactionResponse.mk hash pending None None None
                    (Some TONQueries.now)).
Proof.
  unfold TONQueries.getTransactionStatus, or_handleError, eff_try.
  destruct (String.prefix "ton_" hash) eqn:Hprefix.
  { simpl. eexists. split_and!; done. }
  unfold eff_bind, eff_get, with_field.
  destruct (TONService.client this) as [c|]; simpl.
  2:{ eexists. split_and!; done. }
  destruct (TONService.Address_parse _) as [address|e]; simpl.
  2:{ eexists. split_and!; done. }
  destruct (TONQueries.client_getTransactions c address 100) as [transactions|e];
    simpl.
  2:{ eexists. split_and!; done. }
  destruct (List.find _ transactions); simpl; eexists; split_and!; done.
Qed.

(** *** [CardanoService] *)

(** X20: [sendTransaction] of the Cardano adapter sends nothing: what it
    answers does not depend on [fetch], nor on the amount, the sender or
    the memo of the request.  With a wallet and a recipient that
    [validateAddress] accepts it answers [pending] under a made-up
    identifier [cardano_<time>_<random>]; without a wallet it throws. *)
Theorem CardanoService_sendTransaction_is_simulated
    {sdk : CardanoService.Sdk}
    (self : BaseBlockchainService) (entropy : Entropy) (hashTime timestampTime : Z)
    (this : CardanoService.State) :
  (∀ (http1 http2 : CardanoQueries.Http) request1 request2,
     CardanoQueries.random_suffix (Http:=http1) entropy
     = CardanoQueries.random_suffix (Http:=http2) entropy →
     TransactionRequest.to request1 = TransactionRequest.to request2 →
     CardanoQueries.sendTransaction (http:=http1) self request1 entropy
       hashTime timestampTime this
     = CardanoQueries.sendTransaction (http:=http2) self request2 entropy
         hashTime timestampTime this)
  ∧ (∀ (http : CardanoQueries.Http) request,
       is_Some (CardanoService.wallet this) →
       (CardanoService.validateAddress (TransactionRequest.to request) this).1
       = Normal true →
       CardanoQueries.sendTransaction self request entropy hashTime timestampTime this
       = (Normal (TransactionResponse.mk
                    ("cardano_" +:+ pretty hashTime +:+ "_"
                     +:+ CardanoQueries.random_suffix entropy)
                    pending None None None (Some (timestampTime `div` 1000)%Z)),
          this))
  ∧ (∀ (http : CardanoQueries.Http) request,
       CardanoService.wallet this = None →
       CardanoQueries.sendTransaction self request entropy hashTime timestampTime this
       = (Throw (JsError (getNetworkType self +:+ " sendTransaction failed: "
                          +:+ "Wallet not initialized. Please provide CARDANO_MNEMONIC")),
          this)).
Proof.
  split_and!.
  - intros http1 http2 request1 request2 Hrandom Hto.
    unfold CardanoQueries.sendTransaction. by rewrite Hrandom, Hto.
  - intros http request [w Hw] Hvalid.
    destruct (CardanoService_validateAddress_returns (TransactionRequest.to request) this)
      as (b & Hb).
    rewrite Hb in Hvalid. simpl in Hvalid. injection Hvalid as ->.
    unfold CardanoQueries.sendTransaction, or_handleError, eff_try, eff_bind at 1,
      eff_get.
    rewrite Hw. unfold eff_bind. by rewrite Hb.
  - intros http request Hw.
    unfold CardanoQueries.sendTransaction, or_handleError, eff_try, eff_bind at 1,
      eff_get.
    by rewrite Hw.
Qed.

(** X21: [makeApiCall] returns what the response's [json()] gives, or
    throws an [Error] whose message starts with [Cardano API call
    failed: ]; a response that is not [ok] gives [Cardano API call
    failed: API call failed: <status> <statusText>].  [isConnected]
    never throws: it answers whether the call for [/tip] returned.
    Neither changes a field. *)
Theorem CardanoService_makeApiCall_wraps_failures
    {http : CardanoQueries.Http}
    (self : BaseBlockchainService) (this : CardanoService.State) :
  (∀ endpoint method body,
     (CardanoQueries.makeApiCall self endpoint method body this).2 = this
     ∧ ∀ e, (CardanoQueries.makeApiCall self endpoint method body this).1 = Throw e →
            ∃ message, e = JsError ("Cardano API call failed: " +:+ message))
  ∧ (∀ endpoint method response,
       CardanoQueries.fetch (CardanoQueries.url_of this endpoint)
         (CardanoQueries.HttpMethod_value method) (CardanoQueries.headers_of self) None
       = Normal response →
       CardanoQueries.ok response = false →
       CardanoQueries.makeApiCall self endpoint method None this
       = (Throw (JsError ("Cardano API call failed: API call failed: "
                          +:+ pretty (CardanoQueries.status response) +:+ " "
                          +:+ CardanoQueries.statusText response)),
          this))
  ∧ CardanoQueries.isConnected self this
    = (Normal (is_normal
                 (CardanoQueries.makeApiCall self "/tip" CardanoQueries.HTTP_GET None
                    this).1),
       this).
Proof.
  assert (∀ endpoint method body,
    (CardanoQueries.makeApiCall self endpoint method body this).2 = this) as Hro.
  { intros endpoint method body. unfold CardanoQueries.makeApiCall.
    apply readonly_try; [|readonly_method].
    unfold eff_get. intros s. unfold eff_bind at 1.
    assert (∀ A B (m : Eff CardanoService.State A) (k : A → Eff _ B),
      readonly m → (∀ a, readonly (k a)) → readonly (eff_bind m k)) as Hbind
      by (intros; by apply readonly_bind).
    apply Hbind; [readonly_method|]. intros payload.
    apply Hbind; [readonly_method|]. intros response. readonly_method. }
  split_and!.
  - intros endpoint method body. split; [apply Hro|].
    unfold CardanoQueries.makeApiCall, eff_try.
    destruct (eff_bind _ _ this) as [[a|e0] s']; simpl; [done|].
    intros e [= <-]. by eexists.
  - intros endpoint method response Hfetch Hok.
    unfold CardanoQueries.makeApiCall, eff_try, eff_bind, eff_get, eff_lift.
    simpl. rewrite Hfetch, Hok. done.
  - unfold CardanoQueries.isConnected, eff_try, eff_bind.
    pose proof (Hro "/tip" CardanoQueries.HTTP_GET None) as Hsame.
    destruct (CardanoQueries.makeApiCall self "/tip" CardanoQueries.HTTP_GET None this)
      as [[a|e] s']; simpl in *; by subst.
Qed.

(** *** [validateAddress] of the Ripple adapter *)

Lemma base58_char_excludes (c : ascii) :
  RippleService.base58_char c = true →
  c ∉ ["0"%char; "O"%char; "I"%char; "l"%char].
Proof.
  intros Hc Hin.
  repeat (apply elem_of_cons in Hin as [->|Hin]; [by vm_compute in Hc|]).
  by apply elem_of_nil in Hin.
Qed.

(** X22: when [isValidAddress] of [xrpl] throws, [validateAddress] of
    the Ripple adapter decides by the pattern: it accepts only strings
    of 26 to 35 characters that start with [r] and contain none of [0],
    [O], [I] and [l]. *)
Theorem RippleService_validateAddress_fallback
    {sdk : RippleService.Sdk} (address : string) (this : RippleService.State)
    (e : JsThrown) :
  RippleService.isValidAddress address = Throw e →
  (RippleService.validateAddress address this).1 = Normal true →
  (26 ≤ String.length address ≤ 35)%nat
  ∧ (∃ rest, address = String "r"%char rest)
  ∧ ∀ c, c ∈ list_ascii_of_string address →
         c ∉ ["0"%char; "O"%char; "I"%char; "l"%char].
Proof.
  intros Hthrows.
  unfold RippleService.validateAddress, eff_try, eff_lift. rewrite Hthrows. simpl.
  intros [= Hpattern]. unfold RippleService.address_pattern in Hpattern.
  destruct address as [|c rest]; [done|].
  destruct (Ascii.eqb_spec c "r"%char) as [->|Hc].
  2:{ exfalso. revert Hpattern.
      destruct c as [[] [] [] [] [] [] [] []]; try done. }
  apply andb_true_iff in Hpattern as [[Hlo Hhi]%andb_true_iff Hall].
  apply Nat.leb_le in Hlo, Hhi. split; [simpl; lia|]. split.
  - by eexists.
  - intros c [->|Hin]%elem_of_cons.
    + intros Hin. repeat (apply elem_of_cons in Hin as [?|Hin]; [done|]).
      by apply elem_of_nil in Hin.
    + apply base58_char_excludes.
      rewrite forallb_forall in Hall. apply Hall. by apply list_elem_of_In.
Qed.

(** ** The API index and the start of the server *)

(** Decides the comparisons of two literals in the goal. *)
Ltac compare_literals :=
  repeat match goal with
         | |- context [String.eqb ?a ?b] =>
             let v := eval cbv in (String.eqb a b) in
             lazymatch v with
             | true => change (String.eqb a b) with true
             | false => change (String.eqb a b) with false
             end
         end.


Section ServerFacts.

Variable configs : NetworkType → NetworkConfig.t.
Variable networkTypes : list string.
Variable initialize : BaseBlockchainService → Completion unit.

Local Abbreviation create := (createService configs initialize).

(** After the loop, every network of the list that is enabled and whose
    adapters [initialize] accepts is cached. *)
Lemma getAllServices_from_caches rest :
  ∀ acc w key n,
    key ∈ rest →
    NetworkType_of_string key = Some n →
    NetworkConfig.enable (configs n) = true →
    (∀ service, networkType service = n → is_normal (initialize service) = true) →
    is_Some (services (getAllServices_from configs initialize rest acc w).2 !! key).
Proof.
  induction rest as [|k rest IH]; intros acc w key n Hin Hn He Hok;
    [by apply elem_of_nil in Hin|].
  apply elem_of_cons in Hin as [->|Hin].
  - assert (is_Some (services (create k w).2 !! k)) as [cached Hc].
    { destruct (services w !! k) as [cached|] eqn:Hc.
      { rewrite (createService_cached _ _ _ _ _ Hc). by eexists. }
      rewrite (createService_enabled _ _ _ _ _ Hc Hn He).
      specialize (Hok (fresh_service configs n w) eq_refl).
      destruct (initialize (fresh_service configs n w)); [|done]. simpl.
      rewrite lookup_insert_eq. by eexists. }
    simpl. unfold eff_bind at 1. unfold eff_try, eff_bind at 1.
    destruct (create k w) as [[service|e] w1]; simpl in *.
    + exists cached. eapply lookup_weaken; [done|].
      apply getAllServices_from_grows.
    + exists cached. eapply lookup_weaken; [|apply getAllServices_from_grows].
      done.
  - simpl. unfold eff_bind at 1. unfold eff_try, eff_bind at 1.
    destruct (create k w) as [[service|e] w1]; simpl; by eapply IH.
Qed.

(** X24: the networks cannot keep the server from starting:
    [startServer] reaches [app.listen] and returns unless building the
    application or the call of [listen] throws, whatever [initialize]
    does on any adapter.
    Once it ran from the empty cache, every registered network that is
    enabled and whose adapters [initialize] accepts is cached, and the
    cache holds only enabled, initialised adapters under their own
    names. *)
Theorem startServer_survives_networks (App_listen : Completion unit) :
  let w' := (getAllServices configs networkTypes initialize World_empty).2 in
  startServer configs networkTypes initialize App_listen World_empty
  = (Normal (if is_normal App_listen then started else exited 1), w')
  ∧ factory_invariant configs initialize w'
  ∧ ∀ key n,
      key ∈ networkTypes →
      NetworkType_of_string key = Some n →
      NetworkConfig.enable (configs n) = true →
      (∀ service, networkType service = n → is_normal (initialize service) = true) →
      is_Some (services w' !! key).
Proof.
  intros w'. subst w'. split_and!.
  - destruct (getAllServices_from_spec configs initialize networkTypes [] World_empty
                cache_consistent_empty) as (found & w' & Hrun & _).
    unfold startServer, eff_try, eff_bind at 1. unfold getAllServices.
    rewrite Hrun. simpl. unfold eff_bind, eff_lift.
    by destruct App_listen.
  - apply getAllServices_invariant.
    split; simpl; [|by intros r ?%elem_of_nil|apply NoDup_nil_2].
    intros key service H. by rewrite lookup_empty in H.
  - intros key n. apply getAllServices_from_caches.
Qed.

End ServerFacts.

(** ** The factory under [NETWORK_CONFIGS] *)

Lemma NETWORK_CONFIGS_enable env n :
  NetworkConfig.enable (NETWORK_CONFIGS env n) = true ↔ n = TRC20.
Proof. by destruct n. Qed.

Lemma or_default_nonempty v d : d ≠ EmptyString → or_default v d ≠ EmptyString.
Proof.
  intros Hd. unfold or_default. destruct v as [s|]; [|done].
  by destruct (String.eqb_spec s EmptyString).
Qed.

(** X25: with the configuration of [networks.config.ts], whatever the
    environment holds, only the Tron adapter is ever initialised and
    cached: in every state the factory reaches, the cache has no key
    but [trc20], and what is cached there is a [TRC20Service] with a
    non-empty [rpcUrl].  For every other network of the enum each call
    of [createService] constructs a new adapter, returns it without
    [initialize], and caches nothing. *)
Theorem only_trc20_is_cached
    (env : string → option string) (networkTypes : list string)
    (initialize : BaseBlockchainService → Completion unit) (w : World) :
  reachable (NETWORK_CONFIGS env) networkTypes initialize w →
  (∀ key service,
     services w !! key = Some service →
     key = "trc20" ∧ class service = TRC20Service
     ∧ NetworkConfig.rpcUrl (config service) ≠ EmptyString)
  ∧ (∀ key n,
       NetworkType_of_string key = Some n → n ≠ TRC20 →
       createService (NETWORK_CONFIGS env) initialize key w
       = (Normal (fresh_service (NETWORK_CONFIGS env) n w), World_construct w)).
Proof.
  intros Hreach.
  assert (factory_invariant (NETWORK_CONFIGS env) initialize w) as [Hcached _ _].
  { induction Hreach as [|key w _ IH|w _ IH].
    - split; simpl; [|by intros r ?%elem_of_nil|apply NoDup_nil_2].
      intros key service H. by rewrite lookup_empty in H.
    - by apply createService_invariant.
    - by apply getAllServices_invariant. }
  assert (∀ key service, services w !! key = Some service → key = "trc20"
            ∧ class service = TRC20Service
            ∧ NetworkConfig.rpcUrl (config service) ≠ EmptyString) as Honly.
  { intros key service Hk.
    destruct (Hcached key service Hk) as (n & Hn & -> & He & _).
    apply NETWORK_CONFIGS_enable in He as ->.
    apply NetworkType_of_string_Some in Hn as <-.
    split_and!; [done|done|]. simpl. by apply or_default_nonempty. }
  split; [done|].
  intros key n Hn Hother.
  apply createService_disabled; [|done|].
  - destruct (services w !! key) as [service|] eqn:Hk; [|done].
    destruct (Honly key service Hk) as [-> _]. by injection Hn as <-.
  - destruct (NetworkConfig.enable (NETWORK_CONFIGS env n)) eqn:He; [|done].
    by apply NETWORK_CONFIGS_enable in He.
Qed.

(** ** The further properties on the scenarios *)

Lemma reachable_factory_invariant_witness :
  factory_invariant scenario_configs (fails_on ARBITRUM)
    (getAllServices scenario_configs scenario_networks (fails_on ARBITRUM)
       World_empty).2
  ∧ cache_consistent
      (getAllServices scenario_configs scenario_networks (fails_on ARBITRUM)
         World_empty).2.
Proof.
  apply (reachable_factory_invariant scenario_configs scenario_networks
           (fails_on ARBITRUM)).
  apply reachable_getAllServices, reachable_empty.
Defined.

Lemma getAllServices_warms_cache_witness :
  ∃ found w',
    getAllServices scenario_configs scenario_networks always_initializes World_empty
    = (Normal found, w')
    ∧ ∀ service, service ∈ found →
        NetworkConfig.enable (config service) = true →
        createService scenario_configs always_initializes
          (getNetworkType service) w' = (Normal service, w').
Proof.
  apply (getAllServices_warms_cache scenario_configs scenario_networks
           always_initializes World_empty cache_consistent_empty).
Defined.

Lemma handlers_unsupported_network_witness :
  getNetworkHealth (NETWORK_CONFIGS no_env) always_initializes
    (λ _, Throw JsNonError) "bitcoin" 0 5 World_empty
  = (Normal (res_status_json 503 "Unsupported network type: bitcoin"), World_empty).
Proof.
  apply (handlers_unsupported_network (NETWORK_CONFIGS no_env) always_initializes
           scenario_validateAddress scenario_getWalletInfo
           (λ _ _, Throw JsNonError) (λ _ _, Throw JsNonError)
           (λ _, Throw JsNonError) (λ _ _, Throw JsNonError)
           (λ _ _, Throw JsNonError)
           "bitcoin" World_empty cache_consistent_empty eq_refl).
Defined.

Lemma handlers_reject_invalid_address_witness :
  sendTransaction scenario_configs always_initializes scenario_validateAddress
    (λ _ _, Throw JsNonError) "solana" scenario_request World_empty
  = (Normal (res_status_json 400 "Invalid recipient address"),
     (createService scenario_configs always_initializes "solana" World_empty).2).
Proof.
  refine (proj1 (proj2 (proj2 (proj2
    (handlers_reject_invalid_address scenario_configs always_initializes
       scenario_validateAddress "solana" World_empty
       (createService scenario_configs always_initializes "solana" World_empty).2
       (fresh_service scenario_configs SOLANA World_empty)
       (TransactionRequest.to scenario_request) _ _)))) _ scenario_request eq_refl);
    reflexivity.
Defined.

Lemma getSupportedNetworks_lists_registry_witness :
  ∃ body w',
    getSupportedNetworks scenario_configs scenario_networks always_initializes
      World_empty
    = (Normal (res_json body), w')
    ∧ NetworkDetail.type <$> SupportedNetworksBody.supportedNetworks body
      = scenario_networks
    ∧ SupportedNetworksBody.count body = length scenario_networks
    ∧ (SupportedNetworksBody.availableCount body ≤ SupportedNetworksBody.count body)%nat
    ∧ ∀ detail,
        detail ∈ SupportedNetworksBody.supportedNetworks body →
        detail_describes scenario_configs detail.
Proof.
  apply (getSupportedNetworks_lists_registry scenario_configs scenario_networks
           always_initializes World_empty).
  - unfold scenario_networks. by apply (bool_decide_unpack _).
  - apply cache_consistent_empty.
Defined.

Lemma routes_validate_before_limiting_witness :
  let consumed := exhausted_limiter 29500 "unknown" tt in
  match run_middlewares Object_values_NetworkType TransactionRequest.t (λ _, None)
          unit (exhausted_limiter 29500) String_of_whole
          (middlewares sendTransaction_route)
          bitcoin_request tt with
  | (respond rejection, limiter') =>
      (Rejection.code rejection = 400%nat ∧ limiter' = tt)
      ∨ (Rejection.code rejection = 429%nat ∧ limiter' = consumed.2)
  | (next, limiter') =>
      (middlewares sendTransaction_route = [] ∧ limiter' = tt)
      ∨ (consumed.1 = None ∧ limiter' = consumed.2)
  end.
Proof.
  apply (routes_validate_before_limiting Object_values_NetworkType
           TransactionRequest.t (λ _, None) unit (exhausted_limiter 29500)
           String_of_whole sendTransaction_route bitcoin_request tt).
  unfold router, sendTransaction_route. repeat constructor.
Defined.

Lemma validateNetwork_admits_supported_witness :
  validateNetwork Object_values_NetworkType (Some "trc20") = next
  ↔ is_Some (NetworkType_of_string "trc20").
Proof. apply (validateNetwork_admits_supported "trc20"). Defined.

Lemma handler_runs_on_validated_parameters_witness :
  ∃ network,
    param "network" [("network", "trc20"); ("address", scenario_address)]
    = Some network
    ∧ network ∈ Object_values_NetworkType.
Proof.
  refine (proj1 (handler_runs_on_validated_parameters Object_values_NetworkType
                   unit (λ _, None) unit (λ _ limiter, (None, limiter))
                   String_of_whole GET ["trc20"; "balance"; scenario_address]
                   (mkRoute GET [Param "network"; Lit "balance"; Param "address"]
                      [mw_validateNetwork; mw_validateAddress; mw_rateLimiter]
                      h_getBalance)
                   [("network", "trc20"); ("address", scenario_address)]
                   tt None tt tt eq_refl eq_refl) _).
  simpl. repeat constructor.
Defined.


Lemma rateLimiter_retry_after_witness :
  ∃ secs,
    rateLimiterMiddleware unit (exhausted_limiter 29500) String_of_whole None tt
    = (respond (Rejection.mk 429 "Too many requests" None None (Some secs)
                  [("Retry-After", "30")]),
       tt)
    ∧ secs = 30%float.
Proof.
  destruct (rateLimiter_retry_after unit (exhausted_limiter 29500) String_of_whole
              None tt tt (Some (whole 29500)) eq_refl)
    as (secs & Hresponse & _ & _ & Hsecs).
  pose proof (Hsecs 29500%Z ltac:(lia) eq_refl) as ->.
  eexists. split; [exact Hresponse | reflexivity].
Defined.

Lemma toNano_fromNano_witness :
  TONQueries.toNano (rpc:=ton_rpc) (inl (TONQueries.fromNano 1500000000))
  = Normal 1500000000%Z.
Proof.
  apply (toNano_fromNano (rpc:=ton_rpc) 1500000000 BigInt_of_decimal_reads).
  lia.
Defined.

Lemma toNano_rounds_down_witness :
  TONQueries.toNano (rpc:=ton_rpc) (inl ("1" +:+ "." +:+ "2345678919"))
  = Normal (decimal_value "1" * 10 ^ 9
            + (decimal_value "2345678919" * 10 ^ 9)
              `div` 10 ^ Z.of_nat (String.length "2345678919"))%Z
  ∧ TONQueries.toNano (rpc:=ton_rpc) (inl "1")
    = Normal (decimal_value "1" * 10 ^ 9)%Z.
Proof.
  apply (toNano_rounds_down (rpc:=ton_rpc) "1" "2345678919"
           BigInt_of_decimal_reads eq_refl eq_refl).
Defined.

Lemma getBalance_rejects_invalid_address_witness :
  TONQueries.getBalance (sdk:=ton_sdk) (rpc:=ton_rpc)
    (fresh_service scenario_configs TON World_empty) scenario_address
    TON_constructed
  = (Throw (JsError "ton getBalance failed: Invalid TON address format"),
     TON_constructed).
Proof.
  apply (proj1 (getBalance_rejects_invalid_address
                  (fresh_service scenario_configs TON World_empty) scenario_address)
           ton_sdk ton_rpc TON_constructed eq_refl).
Defined.

Lemma RippleService_getWalletInfo_wraps_twice_witness :
  RippleQueries.getWalletInfo (sdk:=xrpl_unknown_transactions)
    (rpc:=xrpl_unknown_accounts)
    (fresh_service scenario_configs RIPPLE World_empty) scenario_ripple_address
    Ripple_connected
  = (Throw (JsError ("ripple getWalletInfo failed: "
                     +:+ "ripple getBalance failed: Account not found.")),
     Ripple_connected).
Proof.
  apply (RippleService_getWalletInfo_wraps_twice
           (sdk:=xrpl_unknown_transactions) (rpc:=xrpl_unknown_accounts)
           (fresh_service scenario_configs RIPPLE World_empty)
           scenario_ripple_address Ripple_connected "wss://xrplcluster.com"
           (JsError "Account not found.") eq_refl eq_refl eq_refl).
Defined.

Lemma estimateGas_never_throws_witness :
  ∃ fee,
    TONQueries.estimateGas (sdk:=ton_sdk) scenario_request TON_constructed
    = (Normal fee, TON_constructed)
    ∧ ((TONService.validateAddress (sdk:=ton_sdk)
          (TransactionRequest.to scenario_request) TON_constructed).1
       = Normal false → fee = 0.005%float).
Proof.
  apply (proj1 (estimateGas_never_throws scenario_request) ton_sdk TON_constructed).
Defined.

Lemma TONService_getTransactionStatus_never_fails_witness :
  ∃ response,
    TONQueries.getTransactionStatus (sdk:=ton_sdk) (rpc:=ton_rpc)
      (fresh_service scenario_configs TON World_empty) "ton_1700000000000_12"
      TON_constructed
    = (Normal response, TON_constructed)
    ∧ TransactionResponse.hash response = "ton_1700000000000_12"
    ∧ TransactionResponse.status response ≠ failed
    ∧ (String.prefix "ton_" "ton_1700000000000_12" = true →
       response = TransactionResponse.mk "ton_1700000000000_12" confirmed
                    None None None (Some (TONQueries.now (Rpc:=ton_rpc))))
    ∧ (String.prefix "ton_" "ton_1700000000000_12" = false →
       TONService.client TON_constructed = None →
       response = TransactionResponse.mk "ton_1700000000000_12" pending
                    None None None (Some (TONQueries.now (Rpc:=ton_rpc)))).
Proof.
  apply (TONService_getTransactionStatus_never_fails (sdk:=ton_sdk) (rpc:=ton_rpc)
           (fresh_service scenario_configs TON World_empty) "ton_1700000000000_12"
           TON_constructed).
Defined.

Lemma CardanoService_sendTransaction_is_simulated_witness :
  CardanoQueries.sendTransaction (sdk:=cardano_sdk) (http:=cardano_api_down)
    (fresh_service scenario_configs CARDANO World_empty) scenario_cardano_request
    "k3j9x0q2a" 1700000000123 1700000000124 Cardano_with_wallet
  = (Normal (TransactionResponse.mk "cardano_1700000000123_k3j9x0q2a" pending
               None None None (Some 1700000000%Z)),
     Cardano_with_wallet).
Proof.
  apply (proj1 (proj2 (CardanoService_sendTransaction_is_simulated
                         (sdk:=cardano_sdk)
                         (fresh_service scenario_configs CARDANO World_empty)
                         "k3j9x0q2a" 1700000000123 1700000000124
                         Cardano_with_wallet))
           cardano_api_down scenario_cardano_request).
  - by eexists.
  - reflexivity.
Defined.

Lemma CardanoService_makeApiCall_wraps_failures_witness :
  CardanoQueries.makeApiCall (http:=cardano_api_not_found)
    (fresh_service scenario_configs CARDANO World_empty) "/tip"
    CardanoQueries.HTTP_GET None Cardano_with_wallet
  = (Throw (JsError "Cardano API call failed: API call failed: 404 Not Found"),
     Cardano_with_wallet).
Proof.
  apply (proj1 (proj2 (CardanoService_makeApiCall_wraps_failures
                         (http:=cardano_api_not_found)
                         (fresh_service scenario_configs CARDANO World_empty)
                         Cardano_with_wallet))
           "/tip" CardanoQueries.HTTP_GET
           (CardanoQueries.mkResponse false 404%Z "Not Found" (Normal "{}"))
           eq_refl eq_refl).
Defined.

Lemma RippleService_validateAddress_fallback_witness :
  (26 ≤ String.length scenario_ripple_address ≤ 35)%nat
  ∧ (∃ rest, scenario_ripple_address = String "r"%char rest)
  ∧ ∀ c, c ∈ list_ascii_of_string scenario_ripple_address →
         c ∉ ["0"%char; "O"%char; "I"%char; "l"%char].
Proof.
  apply (RippleService_validateAddress_fallback (sdk:=xrpl_without_isValidAddress)
           scenario_ripple_address Ripple_constructed
           (JsError "isValidAddress is not a function") eq_refl eq_refl).
Defined.


Lemma startServer_survives_networks_witness :
  startServer scenario_configs scenario_networks (fails_on ARBITRUM)
    (Normal tt) World_empty
  = (Normal started,
     (getAllServices scenario_configs scenario_networks (fails_on ARBITRUM)
        World_empty).2).
Proof.
  apply (startServer_survives_networks scenario_configs scenario_networks
           (fails_on ARBITRUM) (Normal tt)).
Defined.

Lemma only_trc20_is_cached_witness :
  createService (NETWORK_CONFIGS no_env) always_initializes "ripple"
    (getAllServices (NETWORK_CONFIGS no_env) Object_values_NetworkType
       always_initializes World_empty).2
  = (Normal (fresh_service (NETWORK_CONFIGS no_env) RIPPLE
               (getAllServices (NETWORK_CONFIGS no_env) Object_values_NetworkType
                  always_initializes World_empty).2),
     World_construct
       (getAllServices (NETWORK_CONFIGS no_env) Object_values_NetworkType
          always_initializes World_empty).2).
Proof.
  apply (only_trc20_is_cached no_env Object_values_NetworkType always_initializes
           (getAllServices (NETWORK_CONFIGS no_env) Object_values_NetworkType
              always_initializes World_empty).2).
  - apply reachable_getAllServices, reachable_empty.
  - reflexivity.
  - discriminate.
Defined.

(** Two calls of [createService] for the enabled network that overlap:
    each misses the cache and constructs an adapter; the one that
    finishes first is cached, and replaced when the other finishes. *)
Example overlapping_calls_replace_entry :
  ∃ first second w1 w2,
    rtc (factory_step (NETWORK_CONFIGS no_env) always_initializes)
      (World_empty, []) (w1, [second])
    ∧ factory_step (NETWORK_CONFIGS no_env) always_initializes (w1, [second]) (w2, [])
    ∧ services w1 !! "trc20" = Some (awaiting_service first)
    ∧ services w2 !! "trc20" = Some (awaiting_service second)
    ∧ ref (awaiting_service first) ≠ ref (awaiting_service second).
Proof.
  destruct (createService_until_await (NETWORK_CONFIGS no_env) "trc20" World_empty)
    as [[c|first] wa] eqn:Ha; [by vm_compute in Ha|].
  destruct (createService_until_await (NETWORK_CONFIGS no_env) "trc20" wa)
    as [[c|second] wb] eqn:Hb;
    [by vm_compute in Ha; injection Ha as <- <-; vm_compute in Hb|].
  exists first, second,
    (createService_after_await always_initializes first wb).2,
    (createService_after_await always_initializes second
       (createService_after_await always_initializes first wb).2).2.
  split_and!.
  - eapply rtc_l; [by eapply step_waits|].
    eapply rtc_l; [by eapply step_waits|].
    apply rtc_once. apply (step_resumed _ _ _ [second] first []).
  - apply (step_resumed _ _ _ [] second []).
  - vm_compute in Ha. injection Ha as <- <-. vm_compute in Hb.
    injection Hb as <- <-. by vm_compute.
  - vm_compute in Ha. injection Ha as <- <-. vm_compute in Hb.
    injection Hb as <- <-. by vm_compute.
  - vm_compute in Ha. injection Ha as <- <-. vm_compute in Hb.
    injection Hb as <- <-. by vm_compute.
Qed.
